(** * CodeCompass: import extraction, language detection and graph assembly

    A shallow embedding of the TypeScript sources under [src/lib/parsers]
    (language registry, language detector, the ECMAScript-family and Python
    import parsers, the parser registry) and of the graph-building part of
    [src/app/api/dependencies/route.ts], followed by the properties of the
    specification that were checked against them.

    Strings are Stdlib [string]s read as sequences of UTF-16 code units
    below 256 (the ISO-8859-1 range); every primitive below follows the
    ECMAScript definition of the method it is named after on that range. *)

From Stdlib Require Import List String Ascii Bool Arith Lia ZArith QArith Permutation.
From Equations Require Import Equations.
Import ListNotations.
Close Scope Q_scope.
Open Scope list_scope.
Open Scope string_scope.

(* ===================================================================== *)
(** ** ECMAScript string and array primitives *)
(* ===================================================================== *)

Module JS.

Definition code (c : ascii) : nat := nat_of_ascii c.

Definition between (lo hi : nat) (c : ascii) : bool :=
  (lo <=? code c)%nat && (code c <=? hi)%nat.

(** [\w] : [A-Za-z0-9_] *)
Definition is_word (c : ascii) : bool :=
  between 65 90 c || between 97 122 c || between 48 57 c || (code c =? 95)%nat.

(** [\s] : TAB, LF, VT, FF, CR, SPACE and NO-BREAK SPACE (the white space and
    line terminator code points below 256). *)
Definition is_space (c : ascii) : bool :=
  between 9 13 c || (code c =? 32)%nat || (code c =? 160)%nat.

(** Line terminators below 256: LF and CR. *)
Definition is_line_terminator (c : ascii) : bool :=
  (code c =? 10)%nat || (code c =? 13)%nat.

(** [String.prototype.toLowerCase], one code unit: A-Z and the Latin-1
    capitals U+00C0..U+00DE (except the multiplication sign U+00D7). *)
Definition lower_char (c : ascii) : ascii :=
  if between 65 90 c || (between 192 222 c && negb (code c =? 215)%nat)
  then ascii_of_nat (code c + 32) else c.

Fixpoint toLowerCase (s : string) : string :=
  match s with
  | EmptyString => EmptyString
  | String c s' => String (lower_char c) (toLowerCase s')
  end.

(** [s.startsWith(p)] *)
Fixpoint startsWith (s p : string) {struct p} : bool :=
  match p, s with
  | EmptyString, _ => true
  | String _ _, EmptyString => false
  | String a p', String b s' => Ascii.eqb a b && startsWith s' p'
  end.

(** [s.includes(p)] on strings: [p] occurs somewhere in [s]. *)
Fixpoint str_includes (s p : string) : bool :=
  startsWith s p ||
  match s with
  | EmptyString => false
  | String _ s' => str_includes s' p
  end.

(** [s.endsWith(p)] *)
Fixpoint endsWith (s p : string) : bool :=
  String.eqb s p ||
  match s with
  | EmptyString => false
  | String _ s' => endsWith s' p
  end.

(** Removes the first [n] code units ([s.substring(n)]). *)
Fixpoint substring_from (n : nat) (s : string) : string :=
  match n, s with
  | O, _ => s
  | S n', String _ s' => substring_from n' s'
  | S _, EmptyString => EmptyString
  end.

(** [s.replace(p, r)] with a string pattern: the first occurrence only. *)
Fixpoint replace_first (p r s : string) : string :=
  if startsWith s p then r ++ substring_from (String.length p) s
  else match s with
       | EmptyString => EmptyString
       | String c s' => String c (replace_first p r s')
       end.

(** [s.replace(/suffix$/, "")] for a literal suffix. *)
Fixpoint strip_suffix (suffix s : string) : option string :=
  if String.eqb s suffix then Some EmptyString
  else match s with
       | EmptyString => None
       | String c s' =>
           match strip_suffix suffix s' with
           | Some r => Some (String c r)
           | None => None
           end
       end.

(** [s.replace(/(alt1|alt2|...)$/, "")]: the match is anchored at the end of
    the input, the alternatives are tried in their order. *)
Fixpoint strip_first_suffix (suffixes : list string) (s : string) : string :=
  match suffixes with
  | [] => s
  | x :: rest =>
      match strip_suffix x s with
      | Some r => r
      | None => strip_first_suffix rest s
      end
  end.

(** [s.replace(/c/g, d)] for single code units. *)
Fixpoint replace_all_char (c d : ascii) (s : string) : string :=
  match s with
  | EmptyString => EmptyString
  | String a s' => String (if Ascii.eqb a c then d else a) (replace_all_char c d s')
  end.

(** [s.split(sep)] for a one-unit separator; never empty. *)
Fixpoint split (sep : ascii) (s : string) : list string :=
  match s with
  | EmptyString => [EmptyString]
  | String c s' =>
      if Ascii.eqb c sep then EmptyString :: split sep s'
      else match split sep s' with
           | [] => [String c EmptyString]
           | h :: t => String c h :: t
           end
  end.

(** [parts.join(sep)] *)
Fixpoint join (sep : string) (l : list string) : string :=
  match l with
  | [] => EmptyString
  | x :: l' =>
      match l' with
      | [] => x
      | _ :: _ => x ++ sep ++ join sep l'
      end
  end.

(** [s.replace(/^prefix/, "")] for a literal prefix. *)
Definition strip_prefix (prefix s : string) : string :=
  if startsWith s prefix then substring_from (String.length prefix) s else s.

(** [s.match(/^\.+/)[0].length]: the number of leading dots. *)
Fixpoint leading_dots (s : string) : nat :=
  match s with
  | String c s' => if Ascii.eqb c "." then S (leading_dots s') else O
  | EmptyString => O
  end.

(** Whether the code unit [c] occurs in [s]. *)
Fixpoint occurs (c : ascii) (s : string) : bool :=
  match s with
  | EmptyString => false
  | String a s' => Ascii.eqb a c || occurs c s'
  end.

(** [arr.includes(x)] on arrays of strings. *)
Definition includes (l : list string) (x : string) : bool :=
  existsb (String.eqb x) l.

(** [arr.slice(0, e)]: a negative end counts from the end of the array. *)
Definition slice0 {A : Type} (l : list A) (e : Z) : list A :=
  let len := Z.of_nat (List.length l) in
  let k := if (e <? 0)%Z then Z.max (len + e) 0 else Z.min e len in
  firstn (Z.to_nat k) l.

(** [arr.filter(Boolean)] on strings: the empty string is the falsy one. *)
Definition filter_Boolean (l : list string) : list string :=
  filter (fun s => negb (String.eqb s EmptyString)) l.

(** Truthiness of a string. *)
Definition truthy (s : string) : bool := negb (String.eqb s EmptyString).

(** The names of the members an object literal inherits from
    [Object.prototype]: [o[k]] answers the inherited member, a function or
    an object, when [o] has no own key [k]. *)
Definition Object_prototype : list string :=
  ["constructor"; "__defineGetter__"; "__defineSetter__"; "hasOwnProperty";
   "__lookupGetter__"; "__lookupSetter__"; "isPrototypeOf";
   "propertyIsEnumerable"; "toString"; "valueOf"; "__proto__"; "toLocaleString"].

(** A [Map] with string keys: insertion ordered, [set] on a present key
    replaces the value in place. *)
Section StringMap.
Context {V : Type}.

Fixpoint map_get (m : list (string * V)) (k : string) : option V :=
  match m with
  | [] => None
  | (k', v) :: m' => if String.eqb k k' then Some v else map_get m' k
  end.

Fixpoint map_set (m : list (string * V)) (k : string) (v : V) : list (string * V) :=
  match m with
  | [] => [(k, v)]
  | (k', v') :: m' =>
      if String.eqb k k' then (k', v) :: m' else (k', v') :: map_set m' k v
  end.

Definition map_keys (m : list (string * V)) : list string := map fst m.
Definition map_values (m : list (string * V)) : list V := map snd m.
End StringMap.

End JS.

(* ===================================================================== *)
(** ** Regular expressions: the backtracking matcher of ECMAScript *)
(* ===================================================================== *)

Module Regex.

(** The fragment the parsers use: character classes, concatenation, ordered
    alternation, greedy repetition, one capturing group, and the assertions
    [^] and [$] under the [m] flag. *)
Inductive regex : Type :=
| Eps
| Chr (p : ascii -> bool)
| Seq (r1 r2 : regex)
| Alt (r1 r2 : regex)
| Star (r : regex)
| Group (r : regex)
| Bol
| Eol.

Definition Plus (r : regex) : regex := Seq r (Star r).
Definition Opt (r : regex) : regex := Alt r Eps.
Definition Lit (c : ascii) : regex := Chr (Ascii.eqb c).

Fixpoint Word (s : string) : regex :=
  match s with
  | EmptyString => Eps
  | String c s' => Seq (Lit c) (Word s')
  end.

(** A position in the input: the code units already consumed (last one
    first), those still ahead, and the text of capture group 1. *)
Record mstate : Type := MState {
  before : list ascii;
  after : list ascii;
  cap : option string
}.

Definition consumed (st st' : mstate) : string :=
  string_of_list_ascii
    (rev (firstn (List.length (before st') - List.length (before st)) (before st'))).

(** Greedy repetition of [step]: one more round, then the rest, before
    stopping here. A round that consumes nothing is rejected, as in the
    standard; every accepted round shortens the input, so the bound [n],
    which starts above the length of the input, is never exhausted (lemma
    [star_iter_fuel] below). *)
Fixpoint star_iter (step : mstate -> list mstate) (n : nat) (st : mstate)
  : list mstate :=
  match n with
  | O => [st]
  | S n' =>
      (flat_map
         (fun st' =>
            if (List.length (after st') <? List.length (after st))%nat
            then star_iter step n' st' else [])
         (step st) ++ [st])%list
  end.

(** All the ways [r] matches at [st], in the order the backtracking matcher
    explores them: the head is the match ECMAScript reports. *)
Fixpoint run (r : regex) (st : mstate) : list mstate :=
  match r with
  | Eps => [st]
  | Chr p =>
      match after st with
      | c :: rest =>
          if p c then [MState (c :: before st) rest (cap st)] else []
      | [] => []
      end
  | Seq r1 r2 => flat_map (run r2) (run r1 st)
  | Alt r1 r2 => (run r1 st ++ run r2 st)%list
  | Star r' => star_iter (run r') (S (List.length (after st))) st
  | Group r' =>
      map (fun st' => MState (before st') (after st') (Some (consumed st st')))
          (run r' st)
  | Bol =>
      match before st with
      | [] => [st]
      | c :: _ => if JS.is_line_terminator c then [st] else []
      end
  | Eol =>
      match after st with
      | [] => [st]
      | c :: _ => if JS.is_line_terminator c then [st] else []
      end
  end.

(** Whether [r] can match without consuming input (a syntactic bound). *)
Fixpoint nullable (r : regex) : bool :=
  match r with
  | Eps | Star _ | Bol | Eol => true
  | Chr _ => false
  | Seq r1 r2 => nullable r1 && nullable r2
  | Alt r1 r2 => nullable r1 || nullable r2
  | Group r' => nullable r'
  end.

(** The leftmost match starting at or after the current position. *)
Fixpoint search (r : regex) (bef aft : list ascii) {struct aft} : option mstate :=
  match run r (MState bef aft None) with
  | m :: _ => Some m
  | [] =>
      match aft with
      | [] => None
      | c :: rest => search r (c :: bef) rest
      end
  end.

(** [while ((match = re.exec(content)) !== null)] with the [g] flag: the
    successive values of [match[1]]. None of the expressions below matches
    the empty string, so every round consumes input and the bound on the
    number of rounds is never reached. *)
Fixpoint exec_loop (fuel : nat) (r : regex) (bef aft : list ascii) : list string :=
  match fuel with
  | O => []
  | S fuel' =>
      match search r bef aft with
      | None => []
      | Some m =>
          match cap m with
          | Some s => s :: exec_loop fuel' r (before m) (after m)
          | None => exec_loop fuel' r (before m) (after m)
          end
      end
  end.

Definition exec_all (r : regex) (content : string) : list string :=
  exec_loop (S (String.length content)) r [] (list_ascii_of_string content).

End Regex.

(* ===================================================================== *)
(** ** [language-configs.ts]: the language registry *)
(* ===================================================================== *)

Module Configs.

Record LanguageConfig : Type := {
  id : string;
  displayName : string;
  aliases : list string;
  extensions : list string;
  excludePatterns : list string;
  manifestFiles : list string;
  (** [Record<string, string[]>]: the entries in insertion order. *)
  fileTypes : list (string * list string)
}.

Definition javascript : LanguageConfig := {|
  id := "javascript";
  displayName := "JavaScript/TypeScript";
  aliases := ["typescript"; "tsx"; "jsx"; "js"; "ts"];
  extensions := [".js"; ".jsx"; ".ts"; ".tsx"; ".mjs"; ".cjs"];
  excludePatterns := ["node_modules"; ".d.ts"; ".test."; ".spec."; "dist/"; "build/"; ".next/"];
  manifestFiles := ["package.json"; "tsconfig.json"; "yarn.lock"; "package-lock.json"; "pnpm-lock.yaml"];
  fileTypes := [
    ("component", ["/components/"; ".tsx"; ".jsx"]);
    ("api", ["/api/"; "route.ts"; "route.js"]);
    ("util", ["/utils/"; "/lib/"; "/helpers/"]);
    ("page", ["/app/"; "/pages/"; "page."]);
    ("config", ["config"; ".config."]);
    ("style", [".css"; ".scss"; ".sass"]);
    ("hook", ["/hooks/"; "use"]);
    ("service", ["/services/"]);
    ("middleware", ["/middleware/"; "middleware."]);
    ("other", [])]
|}.

Definition python : LanguageConfig := {|
  id := "python";
  displayName := "Python";
  aliases := ["py"];
  extensions := [".py"; ".pyi"; ".pyw"];
  excludePatterns := ["__pycache__"; ".pyc"; ".pyo"; ".pyd"; "venv/"; ".venv/"; "env/"; ".pytest_cache/"; "dist/"; "build/"];
  manifestFiles := ["requirements.txt"; "setup.py"; "pyproject.toml"; "Pipfile"; "poetry.lock"; "setup.cfg"];
  fileTypes := [
    ("model", ["/models/"; "_model.py"; "/entities/"]);
    ("view", ["/views/"; "_view.py"]);
    ("controller", ["/controllers/"; "_controller.py"]);
    ("service", ["/services/"; "_service.py"]);
    ("util", ["/utils/"; "/helpers/"; "_utils.py"]);
    ("test", ["/tests/"; "_test.py"; "test_"]);
    ("config", ["config.py"; "settings.py"]);
    ("api", ["/api/"; "/endpoints/"]);
    ("middleware", ["/middleware/"]);
    ("other", [])]
|}.

Definition go : LanguageConfig := {|
  id := "go";
  displayName := "Go";
  aliases := ["golang"];
  extensions := [".go"];
  excludePatterns := ["/vendor/"; "_test.go"; "/testdata/"];
  manifestFiles := ["go.mod"; "go.sum"];
  fileTypes := [
    ("handler", ["/handlers/"; "/controllers/"; "_handler.go"]);
    ("model", ["/models/"; "/entities/"; "_model.go"]);
    ("service", ["/services/"; "_service.go"]);
    ("util", ["/utils/"; "/pkg/"]);
    ("test", ["_test.go"]);
    ("middleware", ["/middleware/"]);
    ("api", ["/api/"]);
    ("config", ["config.go"]);
    ("other", [])]
|}.

Definition rust : LanguageConfig := {|
  id := "rust";
  displayName := "Rust";
  aliases := ["rs"];
  extensions := [".rs"];
  excludePatterns := ["/target/"; "/deps/"];
  manifestFiles := ["Cargo.toml"; "Cargo.lock"];
  fileTypes := [
    ("model", ["/models/"; "/entities/"]);
    ("service", ["/services/"]);
    ("util", ["/utils/"; "/helpers/"]);
    ("handler", ["/handlers/"; "/routes/"]);
    ("api", ["/api/"]);
    ("config", ["config.rs"]);
    ("test", ["/tests/"; "_test.rs"]);
    ("other", [])]
|}.

Definition java : LanguageConfig := {|
  id := "java";
  displayName := "Java";
  aliases := [];
  extensions := [".java"];
  excludePatterns := ["/target/"; "/build/"; ".class"];
  manifestFiles := ["pom.xml"; "build.gradle"; "build.gradle.kts"; "settings.gradle"];
  fileTypes := [
    ("controller", ["/controller/"; "Controller.java"]);
    ("service", ["/service/"; "Service.java"]);
    ("model", ["/model/"; "/entity/"; "Entity.java"]);
    ("repository", ["/repository/"; "Repository.java"]);
    ("util", ["/util/"; "Utils.java"]);
    ("config", ["/config/"; "Config.java"]);
    ("api", ["/api/"]);
    ("test", ["/test/"; "Test.java"]);
    ("other", [])]
|}.

Definition cpp : LanguageConfig := {|
  id := "cpp";
  displayName := "C/C++";
  aliases := ["c"; "c++"; "cxx"];
  extensions := [".cpp"; ".cc"; ".cxx"; ".c"; ".h"; ".hpp"; ".hxx"];
  excludePatterns := ["/build/"; "/cmake-build-"; ".o"; ".a"; ".so"];
  manifestFiles := ["CMakeLists.txt"; "Makefile"; "configure.ac"];
  fileTypes := [
    ("header", [".h"; ".hpp"; ".hxx"]);
    ("source", [".cpp"; ".cc"; ".cxx"; ".c"]);
    ("util", ["/utils/"; "/helpers/"]);
    ("test", ["/tests/"; "_test."]);
    ("config", ["config."]);
    ("other", [])]
|}.

Definition ruby : LanguageConfig := {|
  id := "ruby";
  displayName := "Ruby";
  aliases := ["rb"];
  extensions := [".rb"; ".rake"];
  excludePatterns := ["/vendor/"; ".bundle/"];
  manifestFiles := ["Gemfile"; "Gemfile.lock"; "Rakefile"];
  fileTypes := [
    ("controller", ["/controllers/"; "_controller.rb"]);
    ("model", ["/models/"; "_model.rb"]);
    ("view", ["/views/"]);
    ("service", ["/services/"; "_service.rb"]);
    ("util", ["/lib/"; "/helpers/"]);
    ("test", ["/test/"; "/spec/"; "_spec.rb"]);
    ("config", ["/config/"]);
    ("other", [])]
|}.

Definition php : LanguageConfig := {|
  id := "php";
  displayName := "PHP";
  aliases := [];
  extensions := [".php"];
  excludePatterns := ["/vendor/"; "/cache/"];
  manifestFiles := ["composer.json"; "composer.lock"];
  fileTypes := [
    ("controller", ["/Controllers/"; "Controller.php"]);
    ("model", ["/Models/"; "Model.php"]);
    ("service", ["/Services/"; "Service.php"]);
    ("view", ["/views/"; "/templates/"]);
    ("util", ["/Utils/"; "/Helpers/"]);
    ("middleware", ["/Middleware/"]);
    ("test", ["/tests/"; "Test.php"]);
    ("config", ["/config/"]);
    ("other", [])]
|}.

(** Ordered by priority (most common first). *)
Definition LANGUAGE_CONFIGS : list LanguageConfig :=
  [javascript; python; go; rust; java; cpp; ruby; php].

(** [LANGUAGE_CONFIGS.find(config => config.id === languageId ||
      config.aliases.includes(languageId.toLowerCase()))] *)
Definition getLanguageConfig (languageId : string) : option LanguageConfig :=
  find (fun config =>
          String.eqb (id config) languageId
          || JS.includes (aliases config) (JS.toLowerCase languageId))
       LANGUAGE_CONFIGS.


(** [getFileType] of both parsers: the first type one of whose patterns
    occurs in the path, else ["other"]. *)
Fixpoint classify (fileTypes : list (string * list string)) (path : string) : string :=
  match fileTypes with
  | [] => "other"
  | (type, patterns) :: rest =>
      if existsb (fun pattern => JS.str_includes path pattern) patterns
      then type else classify rest path
  end.

End Configs.

(* ===================================================================== *)
(** ** [language-detector.ts] *)
(* ===================================================================== *)

Module Detector.
Import Configs.

Record GitHubTreeItem : Type := {
  path : string;
  type : string;
  sha : string
}.

(** ["github-api" | "manifest" | "extension" | "manual"] *)
Inductive DetectionMethod : Type :=
| github_api | manifest | extension | manual.

Inductive Metadata : Type :=
| languageStats (stats : list (string * Z))
| manifestFilesFound (files : list string).

(** What the field [language] holds at run time: a string or, when the
    lookup in the manual table of [mapGitHubLanguageToId] reaches a member
    inherited from [Object.prototype], that member, which is truthy and is
    no string. *)
Inductive LanguageValue : Type :=
| Identifier (languageId : string)
| PrototypeMember (name : string).

Coercion Identifier : string >-> LanguageValue.

Record LanguageDetection : Type := {
  language : LanguageValue;
  confidence : Q;
  method : DetectionMethod;
  metadata : option Metadata
}.

(** What the request to the host's languages endpoint comes to: it throws,
    it answers with a status that is not ok, or it answers with the table
    of byte counts (the entries of the object, in their order). *)
Inductive ApiOutcome : Type :=
| FetchThrows
| NotOk
| Languages (languages : list (string * Z)).

(** The constructor's map: each id, then each of its aliases in lower case,
    to the config. *)
Definition configs : list (string * LanguageConfig) :=
  fold_left
    (fun m config =>
       fold_left (fun m alias => JS.map_set m (JS.toLowerCase alias) config)
                 (aliases config)
                 (JS.map_set m (id config) config))
    LANGUAGE_CONFIGS [].

Definition getConfig (languageId : string) : option LanguageConfig :=
  JS.map_get configs (JS.toLowerCase languageId).

Definition getSupportedLanguages : list LanguageConfig := LANGUAGE_CONFIGS.

(** The manual mappings for special cases: the own keys of the object
    literal. *)
Definition mappings : list (string * string) :=
  [("typescript", "javascript"); ("tsx", "javascript"); ("jsx", "javascript");
   ("c++", "cpp"); ("c#", "csharp")].

(** [mappings[normalized] || normalized]: an own key answers its string; a
    name of [Object.prototype] answers the inherited member, which is truthy;
    any other name is [undefined] there and the name itself is returned. *)
Definition mapGitHubLanguageToId (githubLanguage : string) : LanguageValue :=
  let normalized := JS.toLowerCase githubLanguage in
  match JS.map_get configs normalized with
  | Some config => Identifier (id config)
  | None =>
      match JS.map_get mappings normalized with
      | Some mapped =>
          if JS.truthy mapped then Identifier mapped else Identifier normalized
      | None =>
          if JS.includes JS.Object_prototype normalized
          then PrototypeMember normalized
          else Identifier normalized
      end
  end.

(** [entries.sort(([, a], [, b]) => b - a)]: stable, decreasing counts. *)
Fixpoint insert_desc (x : string * Z) (l : list (string * Z)) : list (string * Z) :=
  match l with
  | [] => [x]
  | y :: l' => if (snd y <=? snd x)%Z then x :: y :: l' else y :: insert_desc x l'
  end.

Definition sort_desc (l : list (string * Z)) : list (string * Z) :=
  fold_right insert_desc [] l.

(** [values.reduce((sum, n) => sum + n, 0)]. The source adds doubles: on
    counts that are not negative and whose total is at most 2^53 every
    partial sum is an integer the doubles hold exactly, and this is the sum
    the source computes; the theorems that state the value of a total over
    byte counts assume these bounds. File counts are bounded by the length
    of an array and stay far below. *)
Definition total (l : list (string * Z)) : Z :=
  fold_left (fun sum e => (sum + snd e)%Z) l 0%Z.

Definition ratio (a b : Z) : Q := (inject_Z a / inject_Z b)%Q.

Definition detectFromGitHubAPI (api : ApiOutcome) : option LanguageDetection :=
  match api with
  | FetchThrows => None
  | NotOk => None
  | Languages languages =>
      let totalBytes := total languages in
      if (totalBytes =? 0)%Z then None
      else
        match sort_desc languages with
        | [] => None
        | (primaryLanguage, primaryBytes) :: _ =>
            Some {| language := mapGitHubLanguageToId primaryLanguage;
                    confidence := ratio primaryBytes totalBytes;
                    method := github_api;
                    metadata := Some (languageStats languages) |}
        end
  end.

Definition blob_paths_lower (tree : list GitHubTreeItem) : list string :=
  map (fun item => JS.toLowerCase (path item))
      (filter (fun item => String.eqb (type item) "blob") tree).

(** The inner loop of [detectFromManifests]: the manifest files of one
    config found among the lower-cased blob paths. *)
Definition manifestsOf (filePaths : list string) (config : LanguageConfig)
  : list (string * string) :=
  flat_map
    (fun manifestFile =>
       if JS.includes filePaths (JS.toLowerCase manifestFile)
       then [(id config, manifestFile)] else [])
    (manifestFiles config).

(** [detectedManifests]: the outer loop, over the configs in their order. *)
Definition detectedManifests (tree : list GitHubTreeItem) : list (string * string) :=
  let filePaths := blob_paths_lower tree in
  flat_map (manifestsOf filePaths) LANGUAGE_CONFIGS.

Definition detectFromManifests (tree : list GitHubTreeItem) : option LanguageDetection :=
  match detectedManifests tree with
  | [] => None
  | primaryManifest :: _ =>
      Some {| language := fst primaryManifest;
              confidence := (8 # 10)%Q;
              method := manifest;
              metadata := Some (manifestFilesFound (map snd (detectedManifests tree))) |}
  end.

(** [path.match(/(\.[^/.]+)$/)]: the last dot of the path together with a
    non-empty rest that has neither a slash nor a dot. *)
Fixpoint getExtension (path : string) : option string :=
  match path with
  | EmptyString => None
  | String c rest =>
      if Ascii.eqb c "."
         && negb (String.eqb rest EmptyString)
         && negb (JS.str_includes rest "/")
         && negb (JS.str_includes rest ".")
      then Some path else getExtension rest
  end.

Definition findLanguageByExtension (extension : string) : option string :=
  match find (fun config => JS.includes (extensions config) extension) LANGUAGE_CONFIGS with
  | Some config => Some (id config)
  | None => None
  end.

(** [counts[k] = (counts[k] || 0) + n] on an object whose keys are kept in
    insertion order. *)
Fixpoint bump (counts : list (string * Z)) (k : string) (n : Z) : list (string * Z) :=
  match counts with
  | [] => [(k, n)]
  | (k', v) :: rest =>
      if String.eqb k k' then (k', (v + n)%Z) :: rest else (k', v) :: bump rest k n
  end.

Definition extensionCounts (tree : list GitHubTreeItem) : list (string * Z) :=
  fold_left
    (fun counts item =>
       if negb (String.eqb (type item) "blob") then counts
       else match getExtension (path item) with
            | Some ext => if JS.truthy ext then bump counts ext 1%Z else counts
            | None => counts
            end)
    tree [].

Definition languageCounts (tree : list GitHubTreeItem) : list (string * Z) :=
  fold_left
    (fun counts entry =>
       match findLanguageByExtension (fst entry) with
       | Some languageId =>
           if JS.truthy languageId then bump counts languageId (snd entry) else counts
       | None => counts
       end)
    (extensionCounts tree) [].

Definition detectFromExtensions (tree : list GitHubTreeItem) : option LanguageDetection :=
  match languageCounts tree with
  | [] => None
  | _ :: _ =>
      match sort_desc (languageCounts tree) with
      | [] => None
      | (primaryLanguage, primaryCount) :: _ =>
          Some {| language := primaryLanguage;
                  confidence := ratio primaryCount (total (languageCounts tree));
                  method := extension;
                  metadata := None |}
      end
  end.

(** The default fallback to JavaScript. *)
Definition defaultDetection : LanguageDetection :=
  {| language := "javascript";
     confidence := (3 # 10)%Q;
     method := manual;
     metadata := None |}.

(** [detectLanguage(owner, repo, headers, tree?)]; the request is replaced
    by its outcome. *)
Definition detectLanguage (api : ApiOutcome) (tree : option (list GitHubTreeItem))
  : LanguageDetection :=
  match detectFromGitHubAPI api with
  | Some detection => detection
  | None =>
      match tree with
      | Some t =>
          match detectFromManifests t with
          | Some detection => detection
          | None =>
              match detectFromExtensions t with
              | Some detection => detection
              | None => defaultDetection
              end
          end
      | None => defaultDetection
      end
  end.

(** The manual override of [route.ts]: a non-empty [lang] parameter. *)
Definition manualDetection (manualLanguage : string) : LanguageDetection :=
  {| language := JS.toLowerCase manualLanguage;
     confidence := 1%Q;
     method := manual;
     metadata := None |}.

End Detector.

Coercion Detector.Identifier : string >-> Detector.LanguageValue.

(* ===================================================================== *)
(** ** [types.ts]: the parser interface *)
(* ===================================================================== *)

Record LanguageParser : Type := {
  name : string;
  extensions : list string;
  excludePatterns : list string;
  parseImports : string -> string -> list string;
  resolveImportPath : string -> string -> option string;
  getFileType : string -> string;
  (** Not part of the interface: the graph builder probes for it. *)
  matchImportToFile : option (string -> list string -> option string)
}.

(** The non-null assertion [getLanguageConfig(id)!] of the constructors. *)
Definition assert_config (c : option Configs.LanguageConfig) : Configs.LanguageConfig :=
  match c with
  | Some config => config
  | None => {| Configs.id := EmptyString; Configs.displayName := EmptyString;
               Configs.aliases := [];
               Configs.extensions := []; Configs.excludePatterns := [];
               Configs.manifestFiles := []; Configs.fileTypes := [] |}
  end.

(** [if (result) return result]: [null] and the empty string are falsy. *)
Definition if_truthy (r : option string) : option string :=
  match r with
  | Some s => if JS.truthy s then Some s else None
  | None => None
  end.

(* ===================================================================== *)
(** ** [javascript-parser.ts] *)
(* ===================================================================== *)

Module JavaScriptParser.
Import Regex.

Definition config : Configs.LanguageConfig :=
  assert_config (Configs.getLanguageConfig "javascript").

Fixpoint Cat (l : list regex) : regex :=
  match l with
  | [] => Eps
  | r :: l' => Seq r (Cat l')
  end.

Definition space : regex := Chr JS.is_space.
Definition word : regex := Chr JS.is_word.
(** The double quote (code unit 34) or the single quote (code unit 39). *)
Definition is_quote (c : ascii) : bool :=
  (JS.code c =? 34)%nat || (JS.code c =? 39)%nat.
Definition quote : regex := Chr is_quote.
Definition not_quote : regex := Chr (fun c => negb (is_quote c)).

(** [\{[^}]*\}|\*\s+as\s+\w+|\w+] *)
Definition binding : regex :=
  Alt (Cat [Lit "{"; Star (Chr (fun c => negb (Ascii.eqb c "}"))); Lit "}"])
      (Alt (Cat [Lit "*"; Plus space; Word "as"; Plus space; Plus word])
           (Plus word)).

(** [/(?:import|export)\s+(?:(?:B)(?:\s*,\s*(?:B))*\s+from\s+)?Q([^Q]+)Q/g]
    with [B] the [binding] above and [Q] the class of the two quotes. *)
Definition importRegex : regex :=
  Cat [Alt (Word "import") (Word "export");
       Plus space;
       Opt (Cat [binding;
                 Star (Cat [Star space; Lit ","; Star space; binding]);
                 Plus space; Word "from"; Plus space]);
       quote; Group (Plus not_quote); quote].

(** [/import\s*\(\s*Q([^Q]+)Q\s*\)/g] *)
Definition dynamicImportRegex : regex :=
  Cat [Word "import"; Star space; Lit "("; Star space;
       quote; Group (Plus not_quote); quote; Star space; Lit ")"].

Definition isInternalImport (importPath currentPath : string) : bool :=
  if JS.startsWith importPath "." then true
  else if JS.startsWith importPath "@/" || JS.startsWith importPath "~/" then true
  else if JS.str_includes currentPath "packages/" || JS.str_includes currentPath "apps/" then
    let packageName := hd EmptyString (JS.split "/" importPath) in
    if negb (JS.startsWith packageName "@")
       && negb (String.eqb packageName ".")
       && negb (String.eqb packageName "..")
    then true else false
  else false.

(** Resolves the [.] and [..] segments; [pop] on an empty array does
    nothing. *)
Definition normalizeStep (parts : list string) (part : string) : list string :=
  if String.eqb part ".." then removelast parts
  else if negb (String.eqb part ".") then (parts ++ [part])%list
  else parts.

Definition normalizePath (currentDir relativePath : string) : string :=
  let parts := JS.filter_Boolean (JS.split "/" currentDir) in
  let relativeParts := JS.split "/" relativePath in
  JS.join "/" (fold_left normalizeStep relativeParts parts).

Definition resolveImportPath (importPath currentPath : string) : string :=
  if JS.startsWith importPath "@/" then JS.replace_first "@/" EmptyString importPath
  else if JS.startsWith importPath "~/" then JS.replace_first "~/" EmptyString importPath
  else if JS.startsWith importPath "./" || JS.startsWith importPath "../" then
    let currentDir := JS.join "/" (JS.slice0 (JS.split "/" currentPath) (-1)) in
    normalizePath currentDir importPath
  else if JS.str_includes currentPath "packages/" || JS.str_includes currentPath "apps/" then
    "packages/" ++ importPath
  else importPath.

Definition parseImports (content currentPath : string) : list string :=
  let resolve :=
    flat_map (fun importPath =>
                if isInternalImport importPath currentPath
                then [resolveImportPath importPath currentPath] else []) in
  (resolve (exec_all importRegex content)
   ++ resolve (exec_all dynamicImportRegex content))%list.

Definition getFileType (path : string) : string :=
  Configs.classify (Configs.fileTypes config) path.

(** The candidates tried after the exact path. The stripped extension is
    [/\.(tsx?|jsx?|mjs|cjs)$/]. *)
Definition variations (importPath : string) : list string :=
  let withoutExt :=
    JS.strip_first_suffix [".ts"; ".tsx"; ".js"; ".jsx"; ".mjs"; ".cjs"] importPath in
  [withoutExt ++ ".ts"; withoutExt ++ ".tsx"; withoutExt ++ ".js";
   withoutExt ++ ".jsx"; withoutExt ++ ".mjs"; withoutExt ++ ".cjs";
   withoutExt ++ "/index.ts"; withoutExt ++ "/index.tsx"; withoutExt ++ "/index.js";
   withoutExt ++ "/index.jsx"; withoutExt ++ "/index.mjs"; withoutExt ++ "/index.cjs"].

(** The recursion of [matchImportToFile] strips a [packages/] prefix or adds
    an [apps/] prefix once: this measure decreases along both. *)
Definition match_measure (importPath : string) : nat :=
  if JS.startsWith importPath "apps/" then 0 else S (String.length importPath).

Lemma length_substring_from n s :
  String.length (JS.substring_from n s) = String.length s - n.
Proof.
  revert s; induction n as [|n IH]; intros s; simpl.
  - lia.
  - destruct s as [|c s]; simpl; [reflexivity | apply IH].
Qed.

Lemma startsWith_length s p :
  JS.startsWith s p = true -> String.length p <= String.length s.
Proof.
  revert s; induction p as [|a p IH]; intros s H; simpl in *.
  - lia.
  - destruct s as [|b s]; [discriminate|].
    apply andb_true_iff in H as [_ H]. apply IH in H. simpl. lia.
Qed.

Lemma startsWith_cons s a p :
  JS.startsWith s (String a p) = true ->
  exists s', s = String a s' /\ JS.startsWith s' p = true.
Proof.
  destruct s as [|b s]; [discriminate|].
  change (JS.startsWith (String b s) (String a p))
    with (Ascii.eqb a b && JS.startsWith s p).
  intros H. apply andb_true_iff in H as [Hc H].
  apply Ascii.eqb_eq in Hc. subst b. exists s. split; [reflexivity | exact H].
Qed.

Lemma match_measure_packages importPath :
  JS.startsWith importPath "packages/" = true ->
  match_measure (JS.strip_prefix "packages/" importPath) < match_measure importPath.
Proof.
  intros Hp. unfold JS.strip_prefix. rewrite Hp.
  assert (Ha : JS.startsWith importPath "apps/" = false).
  { destruct (startsWith_cons _ _ _ Hp) as (s' & -> & _). reflexivity. }
  unfold match_measure at 2. rewrite Ha.
  pose proof (startsWith_length _ _ Hp) as Hlen.
  pose proof (length_substring_from (String.length "packages/") importPath) as Hsub.
  unfold match_measure.
  change (String.length "packages/") with 9 in *.
  destruct (JS.startsWith (JS.substring_from 9 importPath) "apps/"); lia.
Qed.

Lemma match_measure_apps importPath :
  JS.startsWith importPath "apps/" = false ->
  match_measure ("apps/" ++ importPath) < match_measure importPath.
Proof.
  intros Ha. unfold match_measure. rewrite Ha. simpl. lia.
Qed.

(** Case analysis that keeps the equation, for the termination proofs. *)
Definition inspect {A : Type} (x : A) : {y : A | x = y} := exist _ x eq_refl.

(** [matchImportToFile]: the exact path, the [variations], then the retries
    without the [packages/] prefix and with the [apps/] prefix. After a
    failed retry without [packages/] the source tests
    [!startsWith("apps/") && !startsWith("packages/")], which is false
    there, and returns [null]. *)
Equations matchImportToFile (importPath : string) (availableFiles : list string)
  : option string by wf (match_measure importPath) lt :=
matchImportToFile importPath availableFiles
  with JS.includes availableFiles importPath := {
  | true := Some importPath
  | false with find (JS.includes availableFiles) (variations importPath) := {
    | Some variation := Some variation
    | None with inspect (JS.startsWith importPath "packages/") := {
      | exist _ true Hp :=
          if_truthy (matchImportToFile (JS.strip_prefix "packages/" importPath)
                                       availableFiles)
      | exist _ false Hp with inspect (JS.startsWith importPath "apps/") := {
        | exist _ true Ha := None
        | exist _ false Ha :=
            if_truthy (matchImportToFile ("apps/" ++ importPath) availableFiles)
        }
      }
    }
  }.
Next Obligation. apply match_measure_packages; assumption. Qed.
Next Obligation. apply match_measure_apps; assumption. Qed.

End JavaScriptParser.

(* ===================================================================== *)
(** ** [python-parser.ts] *)
(* ===================================================================== *)

Module PythonParser.
Import Regex.

Definition config : Configs.LanguageConfig :=
  assert_config (Configs.getLanguageConfig "python").

Definition space : regex := Chr JS.is_space.
Definition word : regex := Chr JS.is_word.
Definition word_or_dot : regex := Chr (fun c => JS.is_word c || Ascii.eqb c ".").

(** [/^import\s+([\w.]+)(?:\s+as\s+\w+)?$/gm] *)
Definition simpleImportRegex : regex :=
  Seq Bol (Seq (Word "import") (Seq (Plus space) (Seq (Group (Plus word_or_dot))
    (Seq (Opt (Seq (Plus space) (Seq (Word "as") (Seq (Plus space) (Plus word)))))
         Eol)))).

(** [/^from\s+([\w.]+)\s+import\s+/gm] *)
Definition fromImportRegex : regex :=
  Seq Bol (Seq (Word "from") (Seq (Plus space) (Seq (Group (Plus word_or_dot))
    (Seq (Plus space) (Seq (Word "import") (Plus space)))))).

(** [/^from\s+(D)\s+import\s+/gm] where the group [D] is one or more dots
    followed by any number of [\w] or dot. *)
Definition relativeImportRegex : regex :=
  Seq Bol (Seq (Word "from") (Seq (Plus space)
    (Seq (Group (Seq (Plus (Lit ".")) (Star word_or_dot)))
    (Seq (Plus space) (Seq (Word "import") (Plus space)))))).

Definition stdLibModules : list string :=
  ["os"; "sys"; "re"; "json"; "math"; "time"; "datetime"; "collections";
   "itertools"; "functools"; "pathlib"; "typing"; "asyncio"; "urllib"; "http";
   "logging"; "unittest"; "pytest"; "abc"; "io"; "csv"; "random"; "string";
   "copy"; "pickle"; "subprocess"; "threading"; "multiprocessing"].

Definition commonPackages : list string :=
  ["django"; "flask"; "fastapi"; "requests"; "numpy"; "pandas"; "sqlalchemy";
   "pydantic"; "pytest"; "click"; "boto3"; "celery"; "redis"].

Definition isExternalModule (modulePath : string) : bool :=
  let topLevelModule := hd EmptyString (JS.split "." modulePath) in
  JS.includes stdLibModules topLevelModule || JS.includes commonPackages topLevelModule.

(** Dots become slashes and [.py] is appended; never [null]. *)
Definition resolveImportPath (modulePath currentPath : string) : option string :=
  let filePath := JS.replace_all_char "." "/" modulePath in
  Some (filePath ++ ".py").

Definition resolveRelativeImport (relativePath currentPath : string) : option string :=
  match JS.leading_dots relativePath with
  | O => None
  | S _ as dotCount =>
      let modulePart := JS.substring_from dotCount relativePath in
      let currentDir := JS.slice0 (JS.split "/" currentPath) (-1) in
      let targetDir :=
        JS.slice0 currentDir
          (Z.of_nat (List.length currentDir) - (Z.of_nat dotCount - 1)) in
      match targetDir with
      | [] => None
      | _ :: _ =>
          let targetPath := JS.join "/" targetDir in
          if JS.truthy modulePart then
            let moduleFilePath := JS.replace_all_char "." "/" modulePart in
            Some (targetPath ++ "/" ++ moduleFilePath ++ ".py")
          else
            Some (targetPath ++ "/__init__.py")
      end
  end.

(** The three loops of [parseImports], in their order; a resolved path is
    kept when it is truthy. *)
Definition parseImports (content currentPath : string) : list string :=
  let keep (r : option string) : list string :=
    match if_truthy r with Some resolvedPath => [resolvedPath] | None => [] end in
  let absolute :=
    flat_map (fun modulePath =>
                if isExternalModule modulePath then []
                else keep (resolveImportPath modulePath currentPath)) in
  (absolute (exec_all simpleImportRegex content)
   ++ absolute (exec_all fromImportRegex content)
   ++ flat_map (fun relativePath => keep (resolveRelativeImport relativePath currentPath))
               (exec_all relativeImportRegex content))%list.

Definition getFileType (path : string) : string :=
  Configs.classify (Configs.fileTypes config) path.

(** [importPath.replace(/\.py$/, "")] *)
Definition strip_py (importPath : string) : string :=
  JS.strip_first_suffix [".py"] importPath.

(** [importPath.replace(/\.pyi?$/, "")] *)
Definition strip_pyi (importPath : string) : string :=
  JS.strip_first_suffix [".py"; ".pyi"] importPath.

Definition matchImportToFile (importPath : string) (availableFiles : list string)
  : option string :=
  if JS.includes availableFiles importPath then Some importPath
  else
    let withPy := importPath ++ ".py" in
    if negb (JS.endsWith importPath ".py") && JS.includes availableFiles withPy
    then Some withPy
    else
      let asPackage := strip_py importPath ++ "/__init__.py" in
      if JS.includes availableFiles asPackage then Some asPackage
      else
        let withoutExt := strip_pyi importPath in
        find (JS.includes availableFiles)
             [withoutExt ++ ".py"; withoutExt ++ ".pyi"; withoutExt ++ "/__init__.py"].

End PythonParser.

(* ===================================================================== *)
(** ** [parser-registry.ts] *)
(* ===================================================================== *)

Module ParserRegistry.

Definition jsParser : LanguageParser := {|
  name := "JavaScript/TypeScript";
  extensions := Configs.extensions JavaScriptParser.config;
  excludePatterns := Configs.excludePatterns JavaScriptParser.config;
  parseImports := JavaScriptParser.parseImports;
  resolveImportPath := fun i c => Some (JavaScriptParser.resolveImportPath i c);
  getFileType := JavaScriptParser.getFileType;
  matchImportToFile := Some JavaScriptParser.matchImportToFile
|}.

Definition pyParser : LanguageParser := {|
  name := "Python";
  extensions := Configs.extensions PythonParser.config;
  excludePatterns := Configs.excludePatterns PythonParser.config;
  parseImports := PythonParser.parseImports;
  resolveImportPath := PythonParser.resolveImportPath;
  getFileType := PythonParser.getFileType;
  matchImportToFile := Some PythonParser.matchImportToFile
|}.

(** [registerDefaultParsers] *)
Definition parsers : list (string * LanguageParser) :=
  fold_left (fun m kv => JS.map_set m (fst kv) (snd kv))
    [("javascript", jsParser); ("typescript", jsParser); ("js", jsParser);
     ("ts", jsParser); ("jsx", jsParser); ("tsx", jsParser);
     ("python", pyParser); ("py", pyParser)]
    [].

(** Falls back to the JavaScript parser. *)
Definition getParser (languageId : string) : LanguageParser :=
  match JS.map_get parsers (JS.toLowerCase languageId) with
  | Some parser => parser
  | None =>
      match JS.map_get parsers "javascript" with
      | Some parser => parser
      | None => jsParser
      end
  end.

Definition hasParser (languageId : string) : bool :=
  match JS.map_get parsers (JS.toLowerCase languageId) with
  | Some _ => true
  | None => false
  end.

End ParserRegistry.

(* ===================================================================== *)
(** ** [app/api/dependencies/route.ts]: the graph builder *)
(* ===================================================================== *)

Module Route.

Record FileNode : Type := {
  path : string;
  type : string;
  imports : list string;
  importedBy : list string
}.

Record Edge : Type := { source : string; target : string }.

Record DependencyGraph : Type := {
  nodes : list FileNode;
  edges : list Edge
}.

(** An element of [fileContents]; the content is empty when the fetch failed
    or the file was skipped for its size. *)
Record FileContent : Type := { file_path : string; content : string }.

(** [codeFiles]: the blobs of the tree with one of the parser's extensions
    and none of its exclude patterns, cut to the first 200. *)
Definition codeFiles (parser : LanguageParser) (tree : list Detector.GitHubTreeItem)
  : list Detector.GitHubTreeItem :=
  firstn 200
    (filter
       (fun item =>
          String.eqb (Detector.type item) "blob"
          && existsb (JS.endsWith (Detector.path item)) (extensions parser)
          && negb (existsb (JS.str_includes (Detector.path item)) (excludePatterns parser)))
       tree).

(** [fileContents]: one entry per code file, in their order. [fetch] stands
    for the request of a file's content by path; it answers the empty
    string when the request fails or the file is over the size limit. *)
Definition fetchContents (fetch : string -> string)
  (files : list Detector.GitHubTreeItem) : list FileContent :=
  map (fun file => {| file_path := Detector.path file;
                      content := fetch (Detector.path file) |})
      files.

(** The state of the build: the [nodes] map and the [edges] array. *)
Definition NodeMap : Type := list (string * FileNode).

(** "Initialize all nodes". *)
Definition initNodes (parser : LanguageParser) (fileContents : list FileContent) : NodeMap :=
  fold_left
    (fun nodes file =>
       JS.map_set nodes (file_path file)
         {| path := file_path file;
            type := getFileType parser (file_path file);
            imports := [];
            importedBy := [] |})
    fileContents [].

(** A mutation of the node object stored under [k]. *)
Fixpoint update (nodes : NodeMap) (k : string) (f : FileNode -> FileNode) : NodeMap :=
  match nodes with
  | [] => []
  | (k', n) :: rest =>
      if String.eqb k k' then (k', f n) :: rest else (k', n) :: update rest k f
  end.

Definition push_import (matchingPath : string) (n : FileNode) : FileNode :=
  {| path := path n; type := type n;
     imports := (imports n ++ [matchingPath])%list; importedBy := importedBy n |}.

Definition push_importedBy (filePath : string) (n : FileNode) : FileNode :=
  {| path := path n; type := type n;
     imports := imports n; importedBy := (importedBy n ++ [filePath])%list |}.

(** The parser's own matcher when it has one, else the exact match. *)
Definition matchPath (parser : LanguageParser) (importPath : string)
  (availableFilePaths : list string) : option string :=
  match matchImportToFile parser with
  | Some matcher => matcher importPath availableFilePaths
  | None => if_truthy (find (fun p => String.eqb p importPath) availableFilePaths)
  end.

(** The body of the loop over the imports of one file. *)
Definition addImport (parser : LanguageParser) (availableFilePaths : list string)
  (filePath : string) (st : NodeMap * list Edge) (importPath : string)
  : NodeMap * list Edge :=
  let (nodes, edges) := st in
  match if_truthy (matchPath parser importPath availableFilePaths) with
  | Some matchingPath =>
      let nodes1 := update nodes filePath (push_import matchingPath) in
      let nodes2 :=
        match JS.map_get nodes1 matchingPath with
        | Some _ => update nodes1 matchingPath (push_importedBy filePath)
        | None => nodes1
        end in
      (nodes2, (edges ++ [{| source := filePath; target := matchingPath |}])%list)
  | None => st
  end.

(** The body of the loop over the files. *)
Definition addFile (parser : LanguageParser) (availableFilePaths : list string)
  (st : NodeMap * list Edge) (file : FileContent) : NodeMap * list Edge :=
  if negb (JS.truthy (content file)) then st
  else
    let imports := parseImports parser (content file) (file_path file) in
    match JS.map_get (fst st) (file_path file) with
    | Some _ => fold_left (addImport parser availableFilePaths (file_path file)) imports st
    | None => st
    end.

(** "Build dependency graph": lines 206 to 252 and the [nodes] and [edges]
    of the payload. *)
Definition buildGraph (parser : LanguageParser) (fileContents : list FileContent)
  : DependencyGraph :=
  let nodes0 := initNodes parser fileContents in
  let availableFilePaths := JS.map_keys nodes0 in
  let (nodes, edges) :=
    fold_left (addFile parser availableFilePaths) fileContents (nodes0, []) in
  {| nodes := JS.map_values nodes; edges := edges |}.

End Route.

(* ===================================================================== *)
(** ** The graph as the specification describes it *)
(* ===================================================================== *)

(** Section 3 and 4.5 of the specification: edges are derived from the
    matched imports, and the two edge sets of a node are read off the
    edges. The builder of [route.ts] is compared with this description
    below. *)
Module GraphSpec.
Import Route.

(** The targets of the imports of one file that match a known path. *)
Definition matchedTargets (parser : LanguageParser) (known : list string)
  (file : FileContent) : list string :=
  flat_map
    (fun importPath =>
       match if_truthy (matchPath parser importPath known) with
       | Some matchingPath => [matchingPath]
       | None => []
       end)
    (parseImports parser (content file) (file_path file)).

(** One edge per matched import of a file with content. *)
Definition edgesOfFile (parser : LanguageParser) (known : list string)
  (file : FileContent) : list Edge :=
  if negb (JS.truthy (content file)) then []
  else map (fun matchingPath => {| source := file_path file; target := matchingPath |})
           (matchedTargets parser known file).

Definition derivedEdges (parser : LanguageParser) (known : list string)
  (files : list FileContent) : list Edge :=
  flat_map (edgesOfFile parser known) files.

Definition targetsFrom (k : string) (es : list Edge) : list string :=
  map target (filter (fun e => String.eqb (source e) k) es).

Definition sourcesTo (k : string) (es : list Edge) : list string :=
  map source (filter (fun e => String.eqb (target e) k) es).

(** The node of path [k] in a graph with the edges [es]. *)
Definition derivedNode (parser : LanguageParser) (es : list Edge) (k : string) : FileNode :=
  {| path := k;
     type := getFileType parser k;
     imports := targetsFrom k es;
     importedBy := sourcesTo k es |}.

(** Two nodes that agree up to the order of their edge sets. *)
Definition sameNode (n1 n2 : FileNode) : Prop :=
  path n1 = path n2 /\ type n1 = type n2 /\
  Permutation (imports n1) (imports n2) /\
  Permutation (importedBy n1) (importedBy n2).

End GraphSpec.

(* ===================================================================== *)
(** ** [parser-registry.ts]: the registry as a value *)
(* ===================================================================== *)

(** The class keeps its parsers in a private [Map] that [registerParser]
    mutates; here the map is passed explicitly. [ParserRegistry.parsers]
    above is the map after [registerDefaultParsers]. *)
Module RegistryState.

Definition Registry : Type := list (string * LanguageParser).

Definition registerParser (parsers : Registry) (languageId : string)
  (parser : LanguageParser) : Registry :=
  JS.map_set parsers (JS.toLowerCase languageId) parser.

(** [getParser]: the fallback is [this.parsers.get("javascript")!], which is
    [undefined] ([None]) when nothing is registered under that key. *)
Definition getParser (parsers : Registry) (languageId : string) : option LanguageParser :=
  match JS.map_get parsers (JS.toLowerCase languageId) with
  | Some parser => Some parser
  | None => JS.map_get parsers "javascript"
  end.

Definition hasParser (parsers : Registry) (languageId : string) : bool :=
  match JS.map_get parsers (JS.toLowerCase languageId) with
  | Some _ => true
  | None => false
  end.

(** [Array.from(new Set(xs))]: the first occurrence of each string, in
    order. *)
Definition from_set (xs : list string) : list string :=
  fold_left (fun acc x => if JS.includes acc x then acc else (acc ++ [x])%list) xs [].

Definition getSupportedLanguages (parsers : Registry) : list string :=
  from_set (JS.map_keys parsers).

(** The registry after a sequence of calls to [registerParser] on the
    singleton instance. *)
Definition afterRegistrations (calls : list (string * LanguageParser)) : Registry :=
  fold_left (fun parsers call => registerParser parsers (fst call) (snd call))
            calls ParserRegistry.parsers.

End RegistryState.

(* ===================================================================== *)
(** ** The counting loops of the detector, by item *)
(* ===================================================================== *)

(** [detectFromExtensions] runs two loops of the shape
    [counts[k] = (counts[k] || 0) + n]; these definitions name what one
    round adds, for the proofs about [Detector.extensionCounts] and
    [Detector.languageCounts]. *)
Module DetectorLoops.




End DetectorLoops.

(* ===================================================================== *)
(** ** [route.ts]: the advisory statistics *)
(* ===================================================================== *)

Module RouteStats.
Import Route.

(** [nodes.filter((n) => n.imports.length > 0).length] *)
Definition nodesWithImports (graph : DependencyGraph) : nat :=
  List.length (filter (fun n => (0 <? List.length (imports n))%nat) (nodes graph)).

(** [n.imports.length === 0 && n.importedBy.length === 0] *)
Definition isolated (n : FileNode) : bool :=
  (List.length (imports n) =? 0)%nat && (List.length (importedBy n) =? 0)%nat.

Definition isolatedNodes (graph : DependencyGraph) : nat :=
  List.length (filter isolated (nodes graph)).

(** The graph of a request, from the tree on: the code files, their
    contents, the build. *)
Definition graphOfTree (parser : LanguageParser) (fetch : string -> string)
  (tree : list Detector.GitHubTreeItem) : DependencyGraph :=
  buildGraph parser (fetchContents fetch (codeFiles parser tree)).

End RouteStats.

(* ===================================================================== *)
(** ** [components/dependency-graph/index.tsx]: what a selection highlights *)
(* ===================================================================== *)

(** The [Scene] component receives the graph payload and computes, for the
    selected node, the paths and the edges to highlight. *)
Module GraphView.
Import Route.

(** [highlightedPaths]: a [Set] filled with the imports, then with the
    importers, of the selected node. *)
Definition highlightedPaths (selectedNode : option FileNode) : list string :=
  match selectedNode with
  | None => []
  | Some n => RegistryState.from_set (imports n ++ importedBy n)%list
  end.

(** The key of an edge in the set of highlighted edges. *)
Definition edgeKey (edge : Edge) : string := source edge ++ "->" ++ target edge.

(** [highlightedEdges]: the keys of the edges that start or end at the
    selected node. *)
Definition highlightedEdges (selectedNode : option FileNode) (edges : list Edge)
  : list string :=
  match selectedNode with
  | None => []
  | Some n =>
      RegistryState.from_set
        (map edgeKey
             (filter (fun edge => String.eqb (source edge) (path n)
                                  || String.eqb (target edge) (path n))
                     edges))
  end.

End GraphView.

(* ===================================================================== *)
(** ** Concrete inputs used in the examples below *)
(* ===================================================================== *)

(** The host reports one language, which has no profile. *)
Definition haskell_stats : Detector.ApiOutcome :=
  Detector.Languages [("Haskell", 100%Z)].

(** A tree whose only file is a manifest of Go. *)
Definition go_mod_tree : list Detector.GitHubTreeItem :=
  [ {| Detector.path := "go.mod"; Detector.type := "blob"; Detector.sha := "0a" |} ].

(** A tree whose only manifest of Go sits in a sub-directory. *)
Definition nested_go_mod_tree : list Detector.GitHubTreeItem :=
  [ {| Detector.path := "backend/go.mod"; Detector.type := "blob"; Detector.sha := "0d" |} ].

(** A tree with a manifest of Go written in capitals at its root, beside a
    directory that bears the name of a manifest and a manifest of another
    profile in a sub-directory. *)
Definition upper_case_go_mod_tree : list Detector.GitHubTreeItem :=
  [ {| Detector.path := "package.json"; Detector.type := "tree"; Detector.sha := "0e" |};
    {| Detector.path := "backend/package.json"; Detector.type := "blob";
       Detector.sha := "0f" |};
    {| Detector.path := "GO.MOD"; Detector.type := "blob"; Detector.sha := "10" |} ].

(** The host reports three languages; the largest has no profile. *)
Definition mixed_stats : list (string * Z) :=
  [("CSS", 10%Z); ("Haskell", 60%Z); ("Python", 30%Z)].

(** A tree without manifest and without source file. *)
Definition readme_tree : list Detector.GitHubTreeItem :=
  [ {| Detector.path := "README.md"; Detector.type := "blob"; Detector.sha := "0b" |};
    {| Detector.path := "docs"; Detector.type := "tree"; Detector.sha := "0c" |} ].

(** Two ECMAScript files, the first importing the second. *)
Definition two_ts_files : list Route.FileContent :=
  [ {| Route.file_path := "src/a.ts"; Route.content := "import {x} from './b'" |};
    {| Route.file_path := "src/b.ts"; Route.content := "export const x = 1" |} ].

(** The same two files in the other order. *)
Definition two_ts_files_swapped : list Route.FileContent :=
  [ {| Route.file_path := "src/b.ts"; Route.content := "export const x = 1" |};
    {| Route.file_path := "src/a.ts"; Route.content := "import {x} from './b'" |} ].

(** A parser registered without a matcher of its own, such as any parser
    that only implements the interface. *)
Definition literalParser : LanguageParser := {|
  name := "Literal";
  extensions := [".txt"];
  excludePatterns := [];
  parseImports := fun content _ => JS.split "," content;
  resolveImportPath := fun importPath _ => Some importPath;
  getFileType := fun _ => "other";
  matchImportToFile := None
|}.

(** A Python package: a module importing its sibling, and the sibling. *)
Definition pkg_files : list Route.FileContent :=
  [ {| Route.file_path := "pkg/mod.py"; Route.content := "from . import sibling" |};
    {| Route.file_path := "pkg/sibling.py"; Route.content := "value = 1" |} ].

(** The init file of that package. *)
Definition pkg_init : Route.FileContent :=
  {| Route.file_path := "pkg/__init__.py"; Route.content := EmptyString |}.

(* ===================================================================== *)
(** * Properties *)
(* ===================================================================== *)

(** ** Strings and arrays *)

Lemma includes_In (l : list string) (x : string) :
  JS.includes l x = true <-> In x l.
Proof.
  unfold JS.includes. rewrite existsb_exists. split.
  - intros (y & Hy & Heq). apply String.eqb_eq in Heq. subst y. exact Hy.
  - intros Hx. exists x. split; [exact Hx | apply String.eqb_refl].
Qed.

Lemma includes_not_In (l : list string) (x : string) :
  JS.includes l x = false <-> ~ In x l.
Proof.
  rewrite <- includes_In. destruct (JS.includes l x); split; intros H;
    try reflexivity; try discriminate; try (intros H'; discriminate).
  exfalso. apply H. reflexivity.
Qed.

(** [includes] only depends on which strings the array holds. *)
Lemma includes_ext (l1 l2 : list string) (x : string) :
  (forall y, In y l1 <-> In y l2) -> JS.includes l1 x = JS.includes l2 x.
Proof.
  intros H. destruct (JS.includes l2 x) eqn:E.
  - apply includes_In. apply H. apply includes_In. exact E.
  - apply includes_not_In. intros Hx. apply includes_not_In in E. apply E.
    apply H. exact Hx.
Qed.

Lemma find_includes_ext (l1 l2 cands : list string) :
  (forall y, In y l1 <-> In y l2) ->
  find (JS.includes l1) cands = find (JS.includes l2) cands.
Proof.
  intros H. induction cands as [|c cands IH]; simpl; [reflexivity|].
  rewrite (includes_ext l1 l2 c H), IH. reflexivity.
Qed.

Lemma find_includes_In (l cands : list string) (v : string) :
  find (JS.includes l) cands = Some v -> In v l.
Proof.
  intros H. apply find_some in H as [_ H]. apply includes_In. exact H.
Qed.

Lemma toLowerCase_idempotent (s : string) :
  JS.toLowerCase (JS.toLowerCase s) = JS.toLowerCase s.
Proof.
  induction s as [|c s IH]; simpl; [reflexivity|]. rewrite IH. f_equal.
  destruct c as [[] [] [] [] [] [] [] []]; reflexivity.
Qed.

(** ** The regular-expression matcher: the bounds are never reached *)

Section RegexFacts.
Import Regex.

Lemma star_iter_le (step : mstate -> list mstate) (n : nat) :
  (forall a b, In b (step a) -> List.length (after b) <= List.length (after a)) ->
  forall st st', In st' (star_iter step n st) ->
                 List.length (after st') <= List.length (after st).
Proof.
  intros Hstep. induction n as [|n IH]; intros st st' H; simpl in H.
  - destruct H as [<- | []]. lia.
  - apply in_app_or in H as [H | [<- | []]]; [|lia].
    apply in_flat_map in H as (mid & Hmid & H).
    destruct (Nat.ltb_spec (List.length (after mid)) (List.length (after st)));
      [|destruct H].
    apply IH in H. lia.
Qed.

Lemma run_le (r : regex) :
  forall st st', In st' (run r st) -> List.length (after st') <= List.length (after st).
Proof.
  induction r as [|p|r1 IH1 r2 IH2|r1 IH1 r2 IH2|r IH|r IH| |]; intros st st' H;
    cbn [run] in H.
  - destruct H as [<- | []]. lia.
  - destruct (after st) as [|c rest] eqn:E; [destruct H|].
    destruct (p c); [|destruct H]. destruct H as [<- | []]. simpl. lia.
  - apply in_flat_map in H as (mid & Hmid & H).
    apply IH1 in Hmid. apply IH2 in H. lia.
  - apply in_app_or in H as [H | H]; [apply IH1 | apply IH2]; exact H.
  - eapply star_iter_le; [|exact H]. intros a b. apply IH.
  - apply in_map_iff in H as (mid & <- & H). simpl. apply IH. exact H.
  - assert (Hst : st' = st).
    { destruct (before st) as [|c ?]; [|destruct (JS.is_line_terminator c)];
        simpl in H; intuition. }
    subst st'. lia.
  - assert (Hst : st' = st).
    { destruct (after st) as [|c ?]; [|destruct (JS.is_line_terminator c)];
        simpl in H; intuition. }
    subst st'. lia.
Qed.

(** An expression that is not nullable consumes input. *)
Lemma run_progress (r : regex) :
  nullable r = false ->
  forall st st', In st' (run r st) -> List.length (after st') < List.length (after st).
Proof.
  induction r as [|p|r1 IH1 r2 IH2|r1 IH1 r2 IH2|r IH|r IH| |];
    cbn [run nullable]; intros Hn st st' H; try discriminate.
  - destruct (after st) as [|c rest] eqn:E; [destruct H|].
    destruct (p c); [|destruct H]. destruct H as [<- | []]. simpl. lia.
  - apply in_flat_map in H as (mid & Hmid & H).
    pose proof (run_le r1 _ _ Hmid) as L1. pose proof (run_le r2 _ _ H) as L2.
    apply andb_false_iff in Hn as [Hn | Hn].
    + specialize (IH1 Hn _ _ Hmid). lia.
    + specialize (IH2 Hn _ _ H). lia.
  - apply orb_false_iff in Hn as [Hn1 Hn2].
    apply in_app_or in H as [H | H]; [apply (IH1 Hn1) | apply (IH2 Hn2)]; exact H.
  - apply in_map_iff in H as (mid & <- & H). simpl. apply (IH Hn). exact H.
Qed.

(** The bound of [star_iter] is not reached: any two bounds above the
    length of the remaining input give the same matches. *)
Lemma star_iter_fuel (step : mstate -> list mstate) (n m : nat) (st : mstate) :
  List.length (after st) < n -> List.length (after st) < m ->
  star_iter step n st = star_iter step m st.
Proof.
  revert m st. induction n as [|n IH]; intros m st Hn Hm; [lia|].
  destruct m as [|m]; [lia|]. simpl. f_equal.
  apply flat_map_ext. intros st'.
  destruct (Nat.ltb_spec (List.length (after st')) (List.length (after st)));
    [|reflexivity].
  apply IH; lia.
Qed.

Lemma search_progress (r : regex) (bef aft : list ascii) (m : mstate) :
  nullable r = false -> search r bef aft = Some m ->
  List.length (after m) < List.length aft.
Proof.
  intros Hn. revert bef. induction aft as [|c rest IH]; intros bef H; simpl in H.
  - destruct (run r (MState bef [] None)) as [|m' ?] eqn:E; [discriminate|].
    inversion H; subst.
    apply (run_progress r Hn (MState bef [] None) m). rewrite E. left. reflexivity.
  - destruct (run r (MState bef (c :: rest) None)) as [|m' ?] eqn:E.
    + apply IH in H. simpl. lia.
    + inversion H; subst.
      apply (run_progress r Hn (MState bef (c :: rest) None) m).
      rewrite E. left. reflexivity.
Qed.

(** The bound of the [exec] loop is not reached either, for an expression
    that cannot match the empty string. *)
Lemma exec_loop_fuel (r : regex) :
  nullable r = false ->
  forall fuel fuel' bef aft,
    List.length aft < fuel -> List.length aft < fuel' ->
    exec_loop fuel r bef aft = exec_loop fuel' r bef aft.
Proof.
  intros Hn. induction fuel as [|fuel IH]; intros fuel' bef aft H H'; [lia|].
  destruct fuel' as [|fuel']; [lia|]. simpl.
  destruct (search r bef aft) as [m|] eqn:E; [|reflexivity].
  pose proof (search_progress r bef aft m Hn E) as Hp.
  rewrite (IH fuel' (before m) (after m)) by lia. reflexivity.
Qed.

Lemma parser_expressions_consume :
  nullable JavaScriptParser.importRegex = false /\
  nullable JavaScriptParser.dynamicImportRegex = false /\
  nullable PythonParser.simpleImportRegex = false /\
  nullable PythonParser.fromImportRegex = false /\
  nullable PythonParser.relativeImportRegex = false.
Proof. repeat split. Qed.
End RegexFacts.

(** ** The language detector *)

Section DetectorFacts.
Import Configs Detector.

Lemma manifestsOf_nil filePaths config :
(forall m, In m (manifestFiles config) -> ~ In (JS.toLowerCase m) filePaths) ->
manifestsOf filePaths config = [].
Proof.
unfold manifestsOf. induction (manifestFiles config) as [|m ms IH]; intros H.
- reflexivity.
- simpl. replace (JS.includes filePaths (JS.toLowerCase m)) with false.
  + simpl. apply IH. intros m' Hm'. apply H. right. exact Hm'.
  + symmetry. apply includes_not_In. apply H. left. reflexivity.
Qed.

Lemma manifestsOf_cons filePaths config m :
In m (manifestFiles config) -> In (JS.toLowerCase m) filePaths ->
exists file rest, manifestsOf filePaths config = (id config, file) :: rest.
Proof.
unfold manifestsOf. induction (manifestFiles config) as [|m' ms IH]; intros Hin Hp.
- destruct Hin.
- simpl. destruct (JS.includes filePaths (JS.toLowerCase m')) eqn:E.
  + simpl. eauto.
  + simpl. destruct Hin as [-> | Hin].
    * apply includes_In in Hp. congruence.
    * apply IH; assumption.
Qed.

Lemma detectedManifests_split tree front config back :
LANGUAGE_CONFIGS = (front ++ config :: back)%list ->
(forall c m, In c front -> In m (manifestFiles c) ->
             ~ In (JS.toLowerCase m) (blob_paths_lower tree)) ->
detectedManifests tree
= (manifestsOf (blob_paths_lower tree) config
   ++ flat_map (manifestsOf (blob_paths_lower tree)) back)%list.
Proof.
intros Hsplit Hfront. unfold detectedManifests.
rewrite Hsplit, flat_map_app. simpl.
replace (flat_map (manifestsOf (blob_paths_lower tree)) front) with (@nil (string * string)).
- reflexivity.
- symmetry. clear Hsplit. induction front as [|c front IH]; [reflexivity|].
  simpl. rewrite manifestsOf_nil.
  + apply IH. intros c' m Hc'. apply Hfront. right. exact Hc'.
  + intros m Hm. apply (Hfront c m); [left; reflexivity | exact Hm].
Qed.

Lemma detectedManifests_none tree :
(forall c m, In c LANGUAGE_CONFIGS -> In m (manifestFiles c) ->
             ~ In (JS.toLowerCase m) (blob_paths_lower tree)) ->
detectedManifests tree = [].
Proof.
intros H. unfold detectedManifests.
induction LANGUAGE_CONFIGS as [|c cs IH]; [reflexivity|].
simpl. rewrite manifestsOf_nil.
- apply IH. intros c' m Hc'. apply H. right. exact Hc'.
- intros m Hm. apply (H c m); [left; reflexivity | exact Hm].
Qed.


(** When no extension of a blob belongs to a profile, no language is counted. *)
Lemma extensionCounts_keys tree :
forall ext count, In (ext, count) (extensionCounts tree) ->
exists item, In item tree /\ type item = "blob" /\ getExtension (path item) = Some ext.
Proof.
unfold extensionCounts.
assert (Hbump : forall counts k n e c,
           In (e, c) (bump counts k n) -> e = k \/ exists c', In (e, c') counts).
{ induction counts as [|[k' v] rest IH]; simpl; intros k n e c H.
  - destruct H as [H | []]. inversion H. left; reflexivity.
  - destruct (String.eqb k k') eqn:E.
    + apply String.eqb_eq in E. subst k'. destruct H as [H | H].
      * inversion H; subst. left; reflexivity.
      * right. exists c. right. exact H.
    + destruct H as [H | H].
      * inversion H; subst. right. exists c. left. reflexivity.
      * apply IH in H as [-> | [c' H]]; [left; reflexivity|].
        right. exists c'. right. exact H. }
assert (Hgen : forall items acc ext count,
           In (ext, count)
              (fold_left
                 (fun counts item =>
                    if negb (String.eqb (type item) "blob") then counts
                    else match getExtension (path item) with
                         | Some ext => if JS.truthy ext then bump counts ext 1%Z else counts
                         | None => counts
                         end) items acc) ->
           (exists c', In (ext, c') acc) \/
           exists item, In item items /\ type item = "blob"
                        /\ getExtension (path item) = Some ext).
{ induction items as [|item items IH]; simpl; intros acc ext count H.
  - left. exists count. exact H.
  - apply (IH _ ext count) in H as [[c' H] | (it & Hit & Hb & He)].
    + destruct (String.eqb (type item) "blob") eqn:Eb; simpl in H;
        [|left; exists c'; exact H].
      destruct (getExtension (path item)) as [e|] eqn:Ee; [|left; exists c'; exact H].
      destruct (JS.truthy e); [|left; exists c'; exact H].
      apply Hbump in H as [-> | H]; [|left; exact H].
      right. exists item. split; [left; reflexivity|]. split; [|exact Ee].
      apply String.eqb_eq. exact Eb.
    + right. exists it. split; [right; exact Hit|]. split; assumption. }
intros ext count H. apply Hgen in H as [[c' []] | H]. exact H.
Qed.

Lemma languageCounts_nil tree :
(forall item ext, In item tree -> type item = "blob" ->
                  getExtension (path item) = Some ext ->
                  findLanguageByExtension ext = None) ->
languageCounts tree = [].
Proof.
intros H. unfold languageCounts.
pose proof (extensionCounts_keys tree) as Hk.
induction (extensionCounts tree) as [|[ext count] rest IH]; [reflexivity|].
simpl. destruct (Hk ext count (or_introl eq_refl)) as (item & Hin & Hb & He).
rewrite (H item ext Hin Hb He). apply IH.
intros e c Hc. apply (Hk e c). right. exact Hc.
Qed.

End DetectorFacts.

(** ** C4 *)

(** C4, as stated, fails: with byte counts whose primary language, Haskell,
    is known neither to the registry nor to the manual table, detection
    returns that name (lower-cased) by the provider-statistics method,
    although manifest detection alone would have answered Go. *)
Lemma C4_unrecognized_name_is_returned :
  JS.map_get Detector.configs (JS.toLowerCase "Haskell") = None /\
  JS.map_get Detector.mappings (JS.toLowerCase "Haskell") = None /\
  Detector.language (Detector.detectLanguage haskell_stats (Some go_mod_tree)) = "haskell" /\
  Detector.method (Detector.detectLanguage haskell_stats (Some go_mod_tree))
    = Detector.github_api /\
  Detector.language (Detector.detectLanguage Detector.NotOk (Some go_mod_tree)) = "go" /\
  Detector.detectLanguage haskell_stats (Some go_mod_tree)
    <> Detector.detectLanguage Detector.NotOk (Some go_mod_tree).
Proof.
  repeat split; try reflexivity. intros H.
  apply (f_equal Detector.language) in H. vm_compute in H. discriminate.
Qed.

(** The head of the sorted entries: the first entry with the largest
    count. *)
Lemma insert_desc_In (x z : string * Z) (l : list (string * Z)) :
  In z (Detector.insert_desc x l) -> z = x \/ In z l.
Proof.
  induction l as [|y l IH]; simpl.
  - intros [<- | []]. left. reflexivity.
  - destruct (snd y <=? snd x)%Z.
    + intros [<- | H]; [left; reflexivity | right; exact H].
    + intros [<- | H]; [right; left; reflexivity|].
      destruct (IH H) as [-> | H']; [left; reflexivity | right; right; exact H'].
Qed.

Lemma sort_desc_In (z : string * Z) (l : list (string * Z)) :
  In z (Detector.sort_desc l) -> In z l.
Proof.
  induction l as [|y l IH]; [intros []|].
  change (Detector.sort_desc (y :: l)) with (Detector.insert_desc y (Detector.sort_desc l)).
  intros H. apply insert_desc_In in H as [-> | H]; [left; reflexivity | right; auto].
Qed.

Lemma sort_desc_first_largest (pre post : list (string * Z)) (x : string * Z) :
  (forall e, In e pre -> (snd e < snd x)%Z) ->
  (forall e, In e post -> (snd e <= snd x)%Z) ->
  exists rest, Detector.sort_desc (pre ++ x :: post) = x :: rest.
Proof.
  intros Hpre Hpost. induction pre as [|y pre IH].
  - cbn [app].
    change (Detector.sort_desc (x :: post))
      with (Detector.insert_desc x (Detector.sort_desc post)).
    destruct (Detector.sort_desc post) as [|z zs] eqn:E; [exists []; reflexivity|].
    assert (Hz : In z post) by (apply sort_desc_In; rewrite E; left; reflexivity).
    cbn [Detector.insert_desc].
    replace (snd z <=? snd x)%Z with true
      by (symmetry; apply Z.leb_le; apply Hpost; exact Hz).
    eauto.
  - destruct IH as [rest IH]; [intros e He; apply Hpre; right; exact He|].
    cbn [app].
    change (Detector.sort_desc (y :: pre ++ x :: post))
      with (Detector.insert_desc y (Detector.sort_desc (pre ++ x :: post))).
    rewrite IH. cbn [Detector.insert_desc].
    replace (snd x <=? snd y)%Z with false
      by (symmetry; apply Z.leb_gt; apply Hpre; left; reflexivity).
    eauto.
Qed.

Lemma map_get_Some_key {V : Type} (m : list (string * V)) (k : string) (v : V) :
  JS.map_get m k = Some v -> In k (JS.map_keys m).
Proof.
  unfold JS.map_keys. induction m as [|[k0 v0] m IH]; simpl; [discriminate|].
  destruct (String.eqb_spec k k0) as [-> | Hk].
  - intros _. left. reflexivity.
  - intros H. right. apply IH. exact H.
Qed.

(** A name that is neither an identifier nor an alias (in lower case) of a
    profile is not a key of the detector's map. *)
Lemma registry_miss (L : string) :
  (forall config, In config Configs.LANGUAGE_CONFIGS ->
     Configs.id config <> L /\ ~ In L (map JS.toLowerCase (Configs.aliases config))) ->
  JS.map_get Detector.configs L = None.
Proof.
  intros H. destruct (JS.map_get Detector.configs L) as [c|] eqn:E; [|reflexivity].
  exfalso. apply map_get_Some_key in E. vm_compute in E.
  assert (Hc : forall config, In config Configs.LANGUAGE_CONFIGS ->
                 forall k, k = L ->
                   (Configs.id config = k \/
                    In k (map JS.toLowerCase (Configs.aliases config))) -> False).
  { intros config Hin k <- [Hid | Hal]; destruct (H config Hin) as [H1 H2];
      [exact (H1 Hid) | exact (H2 Hal)]. }
  repeat (destruct E as [E | E];
          [ first
              [ apply (Hc Configs.javascript (or_introl eq_refl) _ E); simpl; tauto
              | apply (Hc Configs.python (or_intror (or_introl eq_refl)) _ E);
                simpl; tauto
              | apply (Hc Configs.go
                          (or_intror (or_intror (or_introl eq_refl))) _ E);
                simpl; tauto
              | apply (Hc Configs.rust
                          (or_intror (or_intror (or_intror (or_introl eq_refl)))) _ E);
                simpl; tauto
              | apply (Hc Configs.java
                          (or_intror (or_intror (or_intror (or_intror
                             (or_introl eq_refl))))) _ E);
                simpl; tauto
              | apply (Hc Configs.cpp
                          (or_intror (or_intror (or_intror (or_intror (or_intror
                             (or_introl eq_refl)))))) _ E);
                simpl; tauto
              | apply (Hc Configs.ruby
                          (or_intror (or_intror (or_intror (or_intror (or_intror
                             (or_intror (or_introl eq_refl))))))) _ E);
                simpl; tauto
              | apply (Hc Configs.php
                          (or_intror (or_intror (or_intror (or_intror (or_intror
                             (or_intror (or_intror (or_introl eq_refl)))))))) _ E);
                simpl; tauto ] |]).
  exact E.
Qed.

Lemma mappings_miss (L : string) :
  ~ In L (JS.map_keys Detector.mappings) -> JS.map_get Detector.mappings L = None.
Proof.
  intros H. destruct (JS.map_get Detector.mappings L) as [v|] eqn:E; [|reflexivity].
  exfalso. apply H. apply (map_get_Some_key _ _ _ E).
Qed.

(** C4, amended: when the byte counts are available (non-negative, with a
    total above zero and at most 2^53, where the sum of the source is exact)
    and the primary language, the first entry with the largest count, has a
    name that in lower case is neither an identifier or alias of a profile,
    nor a key of the manual table, nor the name of a member of
    [Object.prototype], detection returns that name in lower case, with the
    provider-statistics method and the primary share as confidence, whatever
    the tree holds: no later method is consulted. *)
Theorem C4_unrecognized_name_passes_through
  (pre post : list (string * Z)) (tree : option (list Detector.GitHubTreeItem))
  (primaryLanguage : string) (primaryBytes : Z) :
  let languages := (pre ++ (primaryLanguage, primaryBytes) :: post)%list in
  let normalized := JS.toLowerCase primaryLanguage in
  (forall e, In e languages -> (0 <= snd e)%Z) ->
  (0 < Detector.total languages <= 2 ^ 53)%Z ->
  (forall e, In e pre -> (snd e < primaryBytes)%Z) ->
  (forall e, In e post -> (snd e <= primaryBytes)%Z) ->
  (forall config, In config Configs.LANGUAGE_CONFIGS ->
     Configs.id config <> normalized /\
     ~ In normalized (map JS.toLowerCase (Configs.aliases config))) ->
  ~ In normalized (JS.map_keys Detector.mappings) ->
  ~ In normalized JS.Object_prototype ->
  Detector.detectLanguage (Detector.Languages languages) tree
  = {| Detector.language := Detector.Identifier normalized;
       Detector.confidence := Detector.ratio primaryBytes (Detector.total languages);
       Detector.method := Detector.github_api;
       Detector.metadata := Some (Detector.languageStats languages) |}.
Proof.
  cbv zeta. intros _ [Htotal _] Hpre Hpost Hconfig Hmap Hproto.
  unfold Detector.detectLanguage, Detector.detectFromGitHubAPI.
  replace (Detector.total (pre ++ (primaryLanguage, primaryBytes) :: post) =? 0)%Z
    with false by (symmetry; apply Z.eqb_neq; lia).
  destruct (sort_desc_first_largest pre post (primaryLanguage, primaryBytes) Hpre Hpost)
    as [rest ->].
  unfold Detector.mapGitHubLanguageToId.
  rewrite (registry_miss _ Hconfig), (mappings_miss _ Hmap).
  replace (JS.includes JS.Object_prototype (JS.toLowerCase primaryLanguage)) with false
    by (symmetry; apply includes_not_In; exact Hproto).
  reflexivity.
Qed.

Lemma C4_unrecognized_name_passes_through_witness :
  Detector.detectLanguage (Detector.Languages mixed_stats) (Some go_mod_tree)
  = {| Detector.language := Detector.Identifier "haskell";
       Detector.confidence := Detector.ratio 60 (Detector.total mixed_stats);
       Detector.method := Detector.github_api;
       Detector.metadata := Some (Detector.languageStats mixed_stats) |}.
Proof.
  apply (C4_unrecognized_name_passes_through
           [("CSS", 10%Z)] [("Python", 30%Z)] (Some go_mod_tree) "Haskell" 60%Z).
  - intros e [<- | [<- | [<- | []]]]; simpl; lia.
  - split; vm_compute; [reflexivity | discriminate].
  - intros e [<- | []]. simpl. lia.
  - intros e [<- | []]. simpl. lia.
  - intros config Hc. simpl in Hc.
    repeat (destruct Hc as [<- | Hc];
            [split; [discriminate|]; intros H; vm_compute in H;
             repeat (destruct H as [H | H]; [discriminate H|]); exact H|]).
    destruct Hc.
  - intros H. vm_compute in H.
    repeat (destruct H as [H | H]; [discriminate H|]). exact H.
  - intros H. vm_compute in H.
    repeat (destruct H as [H | H]; [discriminate H|]). exact H.
Defined.

(** ** C6 *)

Lemma blob_paths_lower_In (tree : list Detector.GitHubTreeItem) (p : string) :
  In p (Detector.blob_paths_lower tree) <->
  exists item, In item tree /\ Detector.type item = "blob"
               /\ JS.toLowerCase (Detector.path item) = p.
Proof.
  unfold Detector.blob_paths_lower. rewrite in_map_iff. split.
  - intros (item & Hp & Hin). apply filter_In in Hin as [Hin Hb].
    apply String.eqb_eq in Hb. eauto.
  - intros (item & Hin & Hb & Hp). exists item. split; [exact Hp|].
    apply filter_In. split; [exact Hin|]. apply String.eqb_eq. exact Hb.
Qed.

Lemma total_all_zero (languages : list (string * Z)) :
  (forall e, In e languages -> snd e = 0%Z) -> Detector.total languages = 0%Z.
Proof.
  unfold Detector.total. induction languages as [|e l IH]; intros H; [reflexivity|].
  cbn [fold_left]. rewrite (H e (or_introl eq_refl)). apply IH.
  intros e' He'. apply H. right. exact He'.
Qed.

(** Provider statistics are unavailable when the request fails, when the
    answer is not ok, and when the counts are all zero. *)
Lemma statistics_unavailable (api : Detector.ApiOutcome) :
  api = Detector.FetchThrows \/ api = Detector.NotOk \/
  (exists languages, api = Detector.Languages languages /\
                     forall e, In e languages -> snd e = 0%Z) ->
  Detector.detectFromGitHubAPI api = None.
Proof.
  intros [-> | [-> | (languages & -> & Hzero)]]; [reflexivity | reflexivity|].
  unfold Detector.detectFromGitHubAPI. rewrite (total_all_zero languages Hzero).
  reflexivity.
Qed.

(** C6, as stated, fails: a manifest filename that appears in the file-path
    list below a directory is not seen. With [backend/go.mod] as the only
    file and no provider statistics, detection does not answer Go by the
    manifest method: it falls to the default. *)
Lemma C6_nested_manifest_is_not_found :
  In "go.mod" (Configs.manifestFiles Configs.go) /\
  (exists item, In item nested_go_mod_tree /\ Detector.type item = "blob" /\
                JS.endsWith (Detector.path item) "/go.mod" = true) /\
  Detector.detectLanguage Detector.NotOk (Some nested_go_mod_tree)
    = Detector.defaultDetection /\
  Detector.language (Detector.detectLanguage Detector.NotOk (Some nested_go_mod_tree))
    <> "go" /\
  Detector.method (Detector.detectLanguage Detector.NotOk (Some nested_go_mod_tree))
    <> Detector.manifest /\
  ~ (Detector.confidence (Detector.detectLanguage Detector.NotOk (Some nested_go_mod_tree))
     == 8 # 10)%Q.
Proof.
  split; [left; reflexivity|].
  split; [eexists; split; [left; reflexivity | split; reflexivity]|].
  split; [reflexivity|].
  split; [vm_compute; discriminate|].
  split; [vm_compute; discriminate|].
  vm_compute. discriminate.
Qed.

(** C6, amended: without provider statistics (the request fails, is not ok,
    or counts nothing but zeros), when some blob of the tree has a path
    that, compared without regard to letter case, is as a whole the name of
    a manifest file of some profile, detection answers the first profile of
    [LANGUAGE_CONFIGS] that has such a blob, by the manifest method and
    with confidence 8/10, however many manifests are found; in particular a
    tree with a blob [go.mod] at its root, in any letter case, and no
    manifest of another profile at its root yields Go. Directories and
    files below the root are not looked at. *)
Theorem C6_manifest_detection :
  (forall api tree front config back manifestFile item,
      (api = Detector.FetchThrows \/ api = Detector.NotOk \/
       (exists languages, api = Detector.Languages languages /\
                          forall e, In e languages -> snd e = 0%Z)) ->
      Configs.LANGUAGE_CONFIGS = (front ++ config :: back)%list ->
      (forall c m other, In c front -> In m (Configs.manifestFiles c) ->
                         In other tree -> Detector.type other = "blob" ->
                         JS.toLowerCase (Detector.path other) <> JS.toLowerCase m) ->
      In manifestFile (Configs.manifestFiles config) ->
      In item tree -> Detector.type item = "blob" ->
      JS.toLowerCase (Detector.path item) = JS.toLowerCase manifestFile ->
      let detection := Detector.detectLanguage api (Some tree) in
      Detector.language detection = Configs.id config /\
      Detector.method detection = Detector.manifest /\
      Detector.confidence detection = (8 # 10)%Q)
  /\
  (forall api tree item,
      (api = Detector.FetchThrows \/ api = Detector.NotOk \/
       (exists languages, api = Detector.Languages languages /\
                          forall e, In e languages -> snd e = 0%Z)) ->
      In item tree -> Detector.type item = "blob" ->
      JS.toLowerCase (Detector.path item) = "go.mod" ->
      (forall c m other, In c Configs.LANGUAGE_CONFIGS -> c <> Configs.go ->
                         In m (Configs.manifestFiles c) ->
                         In other tree -> Detector.type other = "blob" ->
                         JS.toLowerCase (Detector.path other) <> JS.toLowerCase m) ->
      let detection := Detector.detectLanguage api (Some tree) in
      Detector.language detection = "go" /\
      Detector.method detection = Detector.manifest /\
      Detector.confidence detection = (8 # 10)%Q).
Proof.
  assert (General : forall api tree front config back manifestFile item,
      (api = Detector.FetchThrows \/ api = Detector.NotOk \/
       (exists languages, api = Detector.Languages languages /\
                          forall e, In e languages -> snd e = 0%Z)) ->
      Configs.LANGUAGE_CONFIGS = (front ++ config :: back)%list ->
      (forall c m other, In c front -> In m (Configs.manifestFiles c) ->
                         In other tree -> Detector.type other = "blob" ->
                         JS.toLowerCase (Detector.path other) <> JS.toLowerCase m) ->
      In manifestFile (Configs.manifestFiles config) ->
      In item tree -> Detector.type item = "blob" ->
      JS.toLowerCase (Detector.path item) = JS.toLowerCase manifestFile ->
      let detection := Detector.detectLanguage api (Some tree) in
      Detector.language detection = Configs.id config /\
      Detector.method detection = Detector.manifest /\
      Detector.confidence detection = (8 # 10)%Q).
  { intros api tree front config back manifestFile item
           Hapi Hsplit Hfront Hin Hitem Hblob Hpath.
    unfold Detector.detectLanguage, Detector.detectFromManifests.
    rewrite (statistics_unavailable api Hapi).
    assert (Hfront' : forall c m, In c front -> In m (Configs.manifestFiles c) ->
                        ~ In (JS.toLowerCase m) (Detector.blob_paths_lower tree)).
    { intros c m Hc Hm Hp. apply blob_paths_lower_In in Hp as (other & Ho & Hb & Hp).
      exact (Hfront c m other Hc Hm Ho Hb Hp). }
    assert (Hfound : In (JS.toLowerCase manifestFile) (Detector.blob_paths_lower tree)).
    { apply blob_paths_lower_In. exists item. repeat split; assumption. }
    rewrite (detectedManifests_split tree front config back Hsplit Hfront').
    destruct (manifestsOf_cons _ _ _ Hin Hfound) as (file & rest & ->).
    simpl. repeat split. }
  split; [exact General|].
  intros api tree item Hapi Hitem Hblob Hpath Hothers.
  apply (General api tree [Configs.javascript; Configs.python] Configs.go
                 [Configs.rust; Configs.java; Configs.cpp; Configs.ruby; Configs.php]
                 "go.mod" item).
  - exact Hapi.
  - reflexivity.
  - intros c m other Hc Hm. apply (Hothers c m other).
    + simpl in Hc. simpl. tauto.
    + destruct Hc as [<- | [<- | []]]; discriminate.
    + exact Hm.
  - left. reflexivity.
  - exact Hitem.
  - exact Hblob.
  - exact Hpath.
Qed.

Lemma C6_manifest_detection_witness :
  Detector.language
    (Detector.detectLanguage Detector.NotOk (Some upper_case_go_mod_tree)) = "go" /\
  Detector.method
    (Detector.detectLanguage Detector.NotOk (Some upper_case_go_mod_tree))
    = Detector.manifest /\
  Detector.confidence
    (Detector.detectLanguage Detector.NotOk (Some upper_case_go_mod_tree))
    = (8 # 10)%Q.
Proof.
  apply (proj1 C6_manifest_detection Detector.NotOk upper_case_go_mod_tree
               [Configs.javascript; Configs.python] Configs.go
               [Configs.rust; Configs.java; Configs.cpp; Configs.ruby; Configs.php]
               "go.mod"
               {| Detector.path := "GO.MOD"; Detector.type := "blob";
                  Detector.sha := "10" |}).
  - right. left. reflexivity.
  - reflexivity.
  - intros c m other Hc Hm Ho Hb Hp.
    destruct Ho as [<- | [<- | [<- | []]]]; [discriminate Hb | |];
      (destruct Hc as [<- | [<- | []]]; simpl in Hm;
       repeat (destruct Hm as [<- | Hm]; [vm_compute in Hp; discriminate Hp|]);
       destruct Hm).
  - left. reflexivity.
  - right. right. left. reflexivity.
  - reflexivity.
  - reflexivity.
Defined.

(** ** C7 *)

(** C7, as stated, fails twice. The default answer carries the method tag
    [manual], the very tag of a manual override. And a tree none of whose
    extensions maps to a profile does not reach the default when it holds a
    manifest: [go.mod] alone is answered Go with confidence 8/10. *)
Lemma C7_default_uses_manual_tag :
  Detector.method (Detector.detectLanguage Detector.NotOk None)
    = Detector.method (Detector.manualDetection "python") /\
  (forall item ext, In item go_mod_tree -> Detector.type item = "blob" ->
                    Detector.getExtension (Detector.path item) = Some ext ->
                    Detector.findLanguageByExtension ext = None) /\
  Detector.language (Detector.detectLanguage Detector.NotOk (Some go_mod_tree)) = "go" /\
  Detector.confidence (Detector.detectLanguage Detector.NotOk (Some go_mod_tree))
    <> (3 # 10)%Q.
Proof.
  split; [reflexivity|]. split; [|split; [reflexivity|]].
  - intros item ext [<- | []] _ Hext. vm_compute in Hext. inversion Hext. reflexivity.
  - vm_compute. discriminate.
Qed.

(** C7, amended: without provider statistics, when no tree was supplied, or
    the tree holds no manifest file of any profile and no extension of its
    blobs maps to a profile, [detectLanguage] returns the identifier
    [javascript] with confidence 3/10; its method tag is [manual], the tag a
    manual override carries as well. *)
Theorem C7_default_detection
  (api : Detector.ApiOutcome) (tree : option (list Detector.GitHubTreeItem)) :
  Detector.detectFromGitHubAPI api = None ->
  (tree = None \/
   exists t, tree = Some t /\
     (forall c m, In c Configs.LANGUAGE_CONFIGS -> In m (Configs.manifestFiles c) ->
                  ~ In (JS.toLowerCase m) (Detector.blob_paths_lower t)) /\
     (forall item ext, In item t -> Detector.type item = "blob" ->
                       Detector.getExtension (Detector.path item) = Some ext ->
                       Detector.findLanguageByExtension ext = None)) ->
  let detection := Detector.detectLanguage api tree in
  Detector.language detection = "javascript" /\
  Detector.confidence detection = (3 # 10)%Q /\
  Detector.method detection = Detector.manual /\
  forall manualLanguage,
    Detector.method detection = Detector.method (Detector.manualDetection manualLanguage).
Proof.
  intros Hapi Htree.
  assert (Hdefault : Detector.detectLanguage api tree = Detector.defaultDetection).
  { unfold Detector.detectLanguage. rewrite Hapi.
    destruct Htree as [-> | (t & -> & Hmanifest & Hext)]; [reflexivity|].
    unfold Detector.detectFromManifests, Detector.detectFromExtensions.
    rewrite (detectedManifests_none t Hmanifest), (languageCounts_nil t Hext).
    reflexivity. }
  cbv zeta. rewrite Hdefault. repeat split.
Qed.

Lemma C7_default_detection_witness :
  Detector.detectFromGitHubAPI Detector.FetchThrows = None /\
  Detector.language (Detector.detectLanguage Detector.FetchThrows (Some readme_tree))
    = "javascript" /\
  Detector.confidence (Detector.detectLanguage Detector.FetchThrows (Some readme_tree))
    = (3 # 10)%Q /\
  Detector.method (Detector.detectLanguage Detector.FetchThrows (Some readme_tree))
    = Detector.manual.
Proof.
  split; [reflexivity|].
  destruct (C7_default_detection Detector.FetchThrows (Some readme_tree))
    as (Hl & Hc & Hm & _).
  - reflexivity.
  - right. exists readme_tree. split; [reflexivity|]. split.
    + intros c m Hc Hm Hin. destruct Hin as [Hin | []].
      simpl in Hc.
      repeat (destruct Hc as [<- | Hc];
              [simpl in Hm;
               repeat (destruct Hm as [<- | Hm]; [vm_compute in Hin; discriminate|]);
               destruct Hm|]).
      destruct Hc.
    + intros item ext Hin Hb Hext.
      destruct Hin as [<- | [<- | []]].
      * vm_compute in Hext. inversion Hext. reflexivity.
      * vm_compute in Hb. discriminate.
  - repeat split; assumption.
Defined.

(** ** C8 *)

(** C8 fails for [getLanguageConfig]: the identifier is compared as it is
    written, only the aliases are compared in lower case. The identifier
    [python] is found, its letter-case variant [Python] is not, while the
    alias [TypeScript] is found in any letter case. *)
Theorem C8_getLanguageConfig_is_case_sensitive_on_identifiers :
  JS.toLowerCase "Python" = "python" /\
  Configs.getLanguageConfig "python" = Some Configs.python /\
  Configs.getLanguageConfig "Python" = None /\
  Configs.getLanguageConfig "TypeScript" = Configs.getLanguageConfig "typescript".
Proof. repeat split. Qed.

(** The detector's own lookup, [getConfig], lowers its argument first and
    so treats all letter-case variants alike. *)
Lemma getConfig_case_insensitive (s s' : string) :
  JS.toLowerCase s = JS.toLowerCase s' ->
  Detector.getConfig s = Detector.getConfig s'.
Proof. unfold Detector.getConfig. intros ->. reflexivity. Qed.

Lemma getConfig_finds_python_in_any_case :
  Detector.getConfig "Python" = Some Configs.python /\
  Detector.getConfig "PYTHON" = Some Configs.python /\
  Detector.getConfig "python" = Some Configs.python.
Proof. repeat split. Qed.

(** ** Paths: [split] and [join] *)

Lemma append_assoc (s1 s2 s3 : string) : (s1 ++ s2) ++ s3 = s1 ++ (s2 ++ s3).
Proof. induction s1 as [|c s1 IH]; simpl; [reflexivity | rewrite IH; reflexivity]. Qed.

Lemma split_no_sep (sep : ascii) (s : string) :
  JS.occurs sep s = false -> JS.split sep s = [s].
Proof.
  induction s as [|c s IH]; simpl; intros H; [reflexivity|].
  apply orb_false_iff in H as [Hc Hs]. rewrite Hc, (IH Hs). reflexivity.
Qed.

Lemma split_app_sep (sep : ascii) (a rest : string) :
  JS.occurs sep a = false ->
  JS.split sep (a ++ String sep rest) = a :: JS.split sep rest.
Proof.
  induction a as [|c a IH]; simpl; intros H.
  - rewrite Ascii.eqb_refl. reflexivity.
  - apply orb_false_iff in H as [Hc Ha]. rewrite Hc, (IH Ha). reflexivity.
Qed.

Lemma eqb_empty_false (s : string) : s <> EmptyString -> String.eqb s EmptyString = false.
Proof. intros H. apply String.eqb_neq. exact H. Qed.

Lemma replace_all_char_absent (c d : ascii) (s : string) :
  JS.occurs c s = false -> JS.replace_all_char c d s = s.
Proof.
  induction s as [|a s IH]; simpl; intros H; [reflexivity|].
  apply orb_false_iff in H as [Ha Hs]. rewrite Ha, (IH Hs). reflexivity.
Qed.

Lemma leading_dots_absent (s : string) :
  JS.occurs "." s = false -> JS.leading_dots s = 0.
Proof.
  destruct s as [|a s]; simpl; intros H; [reflexivity|].
  apply orb_false_iff in H as [Ha _]. rewrite Ha. reflexivity.
Qed.

Lemma occurs_dot_neq (d : string) :
  JS.occurs "." d = false -> d <> "." /\ d <> "..".
Proof. intros H; split; intros ->; discriminate. Qed.

(** The directory of [a/b/c] is [a/b], in parts. *)
Lemma currentDir_of_three (a b c : string) :
  JS.occurs "/" a = false -> JS.occurs "/" b = false -> JS.occurs "/" c = false ->
  JS.slice0 (JS.split "/" (a ++ "/" ++ b ++ "/" ++ c)) (-1) = [a; b].
Proof.
  intros Ha Hb Hc. simpl.
  rewrite (split_app_sep "/" a _ Ha), (split_app_sep "/" b _ Hb), (split_no_sep "/" c Hc).
  reflexivity.
Qed.

(** ** C9 *)

(** C9: from the file [a/b/c] the import one level up to the sibling [d]
    resolves to [a/d]. The ECMAScript-family parser, for the import string
    [../d], returns [a/d] itself; the Python parser, where the same import
    is spelled [..d], returns [a/d] with its suffix [.py]. *)
Theorem C9_one_level_up (a b c d : string) :
  a <> EmptyString -> b <> EmptyString ->
  JS.occurs "/" a = false -> JS.occurs "/" b = false ->
  JS.occurs "/" c = false -> JS.occurs "/" d = false ->
  (d <> "." -> d <> ".." ->
   JavaScriptParser.resolveImportPath ("../" ++ d) (a ++ "/" ++ b ++ "/" ++ c)
   = a ++ "/" ++ d)
  /\
  (d <> EmptyString -> JS.occurs "." d = false ->
   PythonParser.resolveRelativeImport (".." ++ d) (a ++ "/" ++ b ++ "/" ++ c)
   = Some ((a ++ "/" ++ d) ++ ".py")).
Proof.
  intros Ha Hb Sa Sb Sc Sd. split.
  - intros Hd1 Hd2.
    unfold JavaScriptParser.resolveImportPath.
    change (JS.startsWith ("../" ++ d) "@/") with false.
    change (JS.startsWith ("../" ++ d) "~/") with false.
    change (JS.startsWith ("../" ++ d) "./") with false.
    change (JS.startsWith ("../" ++ d) "../") with true.
    cbv iota. rewrite orb_true_r.
    rewrite (currentDir_of_three a b c Sa Sb Sc).
    unfold JavaScriptParser.normalizePath.
    change (JS.join "/" [a; b]) with (a ++ String "/" b).
    rewrite (split_app_sep "/" a b Sa), (split_no_sep "/" b Sb).
    change ("../" ++ d) with (".." ++ String "/" d).
    rewrite (split_app_sep "/" ".." d eq_refl), (split_no_sep "/" d Sd).
    unfold JS.filter_Boolean. simpl filter.
    rewrite (eqb_empty_false a Ha), (eqb_empty_false b Hb). simpl.
    unfold JavaScriptParser.normalizeStep.
    apply String.eqb_neq in Hd1, Hd2. rewrite Hd1, Hd2. reflexivity.
  - intros Hd Dd.
    unfold PythonParser.resolveRelativeImport.
    change (JS.leading_dots (".." ++ d)) with (S (S (JS.leading_dots d))).
    rewrite (leading_dots_absent d Dd).
    rewrite (currentDir_of_three a b c Sa Sb Sc).
    change (JS.substring_from 2 (".." ++ d)) with d.
    change (JS.slice0 [a; b] (Z.of_nat (List.length [a; b]) - (Z.of_nat 2 - 1)))
      with [a].
    cbv iota zeta. unfold JS.truthy. rewrite (eqb_empty_false d Hd).
    rewrite (replace_all_char_absent "." "/" d Dd). simpl.
    rewrite append_assoc. reflexivity.
Qed.

Lemma C9_one_level_up_witness :
  JavaScriptParser.resolveImportPath "../d" "a/b/c.ts" = "a/d" /\
  PythonParser.resolveRelativeImport "..d" "a/b/c.py" = Some "a/d.py".
Proof.
  split.
  - apply (C9_one_level_up "a" "b" "c.ts" "d");
      try reflexivity; intros H; discriminate H.
  - apply (C9_one_level_up "a" "b" "c.py" "d");
      try reflexivity; intros H; discriminate H.
Defined.

(** ** C10 *)

Lemma firstn_In {A : Type} (n : nat) (l : list A) (x : A) :
  In x (firstn n l) -> In x l.
Proof.
  intros H. rewrite <- (firstn_skipn n l). apply in_or_app. left. exact H.
Qed.

Lemma length_removelast_le (parts : list string) :
  List.length (removelast parts) = List.length parts - 1.
Proof.
  rewrite removelast_firstn_len, length_firstn. lia.
Qed.

(** Enough [..] segments empty the array of parts, however many there are. *)
Lemma normalize_pops (k : nat) (rest parts : list string) :
  List.length parts <= k ->
  fold_left JavaScriptParser.normalizeStep (repeat ".." k ++ rest)%list parts
  = fold_left JavaScriptParser.normalizeStep rest [].
Proof.
  revert parts. induction k as [|k IH]; intros parts Hlen; simpl.
  - destruct parts; [reflexivity | simpl in Hlen; lia].
  - apply IH. change (JavaScriptParser.normalizeStep parts "..") with (removelast parts).
    rewrite length_removelast_le. lia.
Qed.

Lemma normalize_pushes (rest parts : list string) :
  (forall s, In s rest -> s <> "." /\ s <> "..") ->
  fold_left JavaScriptParser.normalizeStep rest parts = (parts ++ rest)%list.
Proof.
  revert parts. induction rest as [|s rest IH]; intros parts H; simpl.
  - rewrite app_nil_r. reflexivity.
  - destruct (H s (or_introl eq_refl)) as [H1 H2].
    apply String.eqb_neq in H1, H2.
    unfold JavaScriptParser.normalizeStep at 2. rewrite H1, H2. simpl.
    rewrite IH; [rewrite <- app_assoc; reflexivity|].
    intros s' Hs'. apply H. right. exact Hs'.
Qed.

Lemma split_join (l : list string) :
  l <> [] -> (forall s, In s l -> JS.occurs "/" s = false) ->
  JS.split "/" (JS.join "/" l) = l.
Proof.
  induction l as [|x l IH]; intros Hne H; [congruence|].
  destruct l as [|y l].
  - simpl. apply split_no_sep. apply H. left. reflexivity.
  - change (JS.join "/" (x :: y :: l)) with (x ++ String "/" (JS.join "/" (y :: l))).
    rewrite split_app_sep; [|apply H; left; reflexivity].
    rewrite IH; [reflexivity | discriminate |].
    intros s Hs. apply H. right. exact Hs.
Qed.

Lemma split_parts_no_sep (sep : ascii) (s part : string) :
  In part (JS.split sep s) -> JS.occurs sep part = false.
Proof.
  revert part. induction s as [|c s IH]; simpl; intros part H.
  - destruct H as [<- | []]. reflexivity.
  - destruct (Ascii.eqb c sep) eqn:E.
    + destruct H as [<- | H]; [reflexivity | apply IH; exact H].
    + destruct (JS.split sep s) as [|h t] eqn:Es.
      * destruct H as [<- | []]. simpl. rewrite E. reflexivity.
      * destruct H as [<- | H].
        -- simpl. rewrite E. apply IH. left. reflexivity.
        -- apply IH. right. exact H.
Qed.

(** The parts [normalizePath] starts from are the non-empty directory
    segments of the current path. *)
Lemma currentDir_parts (currentPath : string) :
  JS.filter_Boolean
    (JS.split "/" (JS.join "/" (JS.slice0 (JS.split "/" currentPath) (-1))))
  = JS.filter_Boolean (JS.slice0 (JS.split "/" currentPath) (-1)).
Proof.
  destruct (JS.slice0 (JS.split "/" currentPath) (-1)) as [|x l] eqn:E.
  - reflexivity.
  - rewrite split_join; [reflexivity | discriminate |].
    intros s Hs. apply (split_parts_no_sep "/" currentPath).
    unfold JS.slice0 in E. rewrite <- E in Hs.
    eapply firstn_In. exact Hs.
Qed.

(** The ECMAScript-family parser clamps at the root: from a file whose
    directory has at most [k] (non-empty) segments, an import of [k >= 1]
    segments [..] followed by the plain segments [rest] resolves to [rest]
    joined, the surplus [..] being ignored. *)
Lemma js_clamps_at_root (currentPath : string) (k : nat) (rest : list string) :
  List.length (JS.filter_Boolean (JS.slice0 (JS.split "/" currentPath) (-1))) <= k ->
  1 <= k -> rest <> [] ->
  (forall s, In s rest -> JS.occurs "/" s = false /\ s <> "." /\ s <> "..") ->
  JavaScriptParser.resolveImportPath (JS.join "/" (repeat ".." k ++ rest)%list) currentPath
  = JS.join "/" rest.
Proof.
  intros Hdepth Hk Hrest Hplain.
  destruct k as [|k]; [lia|].
  assert (Hform : exists tail, (repeat ".." k ++ rest)%list <> [] /\
            JS.join "/" (repeat ".." (S k) ++ rest)%list
            = ".." ++ String "/" (JS.join "/" (repeat ".." k ++ rest)%list)
            /\ tail = (repeat ".." k ++ rest)%list).
  { exists (repeat ".." k ++ rest)%list. split; [|split; [|reflexivity]].
    - destruct k; simpl; [exact Hrest | discriminate].
    - simpl. destruct (repeat ".." k ++ rest)%list eqn:E; [|reflexivity].
      destruct k; simpl in E; [contradiction | discriminate]. }
  destruct Hform as (tail & Hne & Hjoin & _).
  unfold JavaScriptParser.resolveImportPath. rewrite Hjoin.
  change (JS.startsWith (".." ++ ?x) "@/") with false.
  cbn [JS.startsWith String.append Ascii.eqb Bool.eqb andb orb].
  unfold JavaScriptParser.normalizePath.
  rewrite currentDir_parts.
  change (String "." (String "." (String "/" ?x))) with (".." ++ String "/" x).
  rewrite <- Hjoin.
  rewrite split_join.
  - rewrite normalize_pops by exact Hdepth.
    rewrite normalize_pushes; [reflexivity|].
    intros s Hs. apply Hplain in Hs. tauto.
  - discriminate.
  - intros s Hs. apply in_app_or in Hs as [Hs | Hs].
    + apply repeat_spec in Hs. subst s. reflexivity.
    + apply Hplain in Hs. tauto.
Qed.

(** It never yields a [..] segment: the parts the result is joined from hold
    none, when the directory of the current file holds none. *)
Lemma js_normalize_no_dotdot (relativeParts parts : list string) :
  ~ In ".." parts ->
  ~ In ".." (fold_left JavaScriptParser.normalizeStep relativeParts parts).
Proof.
  revert parts. induction relativeParts as [|part rel IH]; intros parts H; simpl.
  - exact H.
  - apply IH. unfold JavaScriptParser.normalizeStep.
    destruct (String.eqb part "..") eqn:E.
    + intros Hin. apply H. rewrite removelast_firstn_len in Hin.
      eapply firstn_In. exact Hin.
    + destruct (String.eqb part "."); simpl; [exact H|].
      intros Hin. apply in_app_or in Hin as [Hin | [Hin | []]].
      * apply H. exact Hin.
      * apply String.eqb_neq in E. congruence.
Qed.

(** When the Python parser drops an import that ascends [a] levels from a
    directory of depth at most [a]: exactly when [a] is the depth or at
    least twice the depth. In between, the negative end index of [slice]
    keeps a prefix of the directory. *)
Lemma py_above_root_dropped_iff (relativePath currentPath : string) (a : nat) :
  JS.leading_dots relativePath = S a ->
  let depth := List.length (JS.slice0 (JS.split "/" currentPath) (-1)) in
  depth <= a ->
  (PythonParser.resolveRelativeImport relativePath currentPath = None
   <-> a = depth \/ 2 * depth <= a).
Proof.
  intros Hdots depth Hdepth. unfold PythonParser.resolveRelativeImport.
  rewrite Hdots. fold depth.
  set (currentDir := JS.slice0 (JS.split "/" currentPath) (-1)) in *.
  set (e := (Z.of_nat depth - (Z.of_nat (S a) - 1))%Z).
  assert (Hslice : JS.slice0 currentDir e
                   = firstn (if (e <? 0)%Z then 2 * depth - a else 0) currentDir).
  { unfold JS.slice0. fold depth. f_equal. unfold e.
    destruct (Z.ltb_spec (Z.of_nat depth - (Z.of_nat (S a) - 1)) 0); lia. }
  rewrite Hslice.
  destruct (firstn (if (e <? 0)%Z then 2 * depth - a else 0) currentDir)
    as [|x l] eqn:E.
  - split; [intros _ | reflexivity].
    destruct (Z.ltb_spec e 0) as [He | He]; [|unfold e in He; lia].
    destruct (Nat.le_gt_cases (2 * depth) a) as [Hle | Hgt]; [right; exact Hle|].
    exfalso. apply (f_equal (@List.length string)) in E.
    rewrite length_firstn in E. fold depth in E. simpl in E. unfold e in He. lia.
  - split; [destruct (JS.truthy _); discriminate|].
    intros Hcase. exfalso.
    apply (f_equal (@List.length string)) in E. rewrite length_firstn in E.
    fold depth in E. simpl in E.
    destruct (Z.ltb_spec e 0) as [He | He]; unfold e in He; simpl in E; lia.
Qed.

(** C10: the ECMAScript-family parser clamps ['../../x'] from [a/b.ts] to
    [x], and the Python parser drops the same import from [a/b.py]; but from
    the deeper file [a/b/c.py] the Python parser does not drop an import
    that ascends three levels (four dots), it resolves it to
    [a/__init__.py]: the negative end of [slice] counts from the end of the
    array. The candidate reaches the graph as an edge when that file
    exists. *)
Theorem C10_python_resolves_import_above_root :
  JavaScriptParser.resolveImportPath "../../x" "a/b.ts" = "x" /\
  PythonParser.resolveRelativeImport "...x" "a/b.py" = None /\
  JavaScriptParser.resolveImportPath "../../../x" "a/b/c.ts" = "x" /\
  PythonParser.resolveRelativeImport "....x" "a/b/c.py" = Some "a/x.py" /\
  PythonParser.resolveRelativeImport "...." "a/b/c.py" = Some "a/__init__.py" /\
  PythonParser.parseImports "from .... import x" "a/b/c.py"
    = ["////.py"; "a/__init__.py"].
Proof. repeat split; vm_compute; reflexivity. Qed.

(** ** The graph builder *)

Section MapFacts.
Context {V : Type}.
Implicit Types (m : list (string * V)) (k : string) (v : V).

Lemma map_set_keys m k v k' :
  In k' (JS.map_keys (JS.map_set m k v)) <-> k' = k \/ In k' (JS.map_keys m).
Proof.
  unfold JS.map_keys. induction m as [|[k0 v0] m IH]; simpl.
  - intuition congruence.
  - destruct (String.eqb k k0) eqn:E; simpl.
    + apply String.eqb_eq in E. subst k0. intuition congruence.
    + rewrite IH. intuition congruence.
Qed.

Lemma map_set_NoDup m k v :
  NoDup (JS.map_keys m) -> NoDup (JS.map_keys (JS.map_set m k v)).
Proof.
  unfold JS.map_keys. induction m as [|[k0 v0] m IH]; simpl; intros H.
  - constructor; [intros [] | constructor].
  - destruct (String.eqb k k0) eqn:E; simpl; [exact H|].
    inversion H as [|? ? Hnotin Hnd]; subst. constructor; [|apply IH; exact Hnd].
    intros Hin. apply (map_set_keys m k v k0) in Hin as [-> | Hin].
    + rewrite String.eqb_refl in E. discriminate.
    + apply Hnotin. exact Hin.
Qed.

Lemma map_set_values (F : string -> V) m k :
  (forall k' v', In (k', v') m -> v' = F k') ->
  forall k' v', In (k', v') (JS.map_set m k (F k)) -> v' = F k'.
Proof.
  induction m as [|[k0 v0] m IH]; simpl; intros H k' v' Hin.
  - destruct Hin as [Hin | []]. inversion Hin; subst. reflexivity.
  - destruct (String.eqb k k0) eqn:E.
    + apply String.eqb_eq in E. subst k0. destruct Hin as [Hin | Hin].
      * inversion Hin; subst. reflexivity.
      * apply H. right. exact Hin.
    + destruct Hin as [Hin | Hin].
      * apply H. left. exact Hin.
      * apply IH; [|exact Hin]. intros k1 v1 H1. apply H. right. exact H1.
Qed.

Lemma map_of_keys (F : string -> V) m :
  (forall k v, In (k, v) m -> v = F k) ->
  m = map (fun k => (k, F k)) (JS.map_keys m).
Proof.
  induction m as [|[k0 v0] m IH]; simpl; intros H; [reflexivity|].
  rewrite (H k0 v0 (or_introl eq_refl)). f_equal.
  apply IH. intros k v Hin. apply H. right. exact Hin.
Qed.

Lemma map_get_known m k :
  In k (JS.map_keys m) -> exists v, JS.map_get m k = Some v.
Proof.
  unfold JS.map_keys. induction m as [|[k0 v0] m IH]; simpl; intros H; [destruct H|].
  destruct (String.eqb k k0) eqn:E; [eauto|].
  destruct H as [-> | H]; [rewrite String.eqb_refl in E; discriminate|].
  apply IH. exact H.
Qed.
End MapFacts.

Section UpdateFacts.
Import Route.

Lemma update_absent (nodes : NodeMap) k f :
  ~ In k (JS.map_keys nodes) -> update nodes k f = nodes.
Proof.
  unfold JS.map_keys. induction nodes as [|[k0 n0] nodes IH]; simpl; intros H;
    [reflexivity|].
  destruct (String.eqb k k0) eqn:E.
  - apply String.eqb_eq in E. subst k0. exfalso. apply H. left. reflexivity.
  - rewrite IH; [reflexivity|]. intros Hin. apply H. right. exact Hin.
Qed.

(** On a map built from its keys, a mutation of the node under [k] is a
    change of the function at [k]. *)
Lemma update_map_of_keys (G : string -> FileNode) (keys : list string) k f :
  NoDup keys ->
  update (map (fun k' => (k', G k')) keys) k f
  = map (fun k' => (k', if String.eqb k k' then f (G k') else G k')) keys.
Proof.
  induction keys as [|k0 keys IH]; simpl; intros Hnd; [reflexivity|].
  inversion Hnd as [|? ? Hnotin Hnd']; subst.
  destruct (String.eqb k k0) eqn:E.
  - apply String.eqb_eq in E. subst k0. f_equal.
    apply map_ext_in. intros k' Hk'.
    destruct (String.eqb k k') eqn:E'; [|reflexivity].
    apply String.eqb_eq in E'. subst k'. contradiction.
  - f_equal. apply IH. exact Hnd'.
Qed.

Lemma map_keys_of_keys (G : string -> FileNode) (keys : list string) :
  JS.map_keys (map (fun k' => (k', G k')) keys) = keys.
Proof.
  unfold JS.map_keys. rewrite map_map. simpl. apply map_id.
Qed.
End UpdateFacts.

Section BuildFacts.
Import Route GraphSpec.

Variable parser : LanguageParser.

(** What the proofs need of the matcher: a truthy answer is one of the
    available paths. Both shipped matchers and the exact-match fallback
    have it (see below). *)
Hypothesis matcher_sound :
  forall importPath available matchingPath,
    if_truthy (matchPath parser importPath available) = Some matchingPath ->
    In matchingPath available.

Lemma initNodes_inv (files : list FileContent) (nodes0 : NodeMap) :
  NoDup (JS.map_keys nodes0) ->
  (forall k n, In (k, n) nodes0 -> n = derivedNode parser [] k) ->
  let nodes :=
    fold_left
      (fun nodes file =>
         JS.map_set nodes (file_path file)
           {| path := file_path file;
              type := getFileType parser (file_path file);
              imports := [];
              importedBy := [] |})
      files nodes0 in
  NoDup (JS.map_keys nodes) /\
  (forall k n, In (k, n) nodes -> n = derivedNode parser [] k) /\
  (forall k, In k (JS.map_keys nodes) <->
             In k (JS.map_keys nodes0) \/ In k (map file_path files)).
Proof.
  revert nodes0. induction files as [|file files IH]; intros nodes0 Hnd Hval; simpl.
  - repeat split; try assumption; intuition.
  - specialize (IH (JS.map_set nodes0 (file_path file)
                      (derivedNode parser [] (file_path file)))).
    destruct IH as (H1 & H2 & H3).
    + apply map_set_NoDup. exact Hnd.
    + apply map_set_values. exact Hval.
    + split; [exact H1|]. split; [exact H2|].
      intros k. rewrite H3, map_set_keys. intuition.
Qed.

Lemma initNodes_spec (files : list FileContent) :
  let keys := JS.map_keys (initNodes parser files) in
  NoDup keys /\
  initNodes parser files = map (fun k => (k, derivedNode parser [] k)) keys /\
  (forall k, In k keys <-> In k (map file_path files)).
Proof.
  destruct (initNodes_inv files []) as (H1 & H2 & H3).
  - constructor.
  - intros k n [].
  - split; [exact H1|]. split.
    + apply map_of_keys. exact H2.
    + intros k. unfold initNodes. rewrite H3. simpl. intuition.
Qed.

Lemma targetsFrom_snoc k es e :
  targetsFrom k (es ++ [e])
  = (targetsFrom k es ++ (if String.eqb (source e) k then [target e] else []))%list.
Proof.
  unfold targetsFrom. rewrite filter_app, map_app. simpl.
  destruct (String.eqb (source e) k); reflexivity.
Qed.

Lemma sourcesTo_snoc k es e :
  sourcesTo k (es ++ [e])
  = (sourcesTo k es ++ (if String.eqb (target e) k then [source e] else []))%list.
Proof.
  unfold sourcesTo. rewrite filter_app, map_app. simpl.
  destruct (String.eqb (target e) k); reflexivity.
Qed.

(** One pass through the body of the inner loop. *)
Lemma addImport_spec (keys available : list string) (filePath importPath : string)
      (es : list Edge) :
  NoDup keys -> In filePath keys -> (forall k, In k available -> In k keys) ->
  addImport parser available filePath
    (map (fun k => (k, derivedNode parser es k)) keys, es) importPath
  = let es' :=
      (es ++ map (fun m => {| source := filePath; target := m |})
                 match if_truthy (matchPath parser importPath available) with
                 | Some m => [m]
                 | None => []
                 end)%list in
    (map (fun k => (k, derivedNode parser es' k)) keys, es').
Proof.
  intros Hnd Hsrc Havail. unfold addImport.
  destruct (if_truthy (matchPath parser importPath available)) as [m|] eqn:Em;
    simpl; [|rewrite app_nil_r; reflexivity].
  assert (Hm : In m keys) by (apply Havail; eapply matcher_sound; exact Em).
  rewrite (update_map_of_keys _ keys filePath _ Hnd).
  destruct (map_get_known
              (map (fun k' => (k', if String.eqb filePath k'
                                   then push_import m (derivedNode parser es k')
                                   else derivedNode parser es k')) keys) m)
    as [v Hv].
  { rewrite (map_keys_of_keys
               (fun k' => if String.eqb filePath k'
                          then push_import m (derivedNode parser es k')
                          else derivedNode parser es k')).
    exact Hm. }
  rewrite Hv.
  rewrite (update_map_of_keys
             (fun k' => if String.eqb filePath k'
                        then push_import m (derivedNode parser es k')
                        else derivedNode parser es k') keys m _ Hnd).
  f_equal. apply map_ext. intros k. f_equal.
  unfold derivedNode. rewrite targetsFrom_snoc, sourcesTo_snoc. simpl.
  destruct (String.eqb m k), (String.eqb filePath k); simpl;
    unfold push_import, push_importedBy; simpl;
    rewrite ?app_nil_r; reflexivity.
Qed.

Lemma addImports_spec (keys available : list string) (filePath : string)
      (importPaths : list string) (es : list Edge) :
  NoDup keys -> In filePath keys -> (forall k, In k available -> In k keys) ->
  fold_left (addImport parser available filePath) importPaths
    (map (fun k => (k, derivedNode parser es k)) keys, es)
  = let es' :=
      (es ++ map (fun m => {| source := filePath; target := m |})
                 (flat_map
                    (fun importPath =>
                       match if_truthy (matchPath parser importPath available) with
                       | Some m => [m]
                       | None => []
                       end) importPaths))%list in
    (map (fun k => (k, derivedNode parser es' k)) keys, es').
Proof.
  intros Hnd Hsrc Havail. revert es.
  induction importPaths as [|i rest IH]; intros es; cbn [fold_left flat_map map].
  - rewrite app_nil_r. reflexivity.
  - rewrite (addImport_spec keys available filePath i es Hnd Hsrc Havail).
    cbv zeta. rewrite IH. cbv zeta. rewrite map_app, <- app_assoc. reflexivity.
Qed.

Lemma addFile_spec (keys available : list string) (file : FileContent) (es : list Edge) :
  NoDup keys -> In (file_path file) keys -> (forall k, In k available -> In k keys) ->
  addFile parser available (map (fun k => (k, derivedNode parser es k)) keys, es) file
  = let es' := (es ++ edgesOfFile parser available file)%list in
    (map (fun k => (k, derivedNode parser es' k)) keys, es').
Proof.
  intros Hnd Hsrc Havail. unfold addFile, edgesOfFile.
  destruct (negb (JS.truthy (content file))); cbv zeta.
  - rewrite app_nil_r. reflexivity.
  - destruct (map_get_known (map (fun k => (k, derivedNode parser es k)) keys)
                            (file_path file)) as [v Hv].
    { rewrite map_keys_of_keys. exact Hsrc. }
    cbn [fst]. rewrite Hv.
    rewrite (addImports_spec keys available (file_path file) _ es Hnd Hsrc Havail).
    reflexivity.
Qed.

Lemma addFiles_spec (keys available : list string) (files : list FileContent)
      (es : list Edge) :
  NoDup keys -> (forall f, In f files -> In (file_path f) keys) ->
  (forall k, In k available -> In k keys) ->
  fold_left (addFile parser available) files
    (map (fun k => (k, derivedNode parser es k)) keys, es)
  = let es' := (es ++ derivedEdges parser available files)%list in
    (map (fun k => (k, derivedNode parser es' k)) keys, es').
Proof.
  intros Hnd Hfiles Havail. revert es.
  induction files as [|f rest IH]; intros es; cbn [fold_left].
  - unfold derivedEdges. simpl. rewrite app_nil_r. reflexivity.
  - rewrite (addFile_spec keys available f es Hnd); [| |exact Havail].
    + cbv zeta. rewrite IH.
      * cbv zeta. unfold derivedEdges. simpl. rewrite <- app_assoc. reflexivity.
      * intros f' Hf'. apply Hfiles. right. exact Hf'.
    + apply Hfiles. left. reflexivity.
Qed.

(** The builder computes the graph of the specification: its edges are the
    matched imports, in the order of the files, and its nodes are read
    off them, one per distinct path. *)
Lemma buildGraph_spec (files : list FileContent) :
  let keys := JS.map_keys (initNodes parser files) in
  let es := derivedEdges parser keys files in
  buildGraph parser files
  = {| nodes := map (derivedNode parser es) keys; edges := es |}.
Proof.
  cbv zeta. unfold buildGraph.
  destruct (initNodes_spec files) as (Hnd & Hinit & Hkeys).
  cbv zeta in Hnd, Hinit, Hkeys.
  rewrite Hinit at 2.
  rewrite (addFiles_spec _ _ files [] Hnd).
  - cbv zeta. simpl. unfold JS.map_values. rewrite map_map. simpl. reflexivity.
  - intros f Hf. apply Hkeys. apply in_map. exact Hf.
  - intros k Hk. exact Hk.
Qed.
End BuildFacts.

(** ** The matchers *)

Lemma if_truthy_Some (r : option string) (m : string) :
  if_truthy r = Some m -> r = Some m.
Proof.
  destruct r as [x|]; simpl; [|discriminate].
  destruct (JS.truthy x); [tauto | discriminate].
Qed.

(** The body of the ECMAScript-family matcher, as one equation. *)
Lemma js_matchImportToFile_unfold (importPath : string) (availableFiles : list string) :
  JavaScriptParser.matchImportToFile importPath availableFiles
  = if JS.includes availableFiles importPath then Some importPath
    else match find (JS.includes availableFiles)
                    (JavaScriptParser.variations importPath) with
         | Some variation => Some variation
         | None =>
             if JS.startsWith importPath "packages/"
             then if_truthy (JavaScriptParser.matchImportToFile
                               (JS.strip_prefix "packages/" importPath) availableFiles)
             else if JS.startsWith importPath "apps/" then None
             else if_truthy (JavaScriptParser.matchImportToFile
                               ("apps/" ++ importPath) availableFiles)
         end.
Proof.
  apply (JavaScriptParser.matchImportToFile_elim
           (fun importPath availableFiles r =>
              r = if JS.includes availableFiles importPath then Some importPath
                  else match find (JS.includes availableFiles)
                                  (JavaScriptParser.variations importPath) with
                       | Some variation => Some variation
                       | None =>
                           if JS.startsWith importPath "packages/"
                           then if_truthy (JavaScriptParser.matchImportToFile
                                             (JS.strip_prefix "packages/" importPath)
                                             availableFiles)
                           else if JS.startsWith importPath "apps/" then None
                           else if_truthy (JavaScriptParser.matchImportToFile
                                             ("apps/" ++ importPath) availableFiles)
                       end)); cbv zeta beta.
  - intros i a Hi. rewrite Hi. reflexivity.
  - intros i a v Hv Hi. rewrite Hi, Hv. reflexivity.
  - intros i Hp a _ _ Hv Hi. rewrite Hi, Hv, Hp. reflexivity.
  - intros i Ha Hp a _ _ Hv Hi. rewrite Hi, Hv, Hp, Ha. reflexivity.
  - intros i Ha Hp a _ _ _ Hv Hi. rewrite Hi, Hv, Hp, Ha. reflexivity.
Qed.

(** Every answer of the ECMAScript-family matcher is an available file. *)
Lemma js_matcher_sound (importPath : string) (availableFiles : list string) :
  forall m, JavaScriptParser.matchImportToFile importPath availableFiles = Some m ->
            In m availableFiles.
Proof.
  apply (JavaScriptParser.matchImportToFile_elim
           (fun importPath availableFiles r =>
              forall m, r = Some m -> In m availableFiles)); cbv zeta beta.
  - intros i a Hi m Hm. inversion Hm; subst. apply includes_In. exact Hi.
  - intros i a v Hv _ m Hm. inversion Hm; subst.
    eapply find_includes_In. exact Hv.
  - intros i Hp a IH _ _ _ m Hm. apply IH. apply if_truthy_Some. exact Hm.
  - intros i Ha Hp a _ _ _ _ m Hm. discriminate.
  - intros i Ha Hp a IH _ _ _ _ m Hm. apply IH. apply if_truthy_Some. exact Hm.
Qed.

(** It depends on the available files only through membership. *)
Lemma js_matcher_ext (importPath : string) (available1 available2 : list string) :
  (forall y, In y available1 <-> In y available2) ->
  JavaScriptParser.matchImportToFile importPath available1
  = JavaScriptParser.matchImportToFile importPath available2.
Proof.
  revert importPath available1.
  apply (JavaScriptParser.matchImportToFile_elim
           (fun importPath available1 r =>
              (forall y, In y available1 <-> In y available2) ->
              r = JavaScriptParser.matchImportToFile importPath available2));
    cbv zeta beta.
  - intros i a Hi Hext. rewrite js_matchImportToFile_unfold.
    rewrite <- (includes_ext a available2 i Hext), Hi. reflexivity.
  - intros i a v Hv Hi Hext. rewrite js_matchImportToFile_unfold.
    rewrite <- (includes_ext a available2 i Hext), Hi.
    rewrite <- (find_includes_ext a available2 _ Hext), Hv. reflexivity.
  - intros i Hp a IH _ Hv Hi Hext. rewrite (js_matchImportToFile_unfold i available2).
    rewrite <- (includes_ext a available2 i Hext), Hi.
    rewrite <- (find_includes_ext a available2 _ Hext), Hv, Hp.
    rewrite (IH Hext). reflexivity.
  - intros i Ha Hp a _ _ Hv Hi Hext. rewrite js_matchImportToFile_unfold.
    rewrite <- (includes_ext a available2 i Hext), Hi.
    rewrite <- (find_includes_ext a available2 _ Hext), Hv, Hp, Ha. reflexivity.
  - intros i Ha Hp a IH _ _ Hv Hi Hext. rewrite (js_matchImportToFile_unfold i available2).
    rewrite <- (includes_ext a available2 i Hext), Hi.
    rewrite <- (find_includes_ext a available2 _ Hext), Hv, Hp, Ha.
    rewrite (IH Hext). reflexivity.
Qed.

Lemma py_matcher_sound (importPath : string) (availableFiles : list string) (m : string) :
  PythonParser.matchImportToFile importPath availableFiles = Some m ->
  In m availableFiles.
Proof.
  unfold PythonParser.matchImportToFile.
  destruct (JS.includes availableFiles importPath) eqn:E1.
  { intros H. inversion H; subst. apply includes_In. exact E1. }
  destruct (negb (JS.endsWith importPath ".py")
            && JS.includes availableFiles (importPath ++ ".py")) eqn:E2.
  { intros H. inversion H; subst. apply andb_true_iff in E2 as [_ E2].
    apply includes_In. exact E2. }
  destruct (JS.includes availableFiles
              (PythonParser.strip_py importPath ++ "/__init__.py")) eqn:E3.
  { intros H. inversion H; subst. apply includes_In. exact E3. }
  apply find_includes_In.
Qed.

Lemma py_matcher_ext (importPath : string) (available1 available2 : list string) :
  (forall y, In y available1 <-> In y available2) ->
  PythonParser.matchImportToFile importPath available1
  = PythonParser.matchImportToFile importPath available2.
Proof.
  intros Hext. unfold PythonParser.matchImportToFile.
  rewrite !(includes_ext available1 available2 _ Hext).
  rewrite (find_includes_ext available1 available2 _ Hext). reflexivity.
Qed.

(** The registry only ever hands out one of its two parsers. *)
Lemma getParser_cases (languageId : string) :
  ParserRegistry.getParser languageId = ParserRegistry.jsParser \/
  ParserRegistry.getParser languageId = ParserRegistry.pyParser.
Proof.
  unfold ParserRegistry.getParser.
  assert (Hvalues : forall k v, JS.map_get ParserRegistry.parsers k = Some v ->
                                v = ParserRegistry.jsParser \/ v = ParserRegistry.pyParser).
  { intros k v.
    change ParserRegistry.parsers with
      [("javascript", ParserRegistry.jsParser); ("typescript", ParserRegistry.jsParser);
       ("js", ParserRegistry.jsParser); ("ts", ParserRegistry.jsParser);
       ("jsx", ParserRegistry.jsParser); ("tsx", ParserRegistry.jsParser);
       ("python", ParserRegistry.pyParser); ("py", ParserRegistry.pyParser)].
    cbn [JS.map_get].
    repeat match goal with
           | |- context [String.eqb k ?s] => destruct (String.eqb k s)
           end;
      intros H; inversion H; auto. }
  destruct (JS.map_get ParserRegistry.parsers (JS.toLowerCase languageId)) as [p|] eqn:E.
  - eapply Hvalues. exact E.
  - left. reflexivity.
Qed.

Lemma registry_matcher_sound (languageId : string) :
  forall importPath available matchingPath,
    if_truthy (Route.matchPath (ParserRegistry.getParser languageId) importPath available)
    = Some matchingPath ->
    In matchingPath available.
Proof.
  intros i a m H. apply if_truthy_Some in H.
  destruct (getParser_cases languageId) as [E | E]; rewrite E in H;
    unfold Route.matchPath in H; simpl in H.
  - eapply js_matcher_sound. exact H.
  - eapply py_matcher_sound. exact H.
Qed.

Lemma registry_matcher_ext (languageId : string) :
  forall importPath available1 available2,
    (forall y, In y available1 <-> In y available2) ->
    Route.matchPath (ParserRegistry.getParser languageId) importPath available1
    = Route.matchPath (ParserRegistry.getParser languageId) importPath available2.
Proof.
  intros i a1 a2 Hext.
  destruct (getParser_cases languageId) as [-> | ->]; unfold Route.matchPath; simpl.
  - apply js_matcher_ext. exact Hext.
  - apply py_matcher_ext. exact Hext.
Qed.

Lemma flat_map_nil_in {A B : Type} (f : A -> list B) (l : list A) :
  (forall x, In x l -> f x = []) -> flat_map f l = [].
Proof.
  induction l as [|x l IH]; simpl; intros H; [reflexivity|].
  rewrite (H x (or_introl eq_refl)), IH; [reflexivity|].
  intros y Hy. apply H. right. exact Hy.
Qed.

Lemma Permutation_filter_same {A : Type} (f : A -> bool) (l l' : list A) :
  Permutation l l' -> Permutation (filter f l) (filter f l').
Proof.
  induction 1 as [|x l l' _ IH|x y l|l l' l'' _ IH1 _ IH2]; simpl.
  - constructor.
  - destruct (f x); [constructor|]; exact IH.
  - destruct (f x), (f y); try apply Permutation_refl. constructor.
  - eapply Permutation_trans; eassumption.
Qed.

Section RegistryGraphs.
Import Route GraphSpec.

Variable languageId : string.
Let parser := ParserRegistry.getParser languageId.

Lemma registry_buildGraph_spec (files : list FileContent) :
  buildGraph parser files
  = {| nodes := map (derivedNode parser
                       (derivedEdges parser (JS.map_keys (initNodes parser files)) files))
                    (JS.map_keys (initNodes parser files));
       edges := derivedEdges parser (JS.map_keys (initNodes parser files)) files |}.
Proof.
  apply (buildGraph_spec parser (registry_matcher_sound languageId) files).
Qed.

Lemma registry_node_paths (files : list FileContent) :
  map path (nodes (buildGraph parser files)) = JS.map_keys (initNodes parser files).
Proof.
  rewrite registry_buildGraph_spec. simpl. rewrite map_map. simpl. apply map_id.
Qed.

Lemma derivedEdges_sound (known : list string) (files : list FileContent) (e : Edge) :
  In e (derivedEdges parser known files) ->
  In (source e) (map file_path files) /\ In (target e) known.
Proof.
  unfold derivedEdges. intros H. apply in_flat_map in H as (f & Hf & He).
  unfold edgesOfFile in He.
  destruct (negb (JS.truthy (content f))); [destruct He|].
  apply in_map_iff in He as (m & <- & Hm). simpl. split.
  - apply in_map. exact Hf.
  - unfold matchedTargets in Hm. apply in_flat_map in Hm as (i & _ & Hm).
    destruct (if_truthy (matchPath parser i known)) as [m'|] eqn:E; [|destruct Hm].
    destruct Hm as [<- | []].
    eapply registry_matcher_sound. exact E.
Qed.

Lemma derivedEdges_ext (known1 known2 : list string) (files : list FileContent) :
  (forall y, In y known1 <-> In y known2) ->
  derivedEdges parser known1 files = derivedEdges parser known2 files.
Proof.
  intros Hext. unfold derivedEdges. apply flat_map_ext. intros f.
  unfold edgesOfFile, matchedTargets. destruct (negb (JS.truthy (content f)));
    [reflexivity|].
  f_equal. apply flat_map_ext. intros i.
  unfold parser. rewrite (registry_matcher_ext languageId i known1 known2 Hext).
  reflexivity.
Qed.

Lemma registry_keys (files : list FileContent) (k : string) :
  In k (JS.map_keys (initNodes parser files)) <-> In k (map file_path files).
Proof.
  destruct (initNodes_spec parser files) as (_ & _ & H). apply H.
Qed.
End RegistryGraphs.

(** ** C2 *)

(** C2: in the graph built for any language identifier and any list of
    files, both ends of every edge are paths of nodes of the graph; the
    edges are exactly the imports that the parser's matcher resolves to a
    known node path, so an import that matches none yields no edge (the
    builder is a total function: there is no error to raise). *)
Theorem C2_no_dangling_edges (languageId : string) (fileContents : list Route.FileContent) :
  let parser := ParserRegistry.getParser languageId in
  let graph := Route.buildGraph parser fileContents in
  let known := map Route.path (Route.nodes graph) in
  (forall e, In e (Route.edges graph) ->
             In (Route.source e) known /\ In (Route.target e) known) /\
  Route.edges graph = GraphSpec.derivedEdges parser known fileContents /\
  ((forall file importPath,
       In file fileContents ->
       In importPath (parseImports parser (Route.content file) (Route.file_path file)) ->
       Route.matchPath parser importPath known = None) ->
   Route.edges graph = []).
Proof.
  cbv zeta. rewrite registry_node_paths.
  rewrite (registry_buildGraph_spec languageId fileContents). cbn [Route.edges].
  split; [|split; [reflexivity|]].
  - intros e He. apply derivedEdges_sound in He as [Hs Ht].
    split; [|exact Ht]. apply registry_keys. exact Hs.
  - intros Hnone. unfold GraphSpec.derivedEdges.
    apply flat_map_nil_in. intros f Hf.
    unfold GraphSpec.edgesOfFile.
    destruct (negb (JS.truthy (Route.content f))); [reflexivity|].
    replace (GraphSpec.matchedTargets _ _ f) with (@nil string); [reflexivity|].
    symmetry. unfold GraphSpec.matchedTargets.
    apply flat_map_nil_in. intros i Hi.
    rewrite (Hnone f i Hf Hi). reflexivity.
Qed.

Lemma C2_no_dangling_edges_witness :
  In {| Route.source := "src/a.ts"; Route.target := "src/b.ts" |}
     (Route.edges (Route.buildGraph (ParserRegistry.getParser "typescript") two_ts_files)) /\
  In "src/a.ts"
     (map Route.path
          (Route.nodes (Route.buildGraph (ParserRegistry.getParser "typescript") two_ts_files))) /\
  In "src/b.ts"
     (map Route.path
          (Route.nodes (Route.buildGraph (ParserRegistry.getParser "typescript") two_ts_files))).
Proof.
  assert (He : In {| Route.source := "src/a.ts"; Route.target := "src/b.ts" |}
                  (Route.edges (Route.buildGraph (ParserRegistry.getParser "typescript")
                                                 two_ts_files))).
  { vm_compute. left. reflexivity. }
  split; [exact He|].
  exact (proj1 (C2_no_dangling_edges "typescript" two_ts_files) _ He).
Defined.

(** ** C3 *)

Lemma In_sourcesTo (k s : string) (es : list Route.Edge) :
  In s (GraphSpec.sourcesTo k es) <->
  exists e, In e es /\ Route.source e = s /\ Route.target e = k.
Proof.
  unfold GraphSpec.sourcesTo. rewrite in_map_iff. split.
  - intros (e & Hs & He). apply filter_In in He as [He Hk].
    apply String.eqb_eq in Hk. eauto.
  - intros (e & He & Hs & Hk). exists e. split; [exact Hs|].
    apply filter_In. split; [exact He|]. apply String.eqb_eq. exact Hk.
Qed.

Lemma In_targetsFrom (k t : string) (es : list Route.Edge) :
  In t (GraphSpec.targetsFrom k es) <->
  exists e, In e es /\ Route.source e = k /\ Route.target e = t.
Proof.
  unfold GraphSpec.targetsFrom. rewrite in_map_iff. split.
  - intros (e & Ht & He). apply filter_In in He as [He Hk].
    apply String.eqb_eq in Hk. eauto.
  - intros (e & He & Hk & Ht). exists e. split; [exact Ht|].
    apply filter_In. split; [exact He|]. apply String.eqb_eq. exact Hk.
Qed.

(** C3: in the graph built for any language identifier and any list of
    files, the paths in the [importedBy] of a node [t] are exactly the paths
    [s] of the nodes whose [imports] hold the path of [t]; every edge of the
    graph is mirrored in both endpoints, its target among the [imports] of
    the node of its source and its source among the [importedBy] of the
    node of its target; and the edge sets hold nothing else: every entry of
    an [imports] or of an [importedBy] is an edge of the graph. *)
Theorem C3_bidirectional_consistency
  (languageId : string) (fileContents : list Route.FileContent) :
  let graph := Route.buildGraph (ParserRegistry.getParser languageId) fileContents in
  (forall t, In t (Route.nodes graph) ->
   forall s,
     In s (Route.importedBy t) <->
     exists n, In n (Route.nodes graph) /\ Route.path n = s
               /\ In (Route.path t) (Route.imports n)) /\
  (forall e, In e (Route.edges graph) ->
     (exists n, In n (Route.nodes graph) /\ Route.path n = Route.source e
                /\ In (Route.target e) (Route.imports n)) /\
     (exists n, In n (Route.nodes graph) /\ Route.path n = Route.target e
                /\ In (Route.source e) (Route.importedBy n)) /\
     (forall n, In n (Route.nodes graph) ->
                (Route.path n = Route.source e -> In (Route.target e) (Route.imports n)) /\
                (Route.path n = Route.target e ->
                 In (Route.source e) (Route.importedBy n)))) /\
  (forall n, In n (Route.nodes graph) ->
     (forall t, In t (Route.imports n) ->
                exists e, In e (Route.edges graph)
                          /\ Route.source e = Route.path n /\ Route.target e = t) /\
     (forall s, In s (Route.importedBy n) ->
                exists e, In e (Route.edges graph)
                          /\ Route.source e = s /\ Route.target e = Route.path n)).
Proof.
  cbv zeta. rewrite (registry_buildGraph_spec languageId fileContents).
  cbn [Route.nodes Route.edges].
  set (keys := JS.map_keys (Route.initNodes (ParserRegistry.getParser languageId) fileContents)).
  set (es := GraphSpec.derivedEdges (ParserRegistry.getParser languageId) keys fileContents).
  split; [|split].
  - intros t Ht s. apply in_map_iff in Ht as (k & <- & Hk). cbn [GraphSpec.derivedNode
      Route.importedBy Route.path]. rewrite In_sourcesTo. split.
    + intros (e & He & Hs & Htgt).
      exists (GraphSpec.derivedNode (ParserRegistry.getParser languageId) es s).
      split; [|split; [reflexivity|]].
      * apply in_map. apply (registry_keys languageId).
        apply (derivedEdges_sound languageId keys fileContents e) in He as [Hsrc _].
        rewrite Hs in Hsrc. exact Hsrc.
      * cbn [GraphSpec.derivedNode Route.imports]. apply In_targetsFrom. eauto.
    + intros (n & Hn & Hp & Hin). apply in_map_iff in Hn as (k' & <- & _).
      cbn [GraphSpec.derivedNode Route.imports Route.path] in Hp, Hin. subst k'.
      apply In_targetsFrom in Hin as (e & He & Hs & Htgt). eauto.
  - intros e He.
    destruct (derivedEdges_sound languageId keys fileContents e He) as [Hsrc Htgt].
    apply (registry_keys languageId) in Hsrc. fold keys in Hsrc.
    split; [|split].
    + exists (GraphSpec.derivedNode (ParserRegistry.getParser languageId) es (Route.source e)).
      split; [apply in_map; exact Hsrc|]. split; [reflexivity|].
      cbn [GraphSpec.derivedNode Route.imports]. apply In_targetsFrom. eauto.
    + exists (GraphSpec.derivedNode (ParserRegistry.getParser languageId) es (Route.target e)).
      split; [apply in_map; exact Htgt|]. split; [reflexivity|].
      cbn [GraphSpec.derivedNode Route.importedBy]. apply In_sourcesTo. eauto.
    + intros n Hn. apply in_map_iff in Hn as (k & <- & _).
      cbn [GraphSpec.derivedNode Route.imports Route.importedBy Route.path].
      split; intros ->; [apply In_targetsFrom | apply In_sourcesTo]; eauto.
  - intros n Hn. apply in_map_iff in Hn as (k & <- & _).
    cbn [GraphSpec.derivedNode Route.imports Route.importedBy Route.path].
    split.
    + intros t Ht. apply In_targetsFrom in Ht as (e & He & Hs & Ht). eauto.
    + intros s Hs. apply In_sourcesTo in Hs as (e & He & Hs & Ht). eauto.
Qed.

Lemma C3_bidirectional_consistency_witness :
  (exists n,
      In n (Route.nodes (Route.buildGraph (ParserRegistry.getParser "typescript")
                                          two_ts_files))
      /\ Route.path n = "src/a.ts" /\ In "src/b.ts" (Route.imports n)) /\
  (exists n,
      In n (Route.nodes (Route.buildGraph (ParserRegistry.getParser "typescript")
                                          two_ts_files))
      /\ Route.path n = "src/b.ts" /\ In "src/a.ts" (Route.importedBy n)).
Proof.
  destruct (proj1 (proj2 (C3_bidirectional_consistency "typescript" two_ts_files))
                  {| Route.source := "src/a.ts"; Route.target := "src/b.ts" |})
    as (Himports & HimportedBy & _).
  - vm_compute. left. reflexivity.
  - split; [exact Himports | exact HimportedBy].
Defined.

(** ** C5 *)

Lemma registry_keys_permutation
  (languageId : string) (files1 files2 : list Route.FileContent) (k : string) :
  Permutation files1 files2 ->
  In k (JS.map_keys (Route.initNodes (ParserRegistry.getParser languageId) files1)) <->
  In k (JS.map_keys (Route.initNodes (ParserRegistry.getParser languageId) files2)).
Proof.
  intros Hperm. rewrite !(registry_keys languageId). split; apply Permutation_in.
  - apply Permutation_map. exact Hperm.
  - apply Permutation_map. apply Permutation_sym. exact Hperm.
Qed.

Lemma derivedEdges_permutation
  (languageId : string) (files1 files2 : list Route.FileContent) :
  Permutation files1 files2 ->
  Permutation
    (GraphSpec.derivedEdges (ParserRegistry.getParser languageId)
       (JS.map_keys (Route.initNodes (ParserRegistry.getParser languageId) files1)) files1)
    (GraphSpec.derivedEdges (ParserRegistry.getParser languageId)
       (JS.map_keys (Route.initNodes (ParserRegistry.getParser languageId) files2)) files2).
Proof.
  intros Hperm.
  rewrite (derivedEdges_ext languageId _
             (JS.map_keys (Route.initNodes (ParserRegistry.getParser languageId) files2))
             files1).
  - unfold GraphSpec.derivedEdges. apply Permutation_flat_map. exact Hperm.
  - intros k. apply registry_keys_permutation. exact Hperm.
Qed.

Lemma derivedNode_sameNode (parser : LanguageParser) (k : string) (es es' : list Route.Edge) :
  Permutation es es' ->
  GraphSpec.sameNode (GraphSpec.derivedNode parser es k) (GraphSpec.derivedNode parser es' k).
Proof.
  intros H. unfold GraphSpec.sameNode. simpl.
  repeat split; [unfold GraphSpec.targetsFrom | unfold GraphSpec.sourcesTo];
    apply Permutation_map, Permutation_filter_same; exact H.
Qed.

(** C5: two lists of (path, content) pairs that are permutations of one
    another yield the same edges (as a multiset, hence as a set) and the
    same nodes: each node of one graph has a node of the other with its
    path, its type and, up to order, its edge sets. *)
Theorem C5_order_independence
  (languageId : string) (files1 files2 : list Route.FileContent) :
  Permutation files1 files2 ->
  let graph1 := Route.buildGraph (ParserRegistry.getParser languageId) files1 in
  let graph2 := Route.buildGraph (ParserRegistry.getParser languageId) files2 in
  Permutation (Route.edges graph1) (Route.edges graph2) /\
  (forall e, In e (Route.edges graph1) <-> In e (Route.edges graph2)) /\
  (forall n1, In n1 (Route.nodes graph1) ->
              exists n2, In n2 (Route.nodes graph2) /\ GraphSpec.sameNode n1 n2) /\
  (forall n2, In n2 (Route.nodes graph2) ->
              exists n1, In n1 (Route.nodes graph1) /\ GraphSpec.sameNode n1 n2).
Proof.
  intros Hperm. cbv zeta.
  rewrite (registry_buildGraph_spec languageId files1),
          (registry_buildGraph_spec languageId files2).
  cbn [Route.nodes Route.edges].
  pose proof (derivedEdges_permutation languageId files1 files2 Hperm) as Hedges.
  split; [exact Hedges|]. split; [|split].
  - intros e. split; apply Permutation_in;
      [exact Hedges | apply Permutation_sym; exact Hedges].
  - intros n1 Hn1. apply in_map_iff in Hn1 as (k & <- & Hk).
    eexists. split.
    + apply in_map. apply (registry_keys_permutation languageId files1 files2 k Hperm).
      exact Hk.
    + apply derivedNode_sameNode. exact Hedges.
  - intros n2 Hn2. apply in_map_iff in Hn2 as (k & <- & Hk).
    eexists. split.
    + apply in_map. apply (registry_keys_permutation languageId files1 files2 k Hperm).
      exact Hk.
    + apply derivedNode_sameNode. exact Hedges.
Qed.

Lemma C5_order_independence_witness :
  Permutation two_ts_files two_ts_files_swapped /\
  Permutation
    (Route.edges (Route.buildGraph (ParserRegistry.getParser "ts") two_ts_files))
    (Route.edges (Route.buildGraph (ParserRegistry.getParser "ts") two_ts_files_swapped)).
Proof.
  assert (Hperm : Permutation two_ts_files two_ts_files_swapped) by apply perm_swap.
  split; [exact Hperm|].
  exact (proj1 (C5_order_independence "ts" two_ts_files two_ts_files_swapped Hperm)).
Defined.

(** The same holds from the tree on, when the files that pass the filter
    number at most 200: the cut of [codeFiles] then removes nothing, and the
    trees of two orders lead to the same graph. *)
Lemma codeFiles_permutation_below_cap
  (parser : LanguageParser) (tree1 tree2 : list Detector.GitHubTreeItem) :
  Permutation tree1 tree2 ->
  List.length (Route.codeFiles parser tree1) < 200 ->
  Permutation (Route.codeFiles parser tree1) (Route.codeFiles parser tree2).
Proof.
  intros Hperm Hlen. unfold Route.codeFiles in *.
  set (keep := fun item : Detector.GitHubTreeItem =>
                 String.eqb (Detector.type item) "blob"
                 && existsb (JS.endsWith (Detector.path item)) (extensions parser)
                 && negb (existsb (JS.str_includes (Detector.path item))
                                  (excludePatterns parser))) in *.
  pose proof (Permutation_filter_same keep _ _ Hperm) as Hf.
  pose proof (Permutation_length Hf) as Hl.
  rewrite length_firstn in Hlen.
  rewrite !firstn_all2 by lia. exact Hf.
Qed.

Lemma graph_of_tree_permutation_below_cap
  (languageId : string) (fetch : string -> string)
  (tree1 tree2 : list Detector.GitHubTreeItem) :
  Permutation tree1 tree2 ->
  List.length (Route.codeFiles (ParserRegistry.getParser languageId) tree1) < 200 ->
  let parser := ParserRegistry.getParser languageId in
  let graph1 := Route.buildGraph parser (Route.fetchContents fetch (Route.codeFiles parser tree1)) in
  let graph2 := Route.buildGraph parser (Route.fetchContents fetch (Route.codeFiles parser tree2)) in
  Permutation (Route.edges graph1) (Route.edges graph2).
Proof.
  intros Hperm Hlen. cbv zeta.
  rewrite !(registry_buildGraph_spec languageId). cbn [Route.edges].
  apply derivedEdges_permutation.
  unfold Route.fetchContents. apply Permutation_map.
  apply codeFiles_permutation_below_cap; assumption.
Qed.

(** ** C1 *)

(** C1, as stated, fails: the build of [pkg/mod.py] (importing [sibling]
    from its own package) and [pkg/sibling.py] has no edge from the first
    to the second. *)
Lemma C1_no_edge_to_sibling :
  ~ In {| Route.source := "pkg/mod.py"; Route.target := "pkg/sibling.py" |}
       (Route.edges (Route.buildGraph (ParserRegistry.getParser "python") pkg_files)).
Proof. vm_compute. intros []. Qed.

(** C1, amended: the Python parser does not consult the imported names;
    [from . import sibling] in [pkg/mod.py] yields the candidates [/.py]
    (from the absolute-import pattern, which also matches the dot) and
    [pkg/__init__.py] (the package of the current directory). Neither
    matches a file of the build, which therefore has no edge; when
    [pkg/__init__.py] is part of the build, the edge from [pkg/mod.py] to it
    is the one produced. *)
Theorem C1_relative_import_targets_package_init :
  PythonParser.parseImports "from . import sibling" "pkg/mod.py"
    = ["/.py"; "pkg/__init__.py"] /\
  PythonParser.matchImportToFile "pkg/__init__.py" ["pkg/mod.py"; "pkg/sibling.py"] = None /\
  Route.edges (Route.buildGraph (ParserRegistry.getParser "python") pkg_files) = [] /\
  Route.edges (Route.buildGraph (ParserRegistry.getParser "python")
                                (pkg_files ++ [pkg_init])%list)
    = [ {| Route.source := "pkg/mod.py"; Route.target := "pkg/__init__.py" |} ].
Proof. repeat split; vm_compute; reflexivity. Qed.

(** ** Worked examples *)

(** The scenario of the specification: [src/a.ts] imports [./b]. *)
Example two_ts_files_graph :
  Route.buildGraph (ParserRegistry.getParser "javascript") two_ts_files
  = {| Route.nodes :=
         [ {| Route.path := "src/a.ts"; Route.type := "other";
              Route.imports := ["src/b.ts"]; Route.importedBy := [] |};
           {| Route.path := "src/b.ts"; Route.type := "other";
              Route.imports := []; Route.importedBy := ["src/a.ts"] |} ];
       Route.edges := [ {| Route.source := "src/a.ts"; Route.target := "src/b.ts" |} ] |}.
Proof. vm_compute. reflexivity. Qed.

Example js_parseImports_forms :
  JavaScriptParser.parseImports
    "import a, { b } from '../lib/a'
export * as ns from '@/x/y'
import 'left-pad'
const m = import('./lazy')"
    "src/app/page.tsx"
  = ["src/lib/a"; "x/y"; "src/app/lazy"].
Proof. vm_compute. reflexivity. Qed.

Example js_matchImportToFile_retries :
  JavaScriptParser.matchImportToFile "src/b" ["src/a.ts"; "src/b/index.tsx"]
    = Some "src/b/index.tsx" /\
  JavaScriptParser.matchImportToFile "packages/web/x" ["apps/web/x/index.js"]
    = Some "apps/web/x/index.js" /\
  JavaScriptParser.matchImportToFile "left-pad" ["src/a.ts"] = None.
Proof. repeat split. Qed.

Example py_parseImports_forms :
  PythonParser.parseImports "import os
import foo.bar as fb
from ..d import x
from app.models import User" "a/b/c.py"
  = ["foo/bar.py"; "//d.py"; "app/models.py"; "a/d.py"].
Proof. vm_compute. reflexivity. Qed.

Example detect_typescript_share :
  Detector.language
    (Detector.detectLanguage
       (Detector.Languages [("CSS", 10%Z); ("TypeScript", 90%Z)]) None) = "javascript" /\
  (Detector.confidence
     (Detector.detectLanguage
        (Detector.Languages [("CSS", 10%Z); ("TypeScript", 90%Z)]) None) == 9 # 10)%Q.
Proof. split; reflexivity. Qed.

(* ===================================================================== *)
(** * Further properties of the code *)
(* ===================================================================== *)

(** ** Maps *)

Section MapLookupFacts.
Context {V : Type}.
Implicit Types (m : list (string * V)) (k : string) (v : V).

Lemma map_get_set m k v k' :
  JS.map_get (JS.map_set m k v) k'
  = if String.eqb k' k then Some v else JS.map_get m k'.
Proof.
  induction m as [|[k0 v0] m IH]; simpl.
  - reflexivity.
  - destruct (String.eqb_spec k k0) as [-> | Hk]; simpl.
    + destruct (String.eqb_spec k' k0); reflexivity.
    + rewrite IH. destruct (String.eqb_spec k' k0) as [-> | Hk'].
      * destruct (String.eqb_spec k0 k); [congruence | reflexivity].
      * reflexivity.
Qed.

Lemma map_get_Some_In m k v :
  JS.map_get m k = Some v -> In (k, v) m.
Proof.
  induction m as [|[k0 v0] m IH]; simpl; [discriminate|].
  destruct (String.eqb_spec k k0) as [-> | Hk].
  - intros H. inversion H. left. reflexivity.
  - intros H. right. apply IH. exact H.
Qed.

Lemma map_get_None m k :
  JS.map_get m k = None <-> ~ In k (JS.map_keys m).
Proof.
  unfold JS.map_keys. induction m as [|[k0 v0] m IH]; simpl.
  - intuition.
  - destruct (String.eqb_spec k k0) as [-> | Hk].
    + split; [discriminate | intros H; exfalso; apply H; left; reflexivity].
    + rewrite IH. intuition congruence.
Qed.
End MapLookupFacts.

(** ** The parser registry *)

Lemma jsParser_neq_pyParser : ParserRegistry.jsParser <> ParserRegistry.pyParser.
Proof. intros H. apply (f_equal name) in H. discriminate H. Qed.

Lemma default_parsers_explicit :
  ParserRegistry.parsers
  = [("javascript", ParserRegistry.jsParser); ("typescript", ParserRegistry.jsParser);
     ("js", ParserRegistry.jsParser); ("ts", ParserRegistry.jsParser);
     ("jsx", ParserRegistry.jsParser); ("tsx", ParserRegistry.jsParser);
     ("python", ParserRegistry.pyParser); ("py", ParserRegistry.pyParser)].
Proof. reflexivity. Qed.

(** X1: [getParser] answers the Python parser exactly for the identifiers
    that are [python] or [py] in lower case, and the ECMAScript-family
    parser for every other string, registered or not; [hasParser] tells the
    two apart for the eight registered names only. *)
Theorem X1_getParser_characterised (languageId : string) :
  (ParserRegistry.getParser languageId = ParserRegistry.pyParser
   <-> In (JS.toLowerCase languageId) ["python"; "py"]) /\
  (ParserRegistry.getParser languageId = ParserRegistry.jsParser
   <-> ~ In (JS.toLowerCase languageId) ["python"; "py"]) /\
  (ParserRegistry.hasParser languageId = true
   <-> In (JS.toLowerCase languageId)
          ["javascript"; "typescript"; "js"; "ts"; "jsx"; "tsx"; "python"; "py"]).
Proof.
  unfold ParserRegistry.getParser, ParserRegistry.hasParser.
  rewrite default_parsers_explicit.
  set (L := JS.toLowerCase languageId). clearbody L.
  pose proof jsParser_neq_pyParser as Hne.
  cbn [JS.map_get].
  repeat match goal with
         | |- context [String.eqb L ?k] =>
             destruct (String.eqb_spec L k) as [-> | ?]
         end;
    cbn [In]; (split; [|split]); split; intros H;
      try reflexivity; try discriminate; try congruence; try tauto;
      try (exfalso; intuition congruence);
      try (intros [E | [E | []]]; (discriminate E || congruence)).
Qed.

Lemma registry_value_agrees (languageId : string) :
  RegistryState.getParser ParserRegistry.parsers languageId
  = Some (ParserRegistry.getParser languageId).
Proof.
  unfold RegistryState.getParser, ParserRegistry.getParser.
  destruct (JS.map_get ParserRegistry.parsers (JS.toLowerCase languageId));
    reflexivity.
Qed.

(** X2: after [registerParser(id, p)], [getParser] answers [p] for every
    letter-case variant of [id] (last write wins); the answer for any other
    identifier is unchanged, unless [id] is [javascript] in lower case: then
    [p] also becomes the fallback handed out for every identifier without a
    parser. *)
Theorem X2_registerParser_lookup
  (parsers : RegistryState.Registry) (languageId : string) (parser : LanguageParser) :
  (forall other,
      JS.toLowerCase other = JS.toLowerCase languageId ->
      RegistryState.getParser
        (RegistryState.registerParser parsers languageId parser) other = Some parser) /\
  (forall other,
      JS.toLowerCase other <> JS.toLowerCase languageId ->
      JS.toLowerCase languageId <> "javascript" ->
      RegistryState.getParser
        (RegistryState.registerParser parsers languageId parser) other
      = RegistryState.getParser parsers other) /\
  (forall other,
      JS.toLowerCase languageId = "javascript" ->
      RegistryState.hasParser parsers other = false ->
      RegistryState.getParser
        (RegistryState.registerParser parsers languageId parser) other = Some parser).
Proof.
  unfold RegistryState.getParser, RegistryState.registerParser, RegistryState.hasParser.
  split; [|split]; intros other.
  - intros ->. rewrite map_get_set, String.eqb_refl. reflexivity.
  - intros Hother Hjs. rewrite !map_get_set.
    apply String.eqb_neq in Hother. rewrite Hother.
    destruct (String.eqb_spec "javascript" (JS.toLowerCase languageId));
      [congruence | reflexivity].
  - intros Hjs Hnone. rewrite !map_get_set, Hjs.
    destruct (String.eqb_spec (JS.toLowerCase other) "javascript"); [reflexivity|].
    destruct (JS.map_get parsers (JS.toLowerCase other)); [discriminate | reflexivity].
Qed.

Lemma X2_registerParser_lookup_witness :
  RegistryState.getParser
    (RegistryState.registerParser ParserRegistry.parsers "Go" ParserRegistry.pyParser) "GO"
  = Some ParserRegistry.pyParser /\
  RegistryState.getParser
    (RegistryState.registerParser ParserRegistry.parsers "Go" ParserRegistry.pyParser) "rust"
  = RegistryState.getParser ParserRegistry.parsers "rust" /\
  RegistryState.getParser
    (RegistryState.registerParser ParserRegistry.parsers "JavaScript" ParserRegistry.pyParser)
    "rust"
  = Some ParserRegistry.pyParser.
Proof.
  split; [|split].
  - apply (proj1 (X2_registerParser_lookup ParserRegistry.parsers "Go"
                                            ParserRegistry.pyParser)).
    reflexivity.
  - apply (proj1 (proj2 (X2_registerParser_lookup ParserRegistry.parsers "Go"
                                                   ParserRegistry.pyParser))).
    + vm_compute. discriminate.
    + vm_compute. discriminate.
  - apply (proj2 (proj2 (X2_registerParser_lookup ParserRegistry.parsers "JavaScript"
                                                   ParserRegistry.pyParser))).
    + reflexivity.
    + reflexivity.
Defined.

Lemma from_set_spec (xs acc : list string) :
  NoDup acc ->
  let out :=
    fold_left (fun acc x => if JS.includes acc x then acc else (acc ++ [x])%list) xs acc in
  NoDup out /\ forall x, In x out <-> In x acc \/ In x xs.
Proof.
  revert acc. induction xs as [|x xs IH]; intros acc Hnd; simpl.
  - split; [exact Hnd | intuition].
  - destruct (JS.includes acc x) eqn:E.
    + destruct (IH acc Hnd) as [H1 H2]. split; [exact H1|].
      intros y. rewrite H2. apply includes_In in E. intuition (subst; auto).
    + destruct (IH (acc ++ [x])%list) as [H1 H2].
      * apply includes_not_In in E. apply NoDup_app; [exact Hnd | | ].
        -- constructor; [intros [] | constructor].
        -- intros y Hy [<- | []]. contradiction.
      * split; [exact H1|]. intros y. rewrite H2, in_app_iff. simpl. intuition.
Qed.

Lemma afterRegistrations_keeps_keys (calls : list (string * LanguageParser)) (k : string) :
  In k (JS.map_keys ParserRegistry.parsers) ->
  In k (JS.map_keys (RegistryState.afterRegistrations calls)).
Proof.
  unfold RegistryState.afterRegistrations.
  generalize ParserRegistry.parsers as parsers.
  induction calls as [|[id p] calls IH]; intros parsers H; simpl; [exact H|].
  apply IH. unfold RegistryState.registerParser. apply map_set_keys. right. exact H.
Qed.

(** X3: whatever parsers have been registered since start-up, the list of
    supported languages has no duplicate, holds exactly the identifiers
    [hasParser] accepts (in lower case), still holds the eight built-in
    names, and [getParser] never comes back empty-handed: the [javascript]
    fallback cannot be removed. *)
Theorem X3_registry_after_registrations (calls : list (string * LanguageParser)) :
  let parsers := RegistryState.afterRegistrations calls in
  NoDup (RegistryState.getSupportedLanguages parsers) /\
  (forall languageId,
      RegistryState.hasParser parsers languageId = true
      <-> In (JS.toLowerCase languageId) (RegistryState.getSupportedLanguages parsers)) /\
  (forall k, In k ["javascript"; "typescript"; "js"; "ts"; "jsx"; "tsx"; "python"; "py"] ->
             In k (RegistryState.getSupportedLanguages parsers)) /\
  (forall languageId, RegistryState.getParser parsers languageId <> None).
Proof.
  cbv zeta. set (parsers := RegistryState.afterRegistrations calls).
  destruct (from_set_spec (JS.map_keys parsers) [] (NoDup_nil _)) as [Hnd Hin].
  cbv zeta in Hnd, Hin. fold (RegistryState.from_set (JS.map_keys parsers)) in Hnd, Hin.
  assert (Hkeys : forall k, In k (RegistryState.getSupportedLanguages parsers)
                            <-> In k (JS.map_keys parsers)).
  { intros k. unfold RegistryState.getSupportedLanguages. rewrite Hin. simpl. tauto. }
  split; [exact Hnd|]. split; [|split].
  - intros languageId. rewrite Hkeys. unfold RegistryState.hasParser.
    destruct (JS.map_get parsers (JS.toLowerCase languageId)) eqn:E.
    + split; [intros _ | reflexivity].
      apply map_get_Some_In in E. unfold JS.map_keys.
      apply (in_map fst) in E. exact E.
    + split; [discriminate|]. intros H. apply map_get_None in E. contradiction.
  - intros k Hk. apply Hkeys. apply afterRegistrations_keeps_keys.
    rewrite default_parsers_explicit. exact Hk.
  - intros languageId. unfold RegistryState.getParser.
    destruct (JS.map_get parsers (JS.toLowerCase languageId)); [discriminate|].
    intros E. apply map_get_None in E. apply E.
    apply afterRegistrations_keeps_keys. rewrite default_parsers_explicit.
    left. reflexivity.
Qed.

(** ** The two registry lookups *)

Lemma configs_explicit :
  Detector.configs
  = [("javascript", Configs.javascript); ("typescript", Configs.javascript);
     ("tsx", Configs.javascript); ("jsx", Configs.javascript);
     ("js", Configs.javascript); ("ts", Configs.javascript);
     ("python", Configs.python); ("py", Configs.python);
     ("go", Configs.go); ("golang", Configs.go);
     ("rust", Configs.rust); ("rs", Configs.rust);
     ("java", Configs.java);
     ("cpp", Configs.cpp); ("c", Configs.cpp); ("c++", Configs.cpp); ("cxx", Configs.cpp);
     ("ruby", Configs.ruby); ("rb", Configs.ruby);
     ("php", Configs.php)].
Proof. reflexivity. Qed.

(** The linear search of [getLanguageConfig], on an argument already in
    lower case, finds what the detector's map holds. *)
Lemma find_ext_eq {A : Type} (f g : A -> bool) (l : list A) :
  (forall x, f x = g x) -> find f l = find g l.
Proof.
  intros H. induction l as [|x l IH]; simpl; [reflexivity|].
  rewrite H, IH. reflexivity.
Qed.

Ltac split_on_key L k :=
  let H := fresh "H" in
  let E1 := fresh "E" in
  let E2 := fresh "E" in
  destruct (String.eqb_spec L k) as [-> | H];
  [ | assert (E1 : String.eqb L k = false) by (apply String.eqb_neq; exact H);
      assert (E2 : String.eqb k L = false) by (apply String.eqb_neq; congruence);
      clear H ].

Ltac rewrite_key_tests :=
  repeat match goal with
         | E : String.eqb _ _ = false |- _ => rewrite ?E; clear E
         end.

Lemma find_config_is_map_get (L : string) :
  find (fun config =>
          String.eqb (Configs.id config) L || JS.includes (Configs.aliases config) L)
       Configs.LANGUAGE_CONFIGS
  = JS.map_get Detector.configs L.
Proof.
  rewrite configs_explicit.
  split_on_key L "javascript"; [reflexivity|].
  split_on_key L "typescript"; [reflexivity|].
  split_on_key L "tsx"; [reflexivity|].
  split_on_key L "jsx"; [reflexivity|].
  split_on_key L "js"; [reflexivity|].
  split_on_key L "ts"; [reflexivity|].
  split_on_key L "python"; [reflexivity|].
  split_on_key L "py"; [reflexivity|].
  split_on_key L "go"; [reflexivity|].
  split_on_key L "golang"; [reflexivity|].
  split_on_key L "rust"; [reflexivity|].
  split_on_key L "rs"; [reflexivity|].
  split_on_key L "java"; [reflexivity|].
  split_on_key L "cpp"; [reflexivity|].
  split_on_key L "c"; [reflexivity|].
  split_on_key L "c++"; [reflexivity|].
  split_on_key L "cxx"; [reflexivity|].
  split_on_key L "ruby"; [reflexivity|].
  split_on_key L "rb"; [reflexivity|].
  split_on_key L "php"; [reflexivity|].
  cbn [JS.map_get].
  unfold Configs.LANGUAGE_CONFIGS.
  cbv [find Configs.id Configs.aliases JS.includes existsb orb
       Configs.javascript Configs.python Configs.go Configs.rust Configs.java
       Configs.cpp Configs.ruby Configs.php].
  rewrite_key_tests. reflexivity.
Qed.

(** X4: on an argument in lower case the registry's [getLanguageConfig] and
    the detector's [getConfig] are the same lookup: for every string [s],
    [getLanguageConfig] of [s] lower-cased is [getConfig] of [s]. (They part
    only on identifiers written with capitals, which [getLanguageConfig]
    does not find.) *)
Theorem X4_lookups_agree_in_lower_case (s : string) :
  Configs.getLanguageConfig (JS.toLowerCase s) = Detector.getConfig s.
Proof.
  unfold Configs.getLanguageConfig, Detector.getConfig.
  rewrite <- find_config_is_map_get.
  apply find_ext_eq. intros config. rewrite toLowerCase_idempotent. reflexivity.
Qed.

(** ** The detector *)

(** X5: the mapping of a host language name. For the two names that in
    lower case are [constructor] or [__proto__] the manual table answers the
    member it inherits from [Object.prototype], and the result is not a
    string. For every other name the result is an identifier in lower case
    on which the mapping is idempotent: mapping it again changes nothing,
    whether the name was found in the registry, in the manual table or in
    neither. *)
Theorem X5_mapGitHubLanguageToId_idempotent (githubLanguage : string) :
  (In (JS.toLowerCase githubLanguage) ["constructor"; "__proto__"] ->
   Detector.mapGitHubLanguageToId githubLanguage
   = Detector.PrototypeMember (JS.toLowerCase githubLanguage)) /\
  (~ In (JS.toLowerCase githubLanguage) ["constructor"; "__proto__"] ->
   exists languageId,
     Detector.mapGitHubLanguageToId githubLanguage = Detector.Identifier languageId /\
     JS.toLowerCase languageId = languageId /\
     Detector.mapGitHubLanguageToId languageId = Detector.Identifier languageId).
Proof.
  pose proof (toLowerCase_idempotent githubLanguage) as Hidem.
  unfold Detector.mapGitHubLanguageToId at 1 2.
  remember (JS.toLowerCase githubLanguage) as L eqn:HL. clear HL.
  split.
  - intros [<- | [<- | []]]; reflexivity.
  - intros Hnot.
    destruct (JS.map_get Detector.configs L) as [config|] eqn:E1.
    + apply map_get_Some_In in E1. rewrite configs_explicit in E1. cbn [In] in E1.
      repeat (destruct E1 as [E1 | E1];
              [inversion E1; subst; eexists; split; [reflexivity|]; split; reflexivity|]).
      destruct E1.
    + destruct (JS.map_get Detector.mappings L) as [mapped|] eqn:E2.
      * apply map_get_Some_In in E2. unfold Detector.mappings in E2. cbn [In] in E2.
        repeat (destruct E2 as [E2 | E2];
                [inversion E2; subst; eexists; split; [reflexivity|];
                 split; reflexivity|]).
        destruct E2.
      * destruct (JS.includes JS.Object_prototype L) eqn:E3.
        -- exfalso. apply includes_In in E3. unfold JS.Object_prototype in E3.
           cbn [In] in E3.
           repeat (destruct E3 as [E3 | E3];
                   [first [ apply Hnot; rewrite <- E3; simpl; tauto
                          | rewrite <- E3 in Hidem; vm_compute in Hidem;
                            discriminate Hidem ]|]).
           exact E3.
        -- exists L. split; [reflexivity|]. split; [exact Hidem|].
           unfold Detector.mapGitHubLanguageToId. rewrite Hidem, E1, E2, E3.
           reflexivity.
Qed.

Lemma insert_desc_not_nil x l : Detector.insert_desc x l <> [].
Proof. destruct l as [|y l]; simpl; [discriminate|]. destruct (snd y <=? snd x)%Z; discriminate. Qed.

(** The head of the sorted entries is the first entry with the largest
    count. *)
Lemma sort_desc_head (l : list (string * Z)) (x : string * Z) (rest : list (string * Z)) :
  Detector.sort_desc l = x :: rest ->
  exists pre post,
    l = (pre ++ x :: post)%list /\
    (forall e, In e pre -> (snd e < snd x)%Z) /\
    (forall e, In e post -> (snd e <= snd x)%Z).
Proof.
  revert x rest. induction l as [|y l IH]; intros x rest H; [discriminate|].
  change (Detector.sort_desc (y :: l)) with (Detector.insert_desc y (Detector.sort_desc l)) in H.
  destruct (Detector.sort_desc l) as [|z zs] eqn:E.
  - destruct l as [|y' l'].
    + simpl in H. inversion H; subst. exists [], []. repeat split; intros e [].
    + exfalso. change (Detector.sort_desc (y' :: l'))
        with (Detector.insert_desc y' (Detector.sort_desc l')) in E.
      exact (insert_desc_not_nil _ _ E).
  - destruct (IH z zs eq_refl) as (pre & post & Hl & Hpre & Hpost).
    simpl in H. destruct (Z.leb_spec (snd z) (snd y)) as [Hle | Hgt].
    + inversion H; subst x rest. exists [], l. split; [reflexivity|].
      split; [intros e []|]. intros e He. rewrite Hl in He.
      apply in_app_or in He as [He | [<- | He]].
      * specialize (Hpre e He). lia.
      * exact Hle.
      * specialize (Hpost e He). lia.
    + inversion H; subst x rest. exists (y :: pre), post.
      split; [rewrite Hl; reflexivity|]. split; [|exact Hpost].
      intros e [<- | He]; [exact Hgt | apply Hpre; exact He].
Qed.

Lemma sort_desc_nil (l : list (string * Z)) : Detector.sort_desc l = [] -> l = [].
Proof.
  destruct l as [|y l]; [reflexivity|]. intros H.
  change (Detector.sort_desc (y :: l)) with (Detector.insert_desc y (Detector.sort_desc l)) in H.
  exfalso. exact (insert_desc_not_nil _ _ H).
Qed.




(** X6: when the host answers with byte counts that are not negative and
    whose total is not zero and at most 2^53 (where the sum of the source
    is exact), detection stops there whatever the tree holds: the method is
    github-api, the language is the mapped name of the first entry with the
    largest count (every earlier entry is strictly smaller, every later one
    at most equal) and the confidence is that count over the total. *)
Theorem X6_provider_statistics_win
  (languages : list (string * Z)) (tree : option (list Detector.GitHubTreeItem)) :
  (forall e, In e languages -> (0 <= snd e)%Z) ->
  (Detector.total languages <= 2 ^ 53)%Z ->
  Detector.total languages <> 0%Z ->
  exists pre primaryLanguage primaryBytes post,
    languages = (pre ++ (primaryLanguage, primaryBytes) :: post)%list /\
    (forall e, In e pre -> (snd e < primaryBytes)%Z) /\
    (forall e, In e post -> (snd e <= primaryBytes)%Z) /\
    Detector.detectLanguage (Detector.Languages languages) tree
    = {| Detector.language := Detector.mapGitHubLanguageToId primaryLanguage;
         Detector.confidence := Detector.ratio primaryBytes (Detector.total languages);
         Detector.method := Detector.github_api;
         Detector.metadata := Some (Detector.languageStats languages) |}.
Proof.
  intros _ _ Htotal. unfold Detector.detectLanguage, Detector.detectFromGitHubAPI.
  apply Z.eqb_neq in Htotal. rewrite Htotal.
  destruct (Detector.sort_desc languages) as [|[name bytes] rest] eqn:E.
  - apply sort_desc_nil in E. subst languages. discriminate.
  - destruct (sort_desc_head languages (name, bytes) rest E) as (pre & post & H1 & H2 & H3).
    exists pre, name, bytes, post. repeat split; assumption.
Qed.

Lemma X6_provider_statistics_win_witness :
  exists pre primaryLanguage primaryBytes post,
    [("CSS", 10%Z); ("Python", 45%Z); ("Go", 45%Z)]
    = (pre ++ (primaryLanguage, primaryBytes) :: post)%list /\
    (forall e, In e pre -> (snd e < primaryBytes)%Z) /\
    (forall e, In e post -> (snd e <= primaryBytes)%Z) /\
    Detector.detectLanguage
      (Detector.Languages [("CSS", 10%Z); ("Python", 45%Z); ("Go", 45%Z)])
      (Some go_mod_tree)
    = {| Detector.language := Detector.mapGitHubLanguageToId primaryLanguage;
         Detector.confidence := Detector.ratio primaryBytes 100;
         Detector.method := Detector.github_api;
         Detector.metadata :=
           Some (Detector.languageStats [("CSS", 10%Z); ("Python", 45%Z); ("Go", 45%Z)]) |}.
Proof.
  apply (X6_provider_statistics_win
           [("CSS", 10%Z); ("Python", 45%Z); ("Go", 45%Z)] (Some go_mod_tree)).
  - intros e [<- | [<- | [<- | []]]]; simpl; lia.
  - vm_compute. discriminate.
  - vm_compute. discriminate.
Defined.



(** Counting with [bump]: a loop that adds [n] under the key [k] for the
    items [g] selects. *)
Section CountingFacts.
Context {A : Type}.
Variable g : A -> option (string * Z).




End CountingFacts.











(** X9: manifest detection reads the tree only through the set of its
    lower-cased blob paths: two trees with the same set (in particular two
    orders of one tree) get the same answer, evidence included. *)
Theorem X9_manifest_detection_reads_path_set (tree1 tree2 : list Detector.GitHubTreeItem) :
  (forall p, In p (Detector.blob_paths_lower tree1) <-> In p (Detector.blob_paths_lower tree2)) ->
  Detector.detectFromManifests tree1 = Detector.detectFromManifests tree2.
Proof.
  intros Hsame.
  assert (Hd : Detector.detectedManifests tree1 = Detector.detectedManifests tree2).
  { unfold Detector.detectedManifests. apply flat_map_ext. intros config.
    unfold Detector.manifestsOf. apply flat_map_ext. intros manifestFile.
    rewrite (includes_ext _ _ _ Hsame). reflexivity. }
  unfold Detector.detectFromManifests. rewrite Hd. reflexivity.
Qed.

Lemma X9_manifest_detection_reads_path_set_witness :
  Detector.detectFromManifests
    [ {| Detector.path := "Cargo.toml"; Detector.type := "blob"; Detector.sha := "1" |};
      {| Detector.path := "GO.MOD"; Detector.type := "blob"; Detector.sha := "2" |} ]
  = Detector.detectFromManifests
      [ {| Detector.path := "go.mod"; Detector.type := "blob"; Detector.sha := "2" |};
        {| Detector.path := "cargo.toml"; Detector.type := "blob"; Detector.sha := "1" |};
        {| Detector.path := "go.mod"; Detector.type := "tree"; Detector.sha := "3" |} ].
Proof.
  apply X9_manifest_detection_reads_path_set.
  intros p. vm_compute. tauto.
Defined.

Lemma str_includes_char (s : string) (c : ascii) :
  JS.str_includes s (String c EmptyString) = JS.occurs c s.
Proof.
  induction s as [|a s IH]; [reflexivity|].
  cbn [JS.str_includes JS.startsWith JS.occurs]. rewrite IH, andb_true_r.
  rewrite (Ascii.eqb_sym c a). reflexivity.
Qed.

Lemma occurs_app (c : ascii) (s1 s2 : string) :
  JS.occurs c (s1 ++ s2) = JS.occurs c s1 || JS.occurs c s2.
Proof.
  induction s1 as [|a s1 IH]; simpl; [reflexivity|].
  rewrite IH, orb_assoc. reflexivity.
Qed.

(** X10: [getExtension] answers exactly the last dot of the path with what
    follows it, when what follows is not empty and holds neither a dot nor a
    slash; otherwise (no dot, a dot at the very end, a dot only in a
    directory name) it answers nothing. *)
Theorem X10_getExtension_characterised (path ext : string) :
  Detector.getExtension path = Some ext <->
  exists base e,
    path = base ++ String "." e /\ ext = String "." e /\
    e <> EmptyString /\ JS.occurs "." e = false /\ JS.occurs "/" e = false.
Proof.
  split.
  - revert ext. induction path as [|c rest IH]; intros ext H; simpl in H; [discriminate|].
    rewrite !str_includes_char in H.
    destruct (Ascii.eqb c "." && negb (String.eqb rest EmptyString)
              && negb (JS.occurs "/" rest) && negb (JS.occurs "." rest)) eqn:E.
    + inversion H; subst ext.
      apply andb_true_iff in E as [E E4]. apply andb_true_iff in E as [E E3].
      apply andb_true_iff in E as [E1 E2].
      apply Ascii.eqb_eq in E1. subst c.
      apply negb_true_iff in E2, E3, E4. apply String.eqb_neq in E2.
      exists EmptyString, rest. repeat split; assumption.
    + destruct (IH ext H) as (base & e & -> & -> & He).
      exists (String c base), e. repeat split; tauto.
  - intros (base & e & -> & -> & Hne & Hdot & Hslash).
    induction base as [|c base IH]; simpl.
    + rewrite !str_includes_char, Hdot, Hslash.
      apply String.eqb_neq in Hne. rewrite Hne. reflexivity.
    + rewrite !str_includes_char.
      replace (JS.occurs "." (base ++ String "." e)) with true.
      * rewrite !andb_false_r. exact IH.
      * symmetry. rewrite occurs_app. simpl. apply orb_true_r.
Qed.

(** ** The ECMAScript-family parser *)

Lemma slice0_drop_last {A : Type} (l : list A) (x : A) :
  JS.slice0 (l ++ [x]) (-1) = l.
Proof.
  unfold JS.slice0. rewrite length_app. simpl.
  replace (Z.to_nat (Z.max (Z.of_nat (List.length l + 1) + -1) 0)) with (List.length l) by lia.
  rewrite firstn_app, firstn_all, Nat.sub_diag. simpl. apply app_nil_r.
Qed.

Lemma filter_Boolean_nonempty (l : list string) :
  (forall s, In s l -> s <> EmptyString) -> JS.filter_Boolean l = l.
Proof.
  induction l as [|x l IH]; intros H; simpl; [reflexivity|].
  rewrite (eqb_empty_false x (H x (or_introl eq_refl))). simpl. f_equal.
  apply IH. intros s Hs. apply H. right. exact Hs.
Qed.

Lemma removelast_firstn_pred (parts : list string) (n : nat) :
  removelast (firstn n parts) = firstn (Nat.min n (List.length parts) - 1) parts.
Proof.
  rewrite removelast_firstn_len, length_firstn, firstn_firstn.
  f_equal. lia.
Qed.

(** [k] segments [..] remove the last [k] parts, as far as there are any. *)
Lemma normalize_pops_firstn (k : nat) (parts : list string) :
  fold_left JavaScriptParser.normalizeStep (repeat ".." k) parts
  = firstn (List.length parts - k) parts.
Proof.
  revert parts. induction k as [|k IH]; intros parts; simpl.
  - rewrite Nat.sub_0_r, firstn_all. reflexivity.
  - change (JavaScriptParser.normalizeStep parts "..") with (removelast parts).
    rewrite IH, length_removelast_le, removelast_firstn_len, firstn_firstn.
    f_equal. lia.
Qed.

Lemma join_starts_with_up (k : nat) (rest : list string) :
  rest <> [] ->
  JS.join "/" (repeat ".." (S k) ++ rest)%list
  = "../" ++ JS.join "/" (repeat ".." k ++ rest)%list.
Proof.
  intros Hrest. simpl.
  destruct (repeat ".." k ++ rest)%list eqn:E; [|reflexivity].
  destruct k; simpl in E; [contradiction | discriminate].
Qed.

(** X11: relative imports in closed form. From the file [dirs/file], an
    import of [k >= 1] segments [..] followed by the plain segments [rest]
    resolves to the directory cut by [k] levels (down to the root, never
    beyond) followed by [rest]; an import [./rest] resolves to [dirs]
    followed by [rest]. *)
Theorem X11_relative_import_closed_form
  (dirs : list string) (file : string) (k : nat) (rest : list string) :
  (forall s, In s dirs -> s <> EmptyString /\ JS.occurs "/" s = false) ->
  JS.occurs "/" file = false ->
  rest <> [] ->
  (forall s, In s rest -> JS.occurs "/" s = false /\ s <> "." /\ s <> "..") ->
  (1 <= k ->
   JavaScriptParser.resolveImportPath
     (JS.join "/" (repeat ".." k ++ rest)%list) (JS.join "/" (dirs ++ [file])%list)
   = JS.join "/" (firstn (List.length dirs - k) dirs ++ rest)%list) /\
  JavaScriptParser.resolveImportPath
    (JS.join "/" ("." :: rest)) (JS.join "/" (dirs ++ [file])%list)
  = JS.join "/" (dirs ++ rest)%list.
Proof.
  intros Hdirs Hfile Hrest Hplain.
  assert (Hcur : JS.filter_Boolean
                   (JS.slice0 (JS.split "/" (JS.join "/" (dirs ++ [file])%list)) (-1))
                 = dirs).
  { rewrite split_join.
    - rewrite slice0_drop_last. apply filter_Boolean_nonempty.
      intros s Hs. apply Hdirs. exact Hs.
    - destruct dirs; discriminate.
    - intros s Hs. apply in_app_or in Hs as [Hs | [<- | []]];
        [apply Hdirs; exact Hs | exact Hfile]. }
  assert (Hnoslash : forall s, In s rest -> JS.occurs "/" s = false)
    by (intros s Hs; apply Hplain; exact Hs).
  assert (Hpush : forall s, In s rest -> s <> "." /\ s <> "..")
    by (intros s Hs; apply Hplain in Hs; tauto).
  split.
  - intros Hk. destruct k as [|k]; [lia|].
    unfold JavaScriptParser.resolveImportPath.
    rewrite (join_starts_with_up k rest Hrest).
    cbn [JS.startsWith String.append Ascii.eqb Bool.eqb andb orb].
    unfold JavaScriptParser.normalizePath.
    rewrite currentDir_parts, Hcur.
    change (String "." (String "." (String "/" ?x))) with ("../" ++ x).
    rewrite <- (join_starts_with_up k rest Hrest).
    rewrite split_join.
    + rewrite fold_left_app, normalize_pops_firstn, normalize_pushes by exact Hpush.
      reflexivity.
    + discriminate.
    + intros s Hs. apply in_app_or in Hs as [Hs | Hs].
      * apply repeat_spec in Hs. subst s. reflexivity.
      * apply Hnoslash. exact Hs.
  - unfold JavaScriptParser.resolveImportPath.
    destruct rest as [|r rest']; [congruence|].
    change (JS.join "/" ("." :: r :: rest')) with ("./" ++ JS.join "/" (r :: rest')).
    cbn [JS.startsWith String.append Ascii.eqb Bool.eqb andb orb].
    unfold JavaScriptParser.normalizePath.
    rewrite currentDir_parts, Hcur.
    change (String "." (String "/" ?x)) with ("." ++ String "/" x).
    rewrite (split_app_sep "/" "." _ eq_refl).
    rewrite split_join; [|discriminate|exact Hnoslash].
    change (fold_left JavaScriptParser.normalizeStep ("." :: r :: rest') dirs)
      with (fold_left JavaScriptParser.normalizeStep (r :: rest') dirs).
    rewrite normalize_pushes by exact Hpush. reflexivity.
Qed.

Lemma X11_relative_import_closed_form_witness :
  JavaScriptParser.resolveImportPath "../../lib/util" "src/app/ui/page.tsx"
  = "src/lib/util" /\
  JavaScriptParser.resolveImportPath "./lib/util" "src/app/ui/page.tsx"
  = "src/app/ui/lib/util".
Proof.
  destruct (X11_relative_import_closed_form
              ["src"; "app"; "ui"] "page.tsx" 2 ["lib"; "util"]) as [H1 H2].
  - intros s [<- | [<- | [<- | []]]]; split; (reflexivity || discriminate).
  - reflexivity.
  - discriminate.
  - intros s [<- | [<- | []]]; repeat split; (reflexivity || discriminate).
  - split; [apply H1; lia | exact H2].
Defined.

Lemma normalize_elements (relativeParts parts : list string) (x : string) :
  In x (fold_left JavaScriptParser.normalizeStep relativeParts parts) ->
  In x parts \/ (In x relativeParts /\ x <> ".." /\ x <> ".").
Proof.
  revert parts. induction relativeParts as [|part rel IH]; intros parts H; simpl in H.
  - left. exact H.
  - apply IH in H as [H | (H & Hx)]; [|right; split; [right; exact H | exact Hx]].
    unfold JavaScriptParser.normalizeStep in H.
    destruct (String.eqb_spec part "..") as [-> | Hup].
    + left. rewrite removelast_firstn_len in H. eapply firstn_In. exact H.
    + destruct (String.eqb_spec part ".") as [-> | Hdot]; simpl in H.
      * left. exact H.
      * apply in_app_or in H as [H | [<- | []]]; [left; exact H|].
        right. split; [left; reflexivity | split; assumption].
Qed.

(** X12: an import that starts with [./] or [../] never resolves to a path
    with a [.] or [..] segment, provided the directory of the importing file
    has none. The statement is about imports written with a slash after the
    dots; the bare imports [.] and [..] start with neither prefix and are not
    covered. *)
Theorem X12_relative_import_has_no_dot_segment (importPath currentPath : string) :
  JS.startsWith importPath "./" || JS.startsWith importPath "../" = true ->
  (forall s, In s (JS.filter_Boolean (JS.slice0 (JS.split "/" currentPath) (-1))) ->
             s <> "." /\ s <> "..") ->
  forall segment,
    In segment (JS.split "/" (JavaScriptParser.resolveImportPath importPath currentPath)) ->
    segment <> "." /\ segment <> "..".
Proof.
  intros Hrel Hdirs segment Hseg.
  assert (Hdot : exists tail, importPath = String "." tail).
  { apply orb_true_iff in Hrel as [H | H];
      destruct (JavaScriptParser.startsWith_cons _ _ _ H) as (tail & -> & _); eauto. }
  destruct Hdot as (tail & ->).
  unfold JavaScriptParser.resolveImportPath in Hseg.
  change (JS.startsWith (String "." tail) "@/") with false in Hseg.
  change (JS.startsWith (String "." tail) "~/") with false in Hseg.
  cbv iota in Hseg. rewrite Hrel in Hseg.
  unfold JavaScriptParser.normalizePath in Hseg. rewrite currentDir_parts in Hseg.
  set (parts := JS.filter_Boolean (JS.slice0 (JS.split "/" currentPath) (-1))) in *.
  set (relativeParts := JS.split "/" (String "." tail)) in *.
  set (out := fold_left JavaScriptParser.normalizeStep relativeParts parts) in *.
  assert (Hout : forall x, In x out ->
                           JS.occurs "/" x = false /\ x <> "." /\ x <> "..").
  { intros x Hx. apply normalize_elements in Hx as [Hx | (Hx & H1 & H2)].
    - split; [|apply Hdirs; exact Hx].
      unfold parts, JS.filter_Boolean in Hx. apply filter_In in Hx as [Hx _].
      unfold JS.slice0 in Hx. apply firstn_In in Hx.
      eapply split_parts_no_sep. exact Hx.
    - split; [|split; assumption]. eapply split_parts_no_sep. exact Hx. }
  destruct out as [|o out'] eqn:Eo.
  - simpl in Hseg. destruct Hseg as [<- | []]. split; discriminate.
  - rewrite split_join in Hseg.
    + apply Hout in Hseg. tauto.
    + discriminate.
    + intros s Hs. apply Hout in Hs. tauto.
Qed.

Lemma X12_relative_import_has_no_dot_segment_witness :
  Forall (fun segment => segment <> "." /\ segment <> "..")
         (JS.split "/" (JavaScriptParser.resolveImportPath
                          "../../../.././x/../y" "src/app/page.tsx")).
Proof.
  apply Forall_forall.
  apply (X12_relative_import_has_no_dot_segment "../../../.././x/../y" "src/app/page.tsx").
  - reflexivity.
  - intros s H. vm_compute in H. destruct H as [<- | [<- | []]]; split; discriminate.
Defined.

(** ** The matchers *)

Lemma length_append (x y : string) :
  String.length (x ++ y) = String.length x + String.length y.
Proof. induction x as [|c x IH]; simpl; [reflexivity | rewrite IH; reflexivity]. Qed.

Lemma append_cancel_suffix (r suffix : string) : r ++ suffix = suffix -> r = EmptyString.
Proof.
  intros H. apply (f_equal String.length) in H. rewrite length_append in H.
  destruct r; [reflexivity | simpl in H; lia].
Qed.

Lemma strip_suffix_spec (suffix s r : string) :
  JS.strip_suffix suffix s = Some r <-> s = r ++ suffix.
Proof.
  revert r. induction s as [|c s IH]; intros r; cbn [JS.strip_suffix].
  - destruct (String.eqb_spec EmptyString suffix) as [<- | Hne].
    + split.
      * intros H. inversion H. reflexivity.
      * intros H. destruct r; [reflexivity | discriminate].
    + split; [discriminate|]. intros H.
      destruct r; simpl in H; [congruence | discriminate].
  - destruct (String.eqb_spec (String c s) suffix) as [<- | Hne].
    + split.
      * intros H. inversion H. reflexivity.
      * intros H. symmetry in H. apply append_cancel_suffix in H. subst r. reflexivity.
    + destruct (JS.strip_suffix suffix s) as [r'|].
      * split.
        -- intros H. inversion H. subst r. simpl. f_equal.
           apply (IH r'). reflexivity.
        -- intros H. destruct r as [|a r]; [simpl in H; congruence|].
           simpl in H. inversion H as [[Ha Hs]].
           apply (IH r) in Hs. inversion Hs. reflexivity.
      * split; [discriminate|]. intros H.
        destruct r as [|a r]; [simpl in H; congruence|].
        simpl in H. inversion H as [[Ha Hs]].
        apply (IH r) in Hs. discriminate Hs.
Qed.

Lemma append_split_suffix (w e r x : string) :
  w ++ e = r ++ x -> String.length x <= String.length e ->
  exists r0, e = r0 ++ x /\ r = w ++ r0.
Proof.
  revert r. induction w as [|c w IH]; intros r H Hlen; simpl in H.
  - exists r. split; [exact H | reflexivity].
  - destruct r as [|a r]; simpl in H.
    + exfalso. apply (f_equal String.length) in H. simpl in H.
      rewrite length_append in H. lia.
    + inversion H as [[Hc Hw]]. destruct (IH r Hw Hlen) as (r0 & He & Hr).
      exists r0. split; [exact He | simpl; f_equal; exact Hr].
Qed.

(** Stripping a suffix from [w ++ e] is decided on [e] alone when the suffix
    is no longer than [e]. *)
Lemma strip_suffix_app (x w e : string) :
  String.length x <= String.length e ->
  JS.strip_suffix x (w ++ e)
  = match JS.strip_suffix x e with Some r0 => Some (w ++ r0) | None => None end.
Proof.
  intros Hlen. destruct (JS.strip_suffix x e) as [r0|] eqn:E.
  - apply strip_suffix_spec in E. apply strip_suffix_spec.
    rewrite E, append_assoc. reflexivity.
  - destruct (JS.strip_suffix x (w ++ e)) as [r|] eqn:E'; [|reflexivity].
    apply strip_suffix_spec in E'.
    destruct (append_split_suffix w e r x E' Hlen) as (r0 & He & _).
    apply strip_suffix_spec in He. congruence.
Qed.

Lemma append_empty_r (w : string) : w ++ EmptyString = w.
Proof. induction w as [|c w IH]; simpl; [reflexivity | rewrite IH; reflexivity]. Qed.

(** The extension pattern of [matchImportToFile] removes each of the six
    extensions it names. *)
Lemma js_withoutExt_roundtrip (w ext : string) :
  In ext [".ts"; ".tsx"; ".js"; ".jsx"; ".mjs"; ".cjs"] ->
  JS.strip_first_suffix [".ts"; ".tsx"; ".js"; ".jsx"; ".mjs"; ".cjs"] (w ++ ext) = w.
Proof.
  assert (Htsx_js : JS.strip_suffix ".tsx" (w ++ ".js") = None).
  { destruct (JS.strip_suffix ".tsx" (w ++ ".js")) as [r|] eqn:E; [|reflexivity].
    apply strip_suffix_spec in E.
    change (r ++ ".tsx") with (r ++ ("." ++ "tsx")) in E. rewrite <- append_assoc in E.
    destruct (append_split_suffix w ".js" (r ++ ".") "tsx" E (le_n 3)) as (r0 & He & _).
    exfalso. destruct r0 as [|a r0]; [discriminate He|].
    apply (f_equal String.length) in He. simpl in He. rewrite length_append in He.
    simpl in He. lia. }
  intros Hext. cbn [In] in Hext.
  repeat (destruct Hext as [<- | Hext];
          [cbn [JS.strip_first_suffix];
           rewrite ?Htsx_js;
           repeat (rewrite strip_suffix_app by (simpl; lia);
                   cbn [JS.strip_suffix String.eqb Ascii.eqb Bool.eqb]);
           rewrite ?append_empty_r; reflexivity|]).
  destruct Hext.
Qed.

(** X13: the order in which the ECMAScript-family matcher tries its
    candidates. An available import path is answered as it is; otherwise the
    first available variation is answered; the answer is always an available
    file; and no answer means that neither the path nor any variation is
    available. *)
Theorem X13_js_matcher_candidate_order (importPath : string) (availableFiles : list string) :
  (In importPath availableFiles ->
   JavaScriptParser.matchImportToFile importPath availableFiles = Some importPath) /\
  (forall variation,
      ~ In importPath availableFiles ->
      find (JS.includes availableFiles) (JavaScriptParser.variations importPath)
        = Some variation ->
      JavaScriptParser.matchImportToFile importPath availableFiles = Some variation) /\
  (forall matchingPath,
      JavaScriptParser.matchImportToFile importPath availableFiles = Some matchingPath ->
      In matchingPath availableFiles) /\
  (JavaScriptParser.matchImportToFile importPath availableFiles = None ->
   ~ In importPath availableFiles /\
   forall variation, In variation (JavaScriptParser.variations importPath) ->
                     ~ In variation availableFiles).
Proof.
  split; [|split; [|split]].
  - intros H. rewrite js_matchImportToFile_unfold.
    apply includes_In in H. rewrite H. reflexivity.
  - intros v Hnot Hfind. rewrite js_matchImportToFile_unfold.
    apply includes_not_In in Hnot. rewrite Hnot, Hfind. reflexivity.
  - apply js_matcher_sound.
  - rewrite js_matchImportToFile_unfold.
    destruct (JS.includes availableFiles importPath) eqn:E1; [discriminate|].
    destruct (find (JS.includes availableFiles) (JavaScriptParser.variations importPath))
      as [v|] eqn:E2; [discriminate|].
    intros _. split; [apply includes_not_In; exact E1|].
    intros v Hv. apply includes_not_In. exact (find_none _ _ E2 v Hv).
Qed.

(** X14: an import written with one of the six extensions, whose file is
    not available under that very name, is matched against the same
    candidates as the import without the extension; so [./x.js] finds
    [x.ts]. *)
Theorem X14_js_matcher_swaps_extensions
  (w ext : string) (availableFiles : list string) (matchingPath : string) :
  In ext [".ts"; ".tsx"; ".js"; ".jsx"; ".mjs"; ".cjs"] ->
  ~ In (w ++ ext) availableFiles ->
  find (JS.includes availableFiles)
       [w ++ ".ts"; w ++ ".tsx"; w ++ ".js"; w ++ ".jsx"; w ++ ".mjs"; w ++ ".cjs";
        w ++ "/index.ts"; w ++ "/index.tsx"; w ++ "/index.js";
        w ++ "/index.jsx"; w ++ "/index.mjs"; w ++ "/index.cjs"] = Some matchingPath ->
  JavaScriptParser.matchImportToFile (w ++ ext) availableFiles = Some matchingPath.
Proof.
  intros Hext Hnot Hfind. rewrite js_matchImportToFile_unfold.
  apply includes_not_In in Hnot. rewrite Hnot.
  unfold JavaScriptParser.variations. rewrite (js_withoutExt_roundtrip w ext Hext).
  rewrite Hfind. reflexivity.
Qed.

Lemma X14_js_matcher_swaps_extensions_witness :
  JavaScriptParser.matchImportToFile "src/x.js" ["src/x.jsx"; "src/x.ts"] = Some "src/x.ts".
Proof.
  apply (X14_js_matcher_swaps_extensions "src/x" ".js" ["src/x.jsx"; "src/x.ts"] "src/x.ts").
  - simpl. tauto.
  - intros [H | [H | []]]; discriminate H.
  - reflexivity.
Defined.

(** ** The Python parser *)

Lemma endsWith_append (w x : string) : JS.endsWith (w ++ x) x = true.
Proof.
  induction w as [|c w IH]; simpl.
  - destruct x; simpl; rewrite ?String.eqb_refl, ?Ascii.eqb_refl; reflexivity.
  - rewrite IH. apply orb_true_r.
Qed.

Lemma py_strip_roundtrip (q : string) :
  PythonParser.strip_py (q ++ ".py") = q /\ PythonParser.strip_pyi (q ++ ".py") = q.
Proof.
  unfold PythonParser.strip_py, PythonParser.strip_pyi. cbn [JS.strip_first_suffix].
  rewrite (proj2 (strip_suffix_spec ".py" (q ++ ".py") q) eq_refl). split; reflexivity.
Qed.

(** X15: an absolute import [a.b.c] resolves to [a/b/c.py], and the matcher
    answers for it the first available of [a/b/c.py], the package init file
    [a/b/c/__init__.py] and the stub [a/b/c.pyi], in this order, or
    nothing. *)
Theorem X15_python_absolute_import_candidates
  (modulePath currentPath : string) (availableFiles : list string) :
  let q := JS.replace_all_char "." "/" modulePath in
  PythonParser.resolveImportPath modulePath currentPath = Some (q ++ ".py") /\
  PythonParser.matchImportToFile (q ++ ".py") availableFiles
  = find (JS.includes availableFiles) [q ++ ".py"; q ++ "/__init__.py"; q ++ ".pyi"].
Proof.
  cbv zeta. set (q := JS.replace_all_char "." "/" modulePath). split; [reflexivity|].
  unfold PythonParser.matchImportToFile.
  destruct (py_strip_roundtrip q) as [-> ->].
  rewrite endsWith_append. cbn [negb andb find].
  destruct (JS.includes availableFiles (q ++ ".py")); [reflexivity|].
  destruct (JS.includes availableFiles (q ++ "/__init__.py")); [reflexivity|].
  destruct (JS.includes availableFiles (q ++ ".pyi")); reflexivity.
Qed.

(** X16: relative imports of the Python parser in closed form. From the
    file [dirs/file], a relative path with [a + 1] leading dots that stays
    inside the tree ([a] below the depth of [dirs]) resolves to the
    directory cut by [a] levels, followed by the module part with its dots
    turned into slashes and [.py], or by [__init__.py] when there is no
    module part. *)
Theorem X16_python_relative_import_closed_form
  (dirs : list string) (file relativePath : string) (a : nat) :
  (forall s, In s dirs -> JS.occurs "/" s = false) ->
  JS.occurs "/" file = false ->
  JS.leading_dots relativePath = S a ->
  a < List.length dirs ->
  let modulePart := JS.substring_from (S a) relativePath in
  let targetDir := JS.join "/" (firstn (List.length dirs - a) dirs) in
  PythonParser.resolveRelativeImport relativePath (JS.join "/" (dirs ++ [file])%list)
  = Some (if JS.truthy modulePart
          then targetDir ++ "/" ++ JS.replace_all_char "." "/" modulePart ++ ".py"
          else targetDir ++ "/__init__.py").
Proof.
  intros Hdirs Hfile Hdots Ha. cbv zeta.
  unfold PythonParser.resolveRelativeImport. rewrite Hdots.
  rewrite split_join.
  - rewrite slice0_drop_last.
    assert (Hslice : JS.slice0 dirs (Z.of_nat (List.length dirs) - (Z.of_nat (S a) - 1))
                     = firstn (List.length dirs - a) dirs).
    { unfold JS.slice0.
      destruct (Z.ltb_spec (Z.of_nat (List.length dirs) - (Z.of_nat (S a) - 1)) 0); [lia|].
      f_equal. lia. }
    rewrite Hslice.
    destruct (firstn (List.length dirs - a) dirs) as [|d ds] eqn:E.
    + exfalso. apply (f_equal (@List.length string)) in E.
      rewrite length_firstn in E. simpl in E. lia.
    + destruct (JS.truthy (JS.substring_from (S a) relativePath)); reflexivity.
  - destruct dirs; discriminate.
  - intros s Hs. apply in_app_or in Hs as [Hs | [<- | []]];
      [apply Hdirs; exact Hs | exact Hfile].
Qed.

Lemma X16_python_relative_import_closed_form_witness :
  PythonParser.resolveRelativeImport "..models.user" "app/api/views/list.py"
  = Some "app/api/models/user.py" /\
  PythonParser.resolveRelativeImport "..." "app/api/views/list.py"
  = Some "app/__init__.py".
Proof.
  split.
  - apply (X16_python_relative_import_closed_form
             ["app"; "api"; "views"] "list.py" "..models.user" 1).
    + intros s [<- | [<- | [<- | []]]]; reflexivity.
    + reflexivity.
    + reflexivity.
    + simpl. lia.
  - apply (X16_python_relative_import_closed_form
             ["app"; "api"; "views"] "list.py" "..." 2).
    + intros s [<- | [<- | [<- | []]]]; reflexivity.
    + reflexivity.
    + reflexivity.
    + simpl. lia.
Defined.

(** ** The graph builder, further *)

Lemma from_set_In (xs : list string) (x : string) :
  In x (RegistryState.from_set xs) <-> In x xs.
Proof.
  destruct (from_set_spec xs [] (NoDup_nil _)) as [_ H]. cbv zeta in H.
  unfold RegistryState.from_set. rewrite H. simpl. tauto.
Qed.

Lemma node_count_le_file_count (languageId : string) (fileContents : list Route.FileContent) :
  List.length (Route.nodes (Route.buildGraph (ParserRegistry.getParser languageId) fileContents))
  <= List.length fileContents.
Proof.
  pose proof (registry_node_paths languageId fileContents) as Hpaths.
  destruct (initNodes_spec (ParserRegistry.getParser languageId) fileContents)
    as (Hnd & _ & Hkeys). cbv zeta in Hnd, Hkeys.
  rewrite <- (length_map Route.path), Hpaths.
  rewrite <- (length_map Route.file_path fileContents).
  apply NoDup_incl_length; [exact Hnd|]. intros k Hk. apply Hkeys. exact Hk.
Qed.

(** X17: the nodes of a build are the distinct paths of its files: no two
    nodes share a path, a path has a node exactly when some file has it
    (with or without content), there are at most as many nodes as files, and
    every node carries the category its path is classified in. *)
Theorem X17_nodes_are_the_distinct_paths
  (languageId : string) (fileContents : list Route.FileContent) :
  let parser := ParserRegistry.getParser languageId in
  let graph := Route.buildGraph parser fileContents in
  NoDup (map Route.path (Route.nodes graph)) /\
  (forall p, In p (map Route.path (Route.nodes graph))
             <-> In p (map Route.file_path fileContents)) /\
  List.length (Route.nodes graph) <= List.length fileContents /\
  (forall n, In n (Route.nodes graph) -> Route.type n = getFileType parser (Route.path n)).
Proof.
  cbv zeta.
  pose proof (registry_node_paths languageId fileContents) as Hpaths.
  destruct (initNodes_spec (ParserRegistry.getParser languageId) fileContents)
    as (Hnd & _ & Hkeys). cbv zeta in Hnd, Hkeys.
  split; [rewrite Hpaths; exact Hnd|]. split; [rewrite Hpaths; exact Hkeys|]. split.
  - rewrite <- (length_map Route.path), Hpaths.
    rewrite <- (length_map Route.file_path fileContents).
    apply NoDup_incl_length; [exact Hnd|]. intros k Hk. apply Hkeys. exact Hk.
  - rewrite (registry_buildGraph_spec languageId fileContents). cbn [Route.nodes].
    intros n Hn. apply in_map_iff in Hn as (k & <- & _). reflexivity.
Qed.

Lemma sum_indicator (keys : list string) (k : string) :
  NoDup keys -> In k keys ->
  list_sum (map (fun k' => if String.eqb k k' then 1 else 0) keys) = 1.
Proof.
  induction keys as [|k0 keys IH]; intros Hnd Hin; [destruct Hin|].
  inversion Hnd as [|? ? Hnotin Hnd']; subst. simpl.
  destruct (String.eqb_spec k k0) as [-> | Hne].
  - f_equal. clear IH Hin Hnd. induction keys as [|k1 keys IH]; [reflexivity|].
    simpl. destruct (String.eqb_spec k0 k1) as [-> | _].
    + exfalso. apply Hnotin. left. reflexivity.
    + apply IH.
      * intros H. apply Hnotin. right. exact H.
      * inversion Hnd'. assumption.
  - destruct Hin as [-> | Hin]; [congruence|]. apply IH; assumption.
Qed.

Lemma list_sum_map_add {A : Type} (f g : A -> nat) (l : list A) :
  list_sum (map (fun x => f x + g x) l) = list_sum (map f l) + list_sum (map g l).
Proof. induction l as [|x l IH]; simpl; [reflexivity | rewrite IH; lia]. Qed.

(** Every edge is counted once among the edge sets of the nodes. *)
Lemma sum_of_edge_sets (proj : Route.Edge -> string) (keys : list string)
      (es : list Route.Edge) :
  NoDup keys -> (forall e, In e es -> In (proj e) keys) ->
  list_sum (map (fun k => List.length (filter (fun e => String.eqb (proj e) k) es)) keys)
  = List.length es.
Proof.
  intros Hnd. induction es as [|e es IH]; intros Hin.
  - simpl. clear Hnd Hin. induction keys as [|k keys IHk]; [reflexivity|].
    simpl. exact IHk.
  - rewrite (map_ext _ (fun k => (if String.eqb (proj e) k then 1 else 0)
                                 + List.length (filter (fun e0 => String.eqb (proj e0) k) es))).
    + rewrite list_sum_map_add, sum_indicator, IH.
      * reflexivity.
      * intros e' He'. apply Hin. right. exact He'.
      * exact Hnd.
      * apply Hin. left. reflexivity.
    + intros k. simpl. destruct (String.eqb (proj e) k); reflexivity.
Qed.

(** X18: every edge of a build is counted once among the [imports] of the
    nodes and once among their [importedBy]: the number of edges is the sum
    of the lengths of either. *)
Theorem X18_edge_count_is_sum_of_edge_sets
  (languageId : string) (fileContents : list Route.FileContent) :
  let graph := Route.buildGraph (ParserRegistry.getParser languageId) fileContents in
  List.length (Route.edges graph)
  = list_sum (map (fun n => List.length (Route.imports n)) (Route.nodes graph)) /\
  List.length (Route.edges graph)
  = list_sum (map (fun n => List.length (Route.importedBy n)) (Route.nodes graph)).
Proof.
  cbv zeta. rewrite (registry_buildGraph_spec languageId fileContents).
  cbn [Route.nodes Route.edges].
  set (parser := ParserRegistry.getParser languageId).
  set (keys := JS.map_keys (Route.initNodes parser fileContents)).
  set (es := GraphSpec.derivedEdges parser keys fileContents).
  destruct (initNodes_spec parser fileContents) as (Hnd & _ & Hkeys).
  cbv zeta in Hnd, Hkeys. fold keys in Hnd, Hkeys.
  assert (Hends : forall e, In e es -> In (Route.source e) keys /\ In (Route.target e) keys).
  { intros e He. apply (derivedEdges_sound languageId keys fileContents e) in He as [Hs Ht].
    split; [apply Hkeys; exact Hs | exact Ht]. }
  rewrite !map_map. cbn [GraphSpec.derivedNode Route.imports Route.importedBy].
  unfold GraphSpec.targetsFrom, GraphSpec.sourcesTo. split.
  - rewrite (map_ext _ (fun k => List.length
                                   (filter (fun e => String.eqb (Route.source e) k) es)))
      by (intros k; apply length_map).
    symmetry. apply sum_of_edge_sets; [exact Hnd|]. intros e He. apply Hends. exact He.
  - rewrite (map_ext _ (fun k => List.length
                                   (filter (fun e => String.eqb (Route.target e) k) es)))
      by (intros k; apply length_map).
    symmetry. apply sum_of_edge_sets; [exact Hnd|]. intros e He. apply Hends. exact He.
Qed.

Lemma length_zero_iff_nil {A : Type} (l : list A) :
  (List.length l =? 0)%nat = true <-> l = [].
Proof. destruct l; simpl; split; intros H; congruence. Qed.

Lemma map_filter_nil_iff {A B : Type} (f : A -> B) (test : A -> bool) (l : list A) :
  map f (filter test l) = [] <-> forall x, In x l -> test x = false.
Proof.
  split.
  - intros H x Hx. destruct (test x) eqn:E; [|reflexivity].
    assert (Hin : In (f x) (map f (filter test l)))
      by (apply in_map; apply filter_In; split; assumption).
    rewrite H in Hin. destruct Hin.
  - intros H. induction l as [|x l IH]; [reflexivity|]. simpl.
    rewrite (H x (or_introl eq_refl)). apply IH. intros y Hy. apply H. right. exact Hy.
Qed.

(** X19: in a built graph, the nodes counted as isolated are exactly the
    nodes whose path is neither the source nor the target of any edge; and
    the nodes counted as having imports are exactly the sources of edges. *)
Theorem X19_isolated_nodes_touch_no_edge
  (languageId : string) (fileContents : list Route.FileContent) :
  let graph := Route.buildGraph (ParserRegistry.getParser languageId) fileContents in
  forall n, In n (Route.nodes graph) ->
    (RouteStats.isolated n = true <->
     forall e, In e (Route.edges graph) ->
               Route.source e <> Route.path n /\ Route.target e <> Route.path n) /\
    ((0 <? List.length (Route.imports n))%nat = true <->
     exists e, In e (Route.edges graph) /\ Route.source e = Route.path n).
Proof.
  cbv zeta. rewrite (registry_buildGraph_spec languageId fileContents).
  cbn [Route.nodes Route.edges].
  set (parser := ParserRegistry.getParser languageId).
  set (keys := JS.map_keys (Route.initNodes parser fileContents)).
  set (es := GraphSpec.derivedEdges parser keys fileContents).
  intros n Hn. apply in_map_iff in Hn as (k & <- & _).
  unfold RouteStats.isolated.
  cbn [GraphSpec.derivedNode Route.imports Route.importedBy Route.path].
  split.
  - rewrite andb_true_iff, !length_zero_iff_nil.
    unfold GraphSpec.targetsFrom, GraphSpec.sourcesTo. rewrite !map_filter_nil_iff.
    split.
    + intros [H1 H2] e He. split; apply String.eqb_neq; [apply H1 | apply H2]; exact He.
    + intros H. split; intros e He; apply String.eqb_neq; apply (H e He).
  - split.
    + intros H. destruct (GraphSpec.targetsFrom k es) as [|t ts] eqn:E; [discriminate|].
      assert (Ht : In t (GraphSpec.targetsFrom k es)) by (rewrite E; left; reflexivity).
      apply In_targetsFrom in Ht as (e & He & Hs & _). eauto.
    + intros (e & He & Hs).
      assert (Ht : In (Route.target e) (GraphSpec.targetsFrom k es))
        by (apply In_targetsFrom; eauto).
      destruct (GraphSpec.targetsFrom k es); [destruct Ht | reflexivity].
Qed.

Lemma X19_isolated_nodes_touch_no_edge_witness :
  (RouteStats.isolated
     {| Route.path := "src/a.ts"; Route.type := "other";
        Route.imports := ["src/b.ts"]; Route.importedBy := [] |} = true <->
   forall e,
     In e (Route.edges (Route.buildGraph (ParserRegistry.getParser "typescript")
                                         two_ts_files)) ->
     Route.source e <> "src/a.ts" /\ Route.target e <> "src/a.ts") /\
  ((0 <? 1)%nat = true <->
   exists e,
     In e (Route.edges (Route.buildGraph (ParserRegistry.getParser "typescript")
                                         two_ts_files))
     /\ Route.source e = "src/a.ts").
Proof.
  apply (X19_isolated_nodes_touch_no_edge "typescript" two_ts_files
           {| Route.path := "src/a.ts"; Route.type := "other";
              Route.imports := ["src/b.ts"]; Route.importedBy := [] |}).
  vm_compute. left. reflexivity.
Defined.

(** X20: a path all of whose files came without content (failed or skipped
    fetch) is never the source of an edge and its node has no imports; it
    still has its node, and can be the target of edges. *)
Theorem X20_files_without_content_import_nothing
  (languageId : string) (fileContents : list Route.FileContent) (p : string) :
  (forall f, In f fileContents -> Route.file_path f = p -> Route.content f = EmptyString) ->
  let graph := Route.buildGraph (ParserRegistry.getParser languageId) fileContents in
  (forall e, In e (Route.edges graph) -> Route.source e <> p) /\
  (forall n, In n (Route.nodes graph) -> Route.path n = p -> Route.imports n = []).
Proof.
  intros Hempty. cbv zeta. rewrite (registry_buildGraph_spec languageId fileContents).
  cbn [Route.nodes Route.edges].
  set (parser := ParserRegistry.getParser languageId).
  set (keys := JS.map_keys (Route.initNodes parser fileContents)).
  set (es := GraphSpec.derivedEdges parser keys fileContents).
  assert (Hsrc : forall e, In e es -> Route.source e <> p).
  { intros e He Hs. unfold es, GraphSpec.derivedEdges in He.
    apply in_flat_map in He as (f & Hf & He). unfold GraphSpec.edgesOfFile in He.
    destruct (JS.truthy (Route.content f)) eqn:Et; simpl in He; [|destruct He].
    apply in_map_iff in He as (m & <- & _). simpl in Hs.
    rewrite (Hempty f Hf Hs) in Et. discriminate. }
  split; [exact Hsrc|].
  intros n Hn Hp. apply in_map_iff in Hn as (k & <- & _).
  cbn [GraphSpec.derivedNode Route.path Route.imports] in *. subst k.
  unfold GraphSpec.targetsFrom. apply map_filter_nil_iff.
  intros e He. apply String.eqb_neq. apply Hsrc. exact He.
Qed.

Lemma X20_files_without_content_import_nothing_witness :
  (forall e,
      In e (Route.edges (Route.buildGraph (ParserRegistry.getParser "python")
                                          (pkg_files ++ [pkg_init])%list)) ->
      Route.source e <> "pkg/__init__.py") /\
  In {| Route.source := "pkg/mod.py"; Route.target := "pkg/__init__.py" |}
     (Route.edges (Route.buildGraph (ParserRegistry.getParser "python")
                                    (pkg_files ++ [pkg_init])%list)).
Proof.
  split.
  - apply (X20_files_without_content_import_nothing
             "python" (pkg_files ++ [pkg_init])%list "pkg/__init__.py").
    intros f Hf Hp. simpl in Hf.
    destruct Hf as [<- | [<- | [<- | []]]]; try reflexivity; discriminate Hp.
  - vm_compute. left. reflexivity.
Defined.

Lemma from_set_NoDup (xs : list string) : NoDup (RegistryState.from_set xs).
Proof.
  destruct (from_set_spec xs [] (NoDup_nil _)) as [H _]. exact H.
Qed.

(** X21: selecting a node of a built graph highlights exactly its
    neighbours: a path is highlighted when an edge of the graph joins it to
    the selected node, in one direction or the other, and the highlighted
    edge keys are those of the edges that start or end at the selected
    node; neither set repeats an element. *)
Theorem X21_selection_highlights_neighbours
  (languageId : string) (fileContents : list Route.FileContent) :
  let graph := Route.buildGraph (ParserRegistry.getParser languageId) fileContents in
  forall n, In n (Route.nodes graph) ->
    (forall p,
        In p (GraphView.highlightedPaths (Some n)) <->
        exists e, In e (Route.edges graph) /\
                  ((Route.source e = Route.path n /\ Route.target e = p) \/
                   (Route.target e = Route.path n /\ Route.source e = p))) /\
    (forall key,
        In key (GraphView.highlightedEdges (Some n) (Route.edges graph)) <->
        exists e, In e (Route.edges graph) /\
                  (Route.source e = Route.path n \/ Route.target e = Route.path n) /\
                  key = GraphView.edgeKey e) /\
    NoDup (GraphView.highlightedPaths (Some n)) /\
    NoDup (GraphView.highlightedEdges (Some n) (Route.edges graph)).
Proof.
  cbv zeta. rewrite (registry_buildGraph_spec languageId fileContents).
  cbn [Route.nodes Route.edges].
  set (parser := ParserRegistry.getParser languageId).
  set (keys := JS.map_keys (Route.initNodes parser fileContents)).
  set (es := GraphSpec.derivedEdges parser keys fileContents).
  intros n Hn. apply in_map_iff in Hn as (k & <- & _).
  unfold GraphView.highlightedPaths, GraphView.highlightedEdges.
  cbn [GraphSpec.derivedNode Route.imports Route.importedBy Route.path].
  split; [|split; [|split; apply from_set_NoDup]].
  - intros p. rewrite from_set_In, in_app_iff, In_targetsFrom, In_sourcesTo. split.
    + intros [(e & He & Hs & Ht) | (e & He & Hs & Ht)]; exists e; tauto.
    + intros (e & He & [[Hs Ht] | [Ht Hs]]); [left | right]; exists e; tauto.
  - intros key. rewrite from_set_In, in_map_iff. split.
    + intros (e & <- & He). apply filter_In in He as [He Htest].
      exists e. split; [exact He|]. split; [|reflexivity].
      apply orb_true_iff in Htest as [H | H]; apply String.eqb_eq in H; tauto.
    + intros (e & He & Htouch & ->). exists e. split; [reflexivity|].
      apply filter_In. split; [exact He|]. apply orb_true_iff.
      destruct Htouch as [H | H]; [left | right]; apply String.eqb_eq; exact H.
Qed.

Lemma X21_selection_highlights_neighbours_witness :
  In "src/a.ts"
     (GraphView.highlightedPaths
        (Some {| Route.path := "src/b.ts"; Route.type := "other";
                 Route.imports := []; Route.importedBy := ["src/a.ts"] |})) <->
  exists e,
    In e (Route.edges (Route.buildGraph (ParserRegistry.getParser "ts") two_ts_files)) /\
    ((Route.source e = "src/b.ts" /\ Route.target e = "src/a.ts") \/
     (Route.target e = "src/b.ts" /\ Route.source e = "src/a.ts")).
Proof.
  apply (proj1 (X21_selection_highlights_neighbours "ts" two_ts_files
                  {| Route.path := "src/b.ts"; Route.type := "other";
                     Route.imports := []; Route.importedBy := ["src/a.ts"] |}
                  ltac:(vm_compute; right; left; reflexivity))).
Defined.

(** X22: the code files of a request are at most 200, each a blob of the
    tree with one of the parser's extensions and none of its exclude
    patterns, taken from the front of the filtered tree; nothing is dropped
    when at most 200 files pass the filter. The graph of the request has
    therefore at most 200 nodes. *)
Theorem X22_code_files_are_capped
  (languageId : string) (fetch : string -> string) (tree : list Detector.GitHubTreeItem) :
  let parser := ParserRegistry.getParser languageId in
  let keep := fun item : Detector.GitHubTreeItem =>
                String.eqb (Detector.type item) "blob"
                && existsb (JS.endsWith (Detector.path item)) (extensions parser)
                && negb (existsb (JS.str_includes (Detector.path item))
                                 (excludePatterns parser)) in
  List.length (Route.codeFiles parser tree) <= 200 /\
  (forall item, In item (Route.codeFiles parser tree) ->
                In item tree /\ Detector.type item = "blob" /\
                (exists ext, In ext (extensions parser)
                             /\ JS.endsWith (Detector.path item) ext = true) /\
                (forall pattern, In pattern (excludePatterns parser) ->
                                 JS.str_includes (Detector.path item) pattern = false)) /\
  (exists dropped, filter keep tree = (Route.codeFiles parser tree ++ dropped)%list) /\
  (List.length (filter keep tree) <= 200 -> Route.codeFiles parser tree = filter keep tree) /\
  List.length (Route.nodes (RouteStats.graphOfTree parser fetch tree)) <= 200.
Proof.
  cbv zeta. set (parser := ParserRegistry.getParser languageId).
  set (keep := fun item : Detector.GitHubTreeItem =>
                 String.eqb (Detector.type item) "blob"
                 && existsb (JS.endsWith (Detector.path item)) (extensions parser)
                 && negb (existsb (JS.str_includes (Detector.path item))
                                  (excludePatterns parser))).
  assert (Hdef : Route.codeFiles parser tree = firstn 200 (filter keep tree))
    by reflexivity.
  assert (Hlen : List.length (Route.codeFiles parser tree) <= 200)
    by (rewrite Hdef; apply firstn_le_length).
  split; [exact Hlen|]. split; [|split; [|split]].
  - intros item Hitem. rewrite Hdef in Hitem. apply firstn_In in Hitem.
    apply filter_In in Hitem as [Hin Hkeep]. unfold keep in Hkeep.
    apply andb_true_iff in Hkeep as [Hkeep Hexcl].
    apply andb_true_iff in Hkeep as [Hblob Hext].
    split; [exact Hin|]. split; [apply String.eqb_eq; exact Hblob|]. split.
    + apply existsb_exists in Hext. exact Hext.
    + intros pattern Hp. apply negb_true_iff in Hexcl.
      destruct (JS.str_includes (Detector.path item) pattern) eqn:E; [|reflexivity].
      assert (Hex : existsb (JS.str_includes (Detector.path item)) (excludePatterns parser)
                    = true) by (apply existsb_exists; eauto).
      congruence.
  - exists (skipn 200 (filter keep tree)). rewrite Hdef. symmetry. apply firstn_skipn.
  - intros Hsmall. rewrite Hdef. apply firstn_all2. exact Hsmall.
  - unfold RouteStats.graphOfTree.
    pose proof (node_count_le_file_count languageId
                  (Route.fetchContents fetch (Route.codeFiles parser tree))) as Hn.
    fold parser in Hn. unfold Route.fetchContents in Hn at 2.
    rewrite length_map in Hn. lia.
Qed.

Lemma exact_match_spec (parser : LanguageParser) (importPath : string)
      (available : list string) (matchingPath : string) :
  matchImportToFile parser = None ->
  if_truthy (Route.matchPath parser importPath available) = Some matchingPath ->
  matchingPath = importPath /\ In importPath available.
Proof.
  intros Hnone H. apply if_truthy_Some in H. unfold Route.matchPath in H.
  rewrite Hnone in H. apply if_truthy_Some in H. apply find_some in H as [Hin Heq].
  apply String.eqb_eq in Heq. subst matchingPath. split; [reflexivity | exact Hin].
Qed.

(** X23: for a parser that brings no [matchImportToFile], the builder falls
    back to exact equality: every edge joins a file to an import string of
    that file which is, as it stands, the path of a node; and the graph has
    no dangling edge. *)
Theorem X23_exact_match_fallback
  (parser : LanguageParser) (fileContents : list Route.FileContent) :
  matchImportToFile parser = None ->
  let graph := Route.buildGraph parser fileContents in
  forall e, In e (Route.edges graph) ->
    In (Route.target e) (map Route.path (Route.nodes graph)) /\
    In (Route.source e) (map Route.path (Route.nodes graph)) /\
    exists file,
      In file fileContents /\ Route.source e = Route.file_path file /\
      In (Route.target e)
         (parseImports parser (Route.content file) (Route.file_path file)).
Proof.
  intros Hnone. cbv zeta.
  assert (Hsound : forall importPath available matchingPath,
             if_truthy (Route.matchPath parser importPath available) = Some matchingPath ->
             In matchingPath available).
  { intros i a m H. destruct (exact_match_spec parser i a m Hnone H) as [-> Hin].
    exact Hin. }
  rewrite (buildGraph_spec parser Hsound fileContents). cbn [Route.nodes Route.edges].
  destruct (initNodes_spec parser fileContents) as (_ & _ & Hkeys). cbv zeta in Hkeys.
  set (keys := JS.map_keys (Route.initNodes parser fileContents)) in *.
  rewrite map_map. cbn [GraphSpec.derivedNode Route.path]. rewrite map_id.
  intros e He. unfold GraphSpec.derivedEdges in He.
  apply in_flat_map in He as (f & Hf & He). unfold GraphSpec.edgesOfFile in He.
  destruct (negb (JS.truthy (Route.content f))); [destruct He|].
  apply in_map_iff in He as (m & <- & Hm). cbn [Route.source Route.target].
  unfold GraphSpec.matchedTargets in Hm. apply in_flat_map in Hm as (i & Hi & Hm).
  destruct (if_truthy (Route.matchPath parser i keys)) as [m'|] eqn:E; [|destruct Hm].
  destruct Hm as [<- | []].
  destruct (exact_match_spec parser i keys m' Hnone E) as [-> Hin].
  split; [exact Hin|]. split.
  - apply Hkeys. apply in_map. exact Hf.
  - exists f. repeat split; assumption.
Qed.

Lemma X23_exact_match_fallback_witness :
  In "b.txt"
     (map Route.path
        (Route.nodes
           (Route.buildGraph literalParser
              [ {| Route.file_path := "a.txt"; Route.content := "b.txt,c.txt,b" |};
                {| Route.file_path := "b.txt"; Route.content := EmptyString |} ]))) /\
  Route.edges
    (Route.buildGraph literalParser
       [ {| Route.file_path := "a.txt"; Route.content := "b.txt,c.txt,b" |};
         {| Route.file_path := "b.txt"; Route.content := EmptyString |} ])
  = [ {| Route.source := "a.txt"; Route.target := "b.txt" |} ].
Proof.
  split; [|reflexivity].
  apply (X23_exact_match_fallback literalParser
           [ {| Route.file_path := "a.txt"; Route.content := "b.txt,c.txt,b" |};
             {| Route.file_path := "b.txt"; Route.content := EmptyString |} ]
           eq_refl
           {| Route.source := "a.txt"; Route.target := "b.txt" |}).
  vm_compute. left. reflexivity.
Defined.

Lemma find_app {A : Type} (f : A -> bool) (l1 l2 : list A) :
  find f (l1 ++ l2) = match find f l1 with Some x => Some x | None => find f l2 end.
Proof.
  induction l1 as [|x l1 IH]; simpl; [reflexivity|].
  destruct (f x); [reflexivity | exact IH].
Qed.

Lemma truthy_append_nonempty (w x : string) :
  x <> EmptyString -> JS.truthy (w ++ x) = true.
Proof.
  intros Hx. unfold JS.truthy. apply negb_true_iff. apply String.eqb_neq.
  intros H. apply (f_equal String.length) in H. rewrite length_append in H.
  destruct x; [congruence | simpl in H; lia].
Qed.

Lemma variations_truthy (importPath v : string) :
  In v (JavaScriptParser.variations importPath) -> JS.truthy v = true.
Proof.
  unfold JavaScriptParser.variations. cbn [In].
  intros H. repeat (destruct H as [<- | H]; [apply truthy_append_nonempty; discriminate|]).
  destruct H.
Qed.

(** X24: the import of a workspace package. For a non-empty package path
    [p] that starts neither with [packages/] nor with [apps/], the guess
    [packages/p] is matched against, in this order: [packages/p] and its
    variations, [p] and its variations, [apps/p] and its variations; the
    first available one is the answer, and there is none exactly when none
    of them is available. *)
Theorem X24_workspace_import_candidates (p : string) (availableFiles : list string) :
  p <> EmptyString ->
  JS.startsWith p "packages/" = false ->
  JS.startsWith p "apps/" = false ->
  JavaScriptParser.matchImportToFile ("packages/" ++ p) availableFiles
  = find (JS.includes availableFiles)
         ((("packages/" ++ p)%string
             :: JavaScriptParser.variations ("packages/" ++ p)%string)
          ++ (p :: JavaScriptParser.variations p)
          ++ (("apps/" ++ p)%string
                :: JavaScriptParser.variations ("apps/" ++ p)%string))%list.
Proof.
  intros Hp Hpk Hap.
  assert (Htp : JS.truthy p = true).
  { unfold JS.truthy. apply negb_true_iff. apply String.eqb_neq. exact Hp. }
  assert (Hta : JS.truthy ("apps/" ++ p) = true) by reflexivity.
  rewrite !find_app. cbn [find].
  rewrite (js_matchImportToFile_unfold ("packages/" ++ p)).
  destruct (JS.includes availableFiles ("packages/" ++ p)); [reflexivity|].
  destruct (find (JS.includes availableFiles)
                 (JavaScriptParser.variations ("packages/" ++ p))); [reflexivity|].
  change (JS.startsWith ("packages/" ++ p) "packages/") with true. cbv iota.
  change (JS.strip_prefix "packages/" ("packages/" ++ p)) with p.
  rewrite (js_matchImportToFile_unfold p).
  destruct (JS.includes availableFiles p); [simpl; rewrite Htp; reflexivity|].
  destruct (find (JS.includes availableFiles) (JavaScriptParser.variations p))
    as [v|] eqn:Ev.
  { simpl. apply find_some in Ev as [Hv _].
    rewrite (variations_truthy p v Hv). reflexivity. }
  rewrite Hpk, Hap.
  rewrite (js_matchImportToFile_unfold ("apps/" ++ p)).
  destruct (JS.includes availableFiles ("apps/" ++ p)); [simpl; reflexivity|].
  destruct (find (JS.includes availableFiles)
                 (JavaScriptParser.variations ("apps/" ++ p))) as [v|] eqn:Ev'.
  { simpl. apply find_some in Ev' as [Hv _].
    rewrite (variations_truthy _ v Hv). simpl.
    rewrite (variations_truthy _ v Hv). reflexivity. }
  reflexivity.
Qed.

Lemma X24_workspace_import_candidates_witness :
  JavaScriptParser.matchImportToFile ("packages/" ++ "ui/button")
    ["apps/ui/button/index.tsx"; "ui/button.jsx"]
  = find (JS.includes ["apps/ui/button/index.tsx"; "ui/button.jsx"])
         ((("packages/" ++ "ui/button")%string
             :: JavaScriptParser.variations ("packages/" ++ "ui/button")%string)
          ++ ("ui/button" :: JavaScriptParser.variations "ui/button")
          ++ (("apps/" ++ "ui/button")%string
                :: JavaScriptParser.variations ("apps/" ++ "ui/button")%string))%list.
Proof.
  apply (X24_workspace_import_candidates "ui/button"
           ["apps/ui/button/index.tsx"; "ui/button.jsx"]).
  - discriminate.
  - reflexivity.
  - reflexivity.
Defined.

(** ** One Python import statement, from the text to the resolved paths *)

Section OneStatement.
Import Regex.







































End OneStatement.







(** ** File types *)

Lemma classify_skips (pre rest : list (string * list string)) (path : string) :
  (forall t ps p, In (t, ps) pre -> In p ps -> JS.str_includes path p = false) ->
  Configs.classify (pre ++ rest) path = Configs.classify rest path.
Proof.
  induction pre as [|[t ps] pre IH]; intros H; [reflexivity|].
  cbn [app Configs.classify].
  replace (existsb (fun pattern => JS.str_includes path pattern) ps) with false.
  - apply IH. intros t' ps' p Hin. apply (H t' ps' p). right. exact Hin.
  - symmetry. apply not_true_is_false. intros E.
    apply existsb_exists in E as (p & Hp & E).
    rewrite (H t ps p (or_introl eq_refl) Hp) in E. discriminate.
Qed.

Lemma classify_other (fileTypes : list (string * list string)) (path : string) :
  Forall (fun entry => fst entry = "other" -> snd entry = []) fileTypes ->
  Configs.classify fileTypes path = "other" <->
  forall t ps p, In (t, ps) fileTypes -> In p ps -> JS.str_includes path p = false.
Proof.
  induction fileTypes as [|[t ps] rest IH]; intros Hf; cbn [Configs.classify].
  - split; [intros _ ? ? ? [] | reflexivity].
  - inversion Hf as [|? ? Hhd Htl]; subst. specialize (IH Htl).
    destruct (existsb (fun pattern => JS.str_includes path pattern) ps) eqn:E.
    + split.
      * intros ->. simpl in Hhd. rewrite (Hhd eq_refl) in E. discriminate.
      * intros H. apply existsb_exists in E as (p & Hp & E).
        rewrite (H t ps p (or_introl eq_refl) Hp) in E. discriminate.
    + rewrite IH. split.
      * intros H t' ps' p [Heq | Hin] Hp.
        -- inversion Heq; subst.
           destruct (JS.str_includes path p) eqn:Ep; [|reflexivity].
           assert (existsb (fun pattern => JS.str_includes path pattern) ps' = true)
             by (apply existsb_exists; exists p; auto).
           congruence.
        -- apply (H t' ps' p Hin Hp).
      * intros H t' ps' p Hin. apply (H t' ps' p). right. exact Hin.
Qed.

(** X27: the file type is the first type, in the order of the table of the
    language, one of whose patterns occurs in the path: types earlier in the
    table none of whose patterns occurs are passed over, and the types after
    it are not looked at. *)
Theorem X27_file_type_is_first_match
        (pre post : list (string * list string)) (type : string)
        (patterns : list string) (path : string) :
  (forall t ps p, In (t, ps) pre -> In p ps -> JS.str_includes path p = false) ->
  (exists p, In p patterns /\ JS.str_includes path p = true) ->
  Configs.classify (pre ++ (type, patterns) :: post) path = type.
Proof.
  intros Hpre Hhit. rewrite (classify_skips pre _ path Hpre).
  cbn [Configs.classify].
  replace (existsb (fun pattern => JS.str_includes path pattern) patterns) with true;
    [reflexivity|].
  symmetry. apply existsb_exists. exact Hhit.
Qed.

Lemma X27_file_type_is_first_match_witness :
  JavaScriptParser.getFileType "src/app/api/users/route.ts" = "api".
Proof.
  apply (X27_file_type_is_first_match
           [("component", ["/components/"; ".tsx"; ".jsx"])]
           (tl (tl (Configs.fileTypes JavaScriptParser.config)))
           "api" ["/api/"; "route.ts"; "route.js"] "src/app/api/users/route.ts").
  - intros t ps p [E | []] Hp. inversion E; subst.
    destruct Hp as [<- | [<- | [<- | []]]]; reflexivity.
  - exists "/api/". split; [left; reflexivity | reflexivity].
Defined.

(** X28: for both parsers, the file type is [other] exactly when no pattern
    of the table of the language occurs in the path. *)
Theorem X28_file_type_other (path : string) :
  (JavaScriptParser.getFileType path = "other" <->
   forall t ps p, In (t, ps) (Configs.fileTypes JavaScriptParser.config) ->
                  In p ps -> JS.str_includes path p = false) /\
  (PythonParser.getFileType path = "other" <->
   forall t ps p, In (t, ps) (Configs.fileTypes PythonParser.config) ->
                  In p ps -> JS.str_includes path p = false).
Proof.
  split; apply classify_other; repeat constructor; discriminate.
Qed.

(** ** Which imports the JavaScript parser keeps *)

Lemma hd_split_first (c : ascii) (s : string) :
  Ascii.eqb c "/" = false ->
  exists h, hd EmptyString (JS.split "/" (String c s)) = String c h.
Proof.
  intros H. cbn [JS.split]. rewrite H.
  destruct (JS.split "/" s) as [|h t]; [exists EmptyString | exists h]; reflexivity.
Qed.

Lemma hd_split_slash (s : string) :
  hd EmptyString (JS.split "/" (String "/" s)) = EmptyString.
Proof. reflexivity. Qed.

(** X29: inside a monorepo (the importing file has [packages/] or [apps/]
    in its path) every import that starts neither with a dot, nor with [@],
    nor with [~/] is taken as a workspace package: it is kept, and resolved
    to [packages/] followed by the import. *)
Theorem X29_monorepo_bare_import (importPath currentPath : string) :
  JS.str_includes currentPath "packages/" || JS.str_includes currentPath "apps/" = true ->
  JS.startsWith importPath "." = false ->
  JS.startsWith importPath "@" = false ->
  JS.startsWith importPath "~/" = false ->
  JavaScriptParser.isInternalImport importPath currentPath = true /\
  JavaScriptParser.resolveImportPath importPath currentPath = "packages/" ++ importPath.
Proof.
  intros Hmono Hdot Hat Htilde.
  unfold JavaScriptParser.isInternalImport, JavaScriptParser.resolveImportPath.
  rewrite Hdot, Htilde, Hmono.
  assert (Hat2 : JS.startsWith importPath "@/" = false).
  { destruct importPath as [|c s]; [reflexivity|]. simpl in Hat |- *.
    rewrite andb_true_r in Hat. rewrite Hat. reflexivity. }
  assert (Hd1 : JS.startsWith importPath "./" = false).
  { destruct importPath as [|c s]; [reflexivity|]. simpl in Hdot |- *.
    rewrite andb_true_r in Hdot. rewrite Hdot. reflexivity. }
  assert (Hd2 : JS.startsWith importPath "../" = false).
  { destruct importPath as [|c s]; [reflexivity|]. simpl in Hdot |- *.
    rewrite andb_true_r in Hdot. rewrite Hdot. reflexivity. }
  rewrite Hat2, Hd1, Hd2. cbn [orb]. split; [|reflexivity].
  destruct importPath as [|c s]; [reflexivity|].
  destruct (Ascii.eqb c "/") eqn:Hc.
  - apply Ascii.eqb_eq in Hc. subst c. rewrite hd_split_slash. reflexivity.
  - destruct (hd_split_first c s Hc) as [h ->].
    change (JS.startsWith (String c s) "@") with (Ascii.eqb "@" c && true) in Hat.
    change (JS.startsWith (String c s) ".") with (Ascii.eqb "." c && true) in Hdot.
    rewrite andb_true_r in Hat, Hdot.
    change (JS.startsWith (String c h) "@") with (Ascii.eqb "@" c && true).
    change (String.eqb (String c h) ".") with (Ascii.eqb c "." && String.eqb h EmptyString).
    change (String.eqb (String c h) "..") with (Ascii.eqb c "." && String.eqb h ".").
    rewrite (Ascii.eqb_sym c "."), Hat, Hdot. reflexivity.
Qed.

Lemma X29_monorepo_bare_import_witness :
  JavaScriptParser.isInternalImport "next/server" "packages/next/src/client/link.tsx" = true /\
  JavaScriptParser.resolveImportPath "next/server" "packages/next/src/client/link.tsx"
  = "packages/" ++ "next/server".
Proof.
  apply (X29_monorepo_bare_import "next/server" "packages/next/src/client/link.tsx");
    reflexivity.
Defined.

(** X30: an import of a scoped package ([@scope/name], that is, one that
    starts with [@] but not with the alias [@/]) is never kept, wherever
    the importing file is. *)
Theorem X30_scoped_package_is_external (importPath currentPath : string) :
  JS.startsWith importPath "@" = true ->
  JS.startsWith importPath "@/" = false ->
  JavaScriptParser.isInternalImport importPath currentPath = false.
Proof.
  intros Hat Halias. unfold JavaScriptParser.isInternalImport.
  apply JavaScriptParser.startsWith_cons in Hat as (s & -> & _).
  rewrite Halias.
  change (JS.startsWith (String "@" s) ".") with false.
  change (JS.startsWith (String "@" s) "~/") with false.
  cbn [orb].
  destruct (hd_split_first "@" s eq_refl) as [h ->].
  change (JS.startsWith (String "@" h) "@") with true.
  destruct (JS.str_includes currentPath "packages/" || JS.str_includes currentPath "apps/");
    reflexivity.
Qed.

Lemma X30_scoped_package_is_external_witness :
  JavaScriptParser.isInternalImport "@radix-ui/react-slot" "apps/web/button.tsx" = false.
Proof.
  apply (X30_scoped_package_is_external "@radix-ui/react-slot" "apps/web/button.tsx");
    reflexivity.
Defined.
